(** * Fin-Pulse Engine: the scoring and explanation core

    A shallow embedding of [calculate_credit_score],
    [generate_plain_language_summary] and [get_rating_category] from
    [src/fin_pulse_engine.py], and the properties of the scoring contract
    proved about it.

    Conventions of the embedding:
    - a Python [int] is a [Z];
    - a Python [float] is a finite binary64 number, kept as the integer
      number of units of 2^-1074 it is worth (every finite binary64 number
      is a whole number of such units), so that comparisons are comparisons
      of integers and nothing is approximated;
    - [int / int] is CPython's true division: the quotient correctly rounded
      to binary64 (nearest, ties to even), [ZeroDivisionError] on a zero
      divisor and [OverflowError] when the rounded quotient leaves the
      binary64 range, that is from 2^1024 on; statements about a quotient
      say in which range of the figures it is a float;
    - a Python [dict] written by the scorer is a [gmap string value];
    - text is ASCII text: [str.lower] and [str.upper] act on the letters
      A to Z and a to z, and [str.strip] removes ASCII whitespace. *)

From Stdlib Require Import ZArith Lia Bool List String Ascii SpecFloat.
From stdpp Require Import gmap strings.

Open Scope Z_scope.

(** ** Exceptions and the result of a fallible computation *)

Inductive exn : Type :=
| ZeroDivisionError
| OverflowError
| TypeError.

Inductive result (A : Type) : Type :=
| Ok (a : A)
| Raise (e : exn).

Arguments Ok {A} a.
Arguments Raise {A} e.

#[global] Instance result_ret : MRet result := fun A a => Ok a.

#[global] Instance result_bind : MBind result :=
  fun A B f m => match m with Ok a => f a | Raise e => Raise e end.

(** ** Binary64 arithmetic *)

(** Nearest integer to [a / b], ties to the even one ([0 <= a], [0 < b]). *)
Definition rne_div (a b : Z) : Z :=
  let q := a / b in
  let r := a mod b in
  if 2 * r <? b then q
  else if b <? 2 * r then q + 1
  else if Z.even q then q else q + 1.

(** Binary64 keeps 53 significant bits: a quotient whose integer part [q]
    has more is rounded to a multiple of [2 ^ ulp_shift q]. *)
Definition ulp_shift (q : Z) : Z := Z.max 0 (Z.log2 q - 52).

(** [a / b] rounded to 53 significant bits, for [0 <= a] and [0 < b]. *)
Definition round_quot (a b : Z) : Z :=
  let k := ulp_shift (a / b) in
  rne_div a (b * 2 ^ k) * 2 ^ k.

(** One unit is 2^-1074, the smallest positive binary64 number. *)
Definition unit_scale : Z := 2 ^ 1074.

(** The first power of two that binary64 cannot hold, 2^1024, in units. *)
Definition overflow_units : Z := 2 ^ 2098.

Record pyfloat : Type := Float { units : Z }.

(** The binary64 number nearest to [x / y], sign included. *)
Definition nearest_float (x y : Z) : pyfloat :=
  Float (Z.sgn x * Z.sgn y * round_quot (Z.abs x * unit_scale) (Z.abs y)).

(** [x / y] on two ints (CPython [long_true_divide]). *)
Definition py_true_div (x y : Z) : result pyfloat :=
  if y =? 0 then Raise ZeroDivisionError
  else
    let f := nearest_float x y in
    if overflow_units <=? Z.abs (units f) then Raise OverflowError
    else Ok f.

(** A decimal literal [num / den] of the source text, e.g. [0.2] is
    [float_lit 2 10]: the parser yields the nearest binary64 number. *)
Definition float_lit (num den : Z) : pyfloat := nearest_float num den.

Definition float_of_int (n : Z) : pyfloat := Float (n * unit_scale).

Definition float_le (f g : pyfloat) : bool := units f <=? units g.

(** Comparison of a float with an int is exact in Python. *)
Definition float_ge_int (f : pyfloat) (n : Z) : bool := n * unit_scale <=? units f.

Definition float_le_int (f : pyfloat) (n : Z) : bool := units f <=? n * unit_scale.

(** [round(f, ndigits)] for a float and [0 <= ndigits]: the decimal with
    [ndigits] fractional digits nearest to the exact value of [f] (ties to
    even), converted back to the nearest binary64 number. *)
Definition py_round (f : pyfloat) (ndigits : Z) : pyfloat :=
  let p := 10 ^ ndigits in
  let d := Z.sgn (units f) * rne_div (Z.abs (units f) * p) unit_scale in
  nearest_float d p.

(** The same number in the Standard Library's IEEE 754 format, used to
    test the arithmetic above against [SpecFloat.SFdiv]. *)
Definition to_spec_float (f : pyfloat) : spec_float :=
  match units f with
  | Z0 => S754_zero false
  | Zpos p =>
      let k := ulp_shift (Zpos p) in
      S754_finite false (Z.to_pos (Zpos p / 2 ^ k)) (k - 1074)
  | Zneg p =>
      let k := ulp_shift (Zpos p) in
      S754_finite true (Z.to_pos (Zpos p / 2 ^ k)) (k - 1074)
  end.

Definition spec_float_of_int (z : Z) : spec_float :=
  match z with
  | Z0 => S754_zero false
  | Zpos p => S754_finite false p 0
  | Zneg p => S754_finite true p 0
  end.

Definition ieee_div (x y : Z) : spec_float :=
  SFdiv 53 1024 (spec_float_of_int x) (spec_float_of_int y).

(** ** Python values and dictionaries *)

Inductive value : Type :=
| VInt (n : Z)
| VFloat (f : pyfloat)
| VStr (s : string).

(** [v >= n] and [v <= n] for an int literal [n]: a [str] operand raises. *)
Definition py_ge (v : value) (n : Z) : result bool :=
  match v with
  | VInt m => Ok (n <=? m)
  | VFloat f => Ok (float_ge_int f n)
  | VStr _ => Raise TypeError
  end.

Definition py_le (v : value) (n : Z) : result bool :=
  match v with
  | VInt m => Ok (m <=? n)
  | VFloat f => Ok (float_le_int f n)
  | VStr _ => Raise TypeError
  end.

(** [d.get(key, dflt)] *)
Definition dict_get (d : gmap string value) (key : string) (dflt : value) : value :=
  default dflt (d !! key).

(** ** Text *)

Open Scope string_scope.
Open Scope list_scope.
Open Scope Z_scope.

Definition lower_ascii (c : ascii) : ascii :=
  let n := N_of_ascii c in
  if ((65 <=? n) && (n <=? 90))%N then ascii_of_N (n + 32) else c.

(** [s.lower()] *)
Fixpoint py_lower (s : string) : string :=
  match s with
  | EmptyString => EmptyString
  | String c t => String (lower_ascii c) (py_lower t)
  end.

(** [sub in s]: [sub] occurs in [s] as a substring. *)
Fixpoint py_in (sub s : string) : bool :=
  String.prefix sub s ||
  match s with
  | EmptyString => false
  | String _ t => py_in sub t
  end.

(** [sep.join(parts)] *)
Definition py_join (sep : string) (parts : list string) : string :=
  String.concat sep parts.

(** ** The data handed to the core *)

(** The dictionary built by [get_financial_data]. A field read with
    [financial_data.get(key, default)] is optional: [None] is a missing key. *)
Record FinancialData : Type := {
  ticker : string;
  company_name : string;
  total_revenue : option Z;
  total_debt : option Z;
  market_cap : option Z;
  currency : option string;
  sector : string;
  industry : string
}.

(** One entry of the list built by [get_news_headlines], as the scorer
    reads it with [headline.get('title', '')] and
    [headline.get('description', '')]: [None] is a missing key, [Some text]
    a text. An entry that is there and is no text (a JSON null handed on by
    the provider) makes [.lower()] raise [AttributeError] in the loop; such a
    headline is no [Headline], and a statement on the scorer over a
    [list Headline] is about headlines whose title and description are
    texts or missing. *)
Record Headline : Type := {
  title : option string;
  description : option string;
  url : string;
  published_at : string;
  source : string
}.

(** ** calculate_credit_score *)

(** *** 1. Debt-to-revenue ratio *)

Definition debt_ratio_band (debt_ratio : pyfloat) : Z :=
  if float_le debt_ratio (float_lit 2 10) then 25
  else if float_le debt_ratio (float_lit 4 10) then 15
  else if float_le debt_ratio (float_lit 6 10) then 5
  else if float_le debt_ratio (float_lit 8 10) then -5
  else if float_le debt_ratio (float_lit 10 10) then -15
  else -25.

(** The body of the [try] statement: the new [debt_ratio_impact] and the
    explanation with its [debt_ratio] entry, or the exception raised. *)
Definition debt_ratio_try (total_revenue total_debt : Z)
    (explanation : gmap string value) : result (Z * gmap string value) :=
  if (0 <? total_revenue) && (0 <=? total_debt) then
    debt_ratio ← py_true_div total_debt total_revenue;
    mret (debt_ratio_band debt_ratio,
          <["debt_ratio" := VFloat (py_round debt_ratio 3)]> explanation)
  else
    mret (-10, <["debt_ratio" := VStr "Data unavailable"]> explanation).

(** The [try] statement with its [except ZeroDivisionError] handler; any
    other exception propagates. *)
Definition debt_ratio_analysis (total_revenue total_debt : Z)
    (explanation : gmap string value) : result (Z * gmap string value) :=
  match debt_ratio_try total_revenue total_debt explanation with
  | Raise ZeroDivisionError =>
      Ok (-20, <["debt_ratio" := VStr "Revenue is zero"]> explanation)
  | r => r
  end.

(** *** 2. Market capitalisation *)

Definition market_cap_band (market_cap_billions : pyfloat) : Z :=
  if float_ge_int market_cap_billions 500 then 20
  else if float_ge_int market_cap_billions 100 then 15
  else if float_ge_int market_cap_billions 50 then 10
  else if float_ge_int market_cap_billions 10 then 5
  else 0.

Definition market_cap_inr (market_cap : Z) (currency : string) : Z :=
  if String.eqb currency "USD" then market_cap * 83 else market_cap.

Definition market_cap_analysis (financial_data : FinancialData)
    (explanation : gmap string value) : result (Z * gmap string value) :=
  let market_cap := default 0 (market_cap financial_data) in
  if 0 <? market_cap then
    let currency := default "INR" (currency financial_data) in
    market_cap_billions ← py_true_div (market_cap_inr market_cap currency) 1000000000;
    mret (market_cap_band market_cap_billions,
          <["market_cap_billions" := VFloat (py_round market_cap_billions 2)]> explanation)
  else
    mret (0, <["market_cap_billions" := VStr "Data unavailable"]> explanation).

(** *** 3. News sentiment *)

Definition positive_keywords : list string :=
  ["profit"; "growth"; "deal"; "upgrade"; "surge"; "gain"; "rise";
   "expansion"; "acquisition"; "partnership"; "success"; "record";
   "strong"; "robust"; "positive"; "bullish"; "optimistic"].

Definition negative_keywords : list string :=
  ["loss"; "fraud"; "scam"; "downgrade"; "slump"; "decline"; "fall";
   "crash"; "lawsuit"; "investigation"; "layoffs"; "crisis"; "warning";
   "deficit"; "trouble"; "concern"; "risk"; "scandal"].

Definition full_text (headline : Headline) : string :=
  py_lower (default "" (title headline)) +:+ " " +:+
  py_lower (default "" (description headline)).

Definition has_positive (headline : Headline) : bool :=
  existsb (fun keyword => py_in keyword (full_text headline)) positive_keywords.

Definition has_negative (headline : Headline) : bool :=
  existsb (fun keyword => py_in keyword (full_text headline)) negative_keywords.

(** The loop state is [(news_sentiment_impact, positive_count, negative_count)];
    one iteration of the [for] loop: *)
Definition sentiment_step (st : Z * Z * Z) (headline : Headline) : Z * Z * Z :=
  let '(news_sentiment_impact, positive_count, negative_count) := st in
  if has_negative headline then
    (news_sentiment_impact - 5, positive_count, negative_count + 1)
  else if has_positive headline then
    (news_sentiment_impact + 5, positive_count + 1, negative_count)
  else st.

(** [if news_headlines:] guards the loop; on an empty list the loop does
    nothing either. *)
Definition news_sentiment_analysis (news_headlines : list Headline) : Z * Z * Z :=
  fold_left sentiment_step news_headlines (0, 0, 0).

(** *** The scorer *)

Definition invalid_ticker_explanation : gmap string value :=
  list_to_map
    [("base_score", VInt 0);
     ("debt_ratio_impact", VInt 0);
     ("market_cap_impact", VInt 0);
     ("news_sentiment_impact", VInt 0);
     ("error", VStr "Invalid ticker or data unavailable")].

Definition initial_explanation (base_score : Z) : gmap string value :=
  list_to_map
    [("base_score", VInt base_score);
     ("debt_ratio_impact", VInt 0);
     ("market_cap_impact", VInt 0);
     ("news_sentiment_impact", VInt 0)].

Definition calculate_credit_score (financial_data : option FinancialData)
    (news_headlines : list Headline) : result (Z * gmap string value) :=
  match financial_data with
  | None => mret (0, invalid_ticker_explanation)
  | Some financial_data =>
      let base_score := 50 in
      let current_score := base_score in
      let explanation := initial_explanation base_score in
      let total_revenue := default 0 (total_revenue financial_data) in
      let total_debt := default 0 (total_debt financial_data) in
      '(debt_ratio_impact, explanation) ←
        debt_ratio_analysis total_revenue total_debt explanation;
      let explanation := <["debt_ratio_impact" := VInt debt_ratio_impact]> explanation in
      let current_score := current_score + debt_ratio_impact in
      '(market_cap_impact, explanation) ←
        market_cap_analysis financial_data explanation;
      let explanation := <["market_cap_impact" := VInt market_cap_impact]> explanation in
      let current_score := current_score + market_cap_impact in
      let '(news_sentiment_impact, positive_count, negative_count) :=
        news_sentiment_analysis news_headlines in
      let explanation :=
        <["negative_news_count" := VInt negative_count]>
          (<["positive_news_count" := VInt positive_count]>
             (<["news_sentiment_impact" := VInt news_sentiment_impact]> explanation)) in
      let current_score := current_score + news_sentiment_impact in
      let final_score := Z.max 0 (Z.min 100 current_score) in
      let explanation := <["final_score" := VInt final_score]> explanation in
      mret (final_score, explanation)
  end.

(** ** generate_plain_language_summary *)

Definition overall_assessment (score : Z) : string :=
  if 80 <=? score then "shows excellent creditworthiness"
  else if 65 <=? score then "demonstrates strong financial health"
  else if 50 <=? score then "presents a moderate credit profile"
  else if 35 <=? score then "shows concerning credit indicators"
  else "exhibits high credit risk".

(** Each of the three [if]/[elif] chains appends to one of the two lists
    [(strengths, concerns)], or to neither. *)
Definition analyze_debt (debt_impact : value) (lists : list string * list string)
    : result (list string * list string) :=
  let '(strengths, concerns) := lists in
  c1 ← py_ge debt_impact 15;
  if c1 : bool then mret (strengths ++ ["excellent debt management"], concerns)
  else
    c2 ← py_ge debt_impact 5;
    if c2 : bool then mret (strengths ++ ["healthy debt levels"], concerns)
    else
      c3 ← py_le debt_impact (-10);
      if c3 : bool then mret (strengths, concerns ++ ["high debt burden"])
      else mret (strengths, concerns).

Definition analyze_market (market_cap_impact : value) (lists : list string * list string)
    : result (list string * list string) :=
  let '(strengths, concerns) := lists in
  c1 ← py_ge market_cap_impact 15;
  if c1 : bool then mret (strengths ++ ["strong market position"], concerns)
  else
    c2 ← py_ge market_cap_impact 10;
    if c2 : bool then mret (strengths ++ ["solid market presence"], concerns)
    else
      c3 ← py_le market_cap_impact 5;
      if c3 : bool then mret (strengths, concerns ++ ["limited market size"])
      else mret (strengths, concerns).

Definition analyze_news (news_impact : value) (lists : list string * list string)
    : result (list string * list string) :=
  let '(strengths, concerns) := lists in
  c1 ← py_ge news_impact 10;
  if c1 : bool then mret (strengths ++ ["positive market sentiment"], concerns)
  else
    c2 ← py_ge news_impact 5;
    if c2 : bool then mret (strengths ++ ["favorable news coverage"], concerns)
    else
      c3 ← py_le news_impact (-10);
      if c3 : bool then mret (strengths, concerns ++ ["negative market sentiment"])
      else
        c4 ← py_le news_impact (-5);
        if c4 : bool then mret (strengths, concerns ++ ["mixed news sentiment"])
        else mret (strengths, concerns).

(** The lists [strengths] and [concerns] as they stand when the summary is
    put together. *)
Definition strengths_and_concerns (explanation : gmap string value)
    : result (list string * list string) :=
  let debt_impact := dict_get explanation "debt_ratio_impact" (VInt 0) in
  let market_cap_impact := dict_get explanation "market_cap_impact" (VInt 0) in
  let news_impact := dict_get explanation "news_sentiment_impact" (VInt 0) in
  lists ← analyze_debt debt_impact ([], []);
  lists ← analyze_market market_cap_impact lists;
  analyze_news news_impact lists.

(** What [if strengths: ...] appends to [summary_parts]. *)
Definition strengths_clause (strengths : list string) : list string :=
  match strengths with
  | [] => []
  | [s] => ["The company benefits from " +:+ s +:+ "."]
  | _ =>
      ["Key strengths include " +:+ py_join ", " (List.removelast strengths) +:+
       ", and " +:+ List.last strengths "" +:+ "."]
  end.

(** What [if concerns: ...] appends to [summary_parts]. *)
Definition concerns_clause (strengths concerns : list string) : list string :=
  match concerns with
  | [] => []
  | [c] =>
      match strengths with
      | _ :: _ => ["However, attention should be paid to " +:+ c +:+ "."]
      | [] => ["Primary concerns include " +:+ c +:+ "."]
      end
  | _ =>
      ["Areas of concern include " +:+ py_join ", " (List.removelast concerns) +:+
       ", and " +:+ List.last concerns "" +:+ "."]
  end.

Definition recommendation (score : Z) : string :=
  if 75 <=? score then "This represents a solid investment-grade credit profile."
  else if 60 <=? score then
    "Overall, this indicates an acceptable credit risk for most investors."
  else if 40 <=? score then
    "Investors should carefully evaluate the risk-reward profile."
  else
    "This credit profile suggests significant risk that requires careful consideration.".

Definition generate_plain_language_summary (score : Z)
    (explanation : gmap string value) (company_name : string) : result string :=
  let overall := overall_assessment score in
  '(strengths, concerns) ← strengths_and_concerns explanation;
  let summary_parts :=
    ["Based on our comprehensive analysis, " +:+ company_name +:+ " " +:+ overall +:+ "."]
      ++ strengths_clause strengths
      ++ concerns_clause strengths concerns
      ++ [recommendation score] in
  mret (py_join " " summary_parts).

(** ** get_rating_category *)

Definition get_rating_category (score : Z) : string :=
  if 85 <=? score then "AAA (Excellent)"
  else if 75 <=? score then "AA (Very Good)"
  else if 65 <=? score then "A (Good)"
  else if 55 <=? score then "BBB (Fair)"
  else if 45 <=? score then "BB (Below Average)"
  else if 35 <=? score then "B (Poor)"
  else "C (High Risk)".

(** ** Vocabulary of the statements *)

(** The largest finite binary64 number, [sys.float_info.max], which is an
    integer. An int quotient is a float only up to here. *)
Definition max_float_int : Z := (2 ^ 53 - 1) * 2 ^ 971.

(** The snapshot's figures are within the range of binary64 numbers, so
    that both true divisions of the scorer have a float to return. *)
Definition snapshot_in_range (financial_data : FinancialData) : Prop :=
  default 0 (total_debt financial_data) <= max_float_int /\
  83 * default 0 (market_cap financial_data) <= max_float_int.

(** [sub] occurs in [s]: [s] is some text, then [sub], then some text. *)
Definition occurs_in (sub s : string) : Prop :=
  exists before after : string, s = before +:+ sub +:+ after.

Definition mentions_any (keywords : list string) (headline : Headline) : Prop :=
  exists keyword, In keyword keywords /\ occurs_in keyword (full_text headline).

(** The text of a headline in the words of the specification: the
    lowercased title, a space, and the lowercased description, a missing
    one being the empty text. *)
Definition title_plus_description (headline : Headline) : string :=
  py_lower (default "" (title headline)) +:+ " " +:+
  py_lower (default "" (description headline)).

(** A text contains one of the keywords as a substring. *)
Definition text_mentions (keywords : list string) (text : string) : Prop :=
  exists keyword, In keyword keywords /\ occurs_in keyword text.

(** How many headlines of a list a test selects. *)
Definition count_headlines (test : Headline -> bool) (news_headlines : list Headline) : Z :=
  Z.of_nat (length (List.filter test news_headlines)).

(** The seven rating labels, best first. *)
Definition rating_labels : list string :=
  ["AAA (Excellent)"; "AA (Very Good)"; "A (Good)"; "BBB (Fair)";
   "BB (Below Average)"; "B (Poor)"; "C (High Risk)"].

(** Order of two floats. *)
Definition float_leq (f g : pyfloat) : Prop := units f <= units g.

Definition float_lt (f g : pyfloat) : Prop := units f < units g.

(** A float is at least, or below, an int (the comparison is exact). *)
Definition float_at_least (f : pyfloat) (n : Z) : Prop := n * unit_scale <= units f.

Definition float_below (f : pyfloat) (n : Z) : Prop := units f < n * unit_scale.

(** [r] is [f] rounded to [places] decimal places: with [n] the integer
    nearest to [f * 10 ^ places], the even one of two equally near, [r] is
    the float nearest to [n / 10 ^ places]. *)
Definition rounded_to_places (places : Z) (f r : pyfloat) : Prop :=
  exists n : Z,
    2 * Z.abs (units f * 10 ^ places - n * unit_scale) <= unit_scale /\
    (2 * Z.abs (units f * 10 ^ places - n * unit_scale) = unit_scale ->
     Z.even n = true) /\
    r = nearest_float n (10 ^ places).

(** The debt banding as the specification words it: inclusive upper
    bounds 0.2, 0.4, 0.6, 0.8 and 1.0 on the ratio. *)
Definition debt_ratio_banding (ratio : pyfloat) (impact : Z) : Prop :=
  (float_leq ratio (float_lit 2 10) -> impact = 25) /\
  (float_lt (float_lit 2 10) ratio -> float_leq ratio (float_lit 4 10) -> impact = 15) /\
  (float_lt (float_lit 4 10) ratio -> float_leq ratio (float_lit 6 10) -> impact = 5) /\
  (float_lt (float_lit 6 10) ratio -> float_leq ratio (float_lit 8 10) -> impact = -5) /\
  (float_lt (float_lit 8 10) ratio -> float_leq ratio (float_lit 10 10) -> impact = -15) /\
  (float_lt (float_lit 10 10) ratio -> impact = -25).

(** The same banding on the exact ratio [debt / revenue], revenue positive. *)
Definition debt_ratio_banding_exact (debt revenue impact : Z) : Prop :=
  (5 * debt <= revenue -> impact = 25) /\
  (revenue < 5 * debt -> 5 * debt <= 2 * revenue -> impact = 15) /\
  (2 * revenue < 5 * debt -> 5 * debt <= 3 * revenue -> impact = 5) /\
  (3 * revenue < 5 * debt -> 5 * debt <= 4 * revenue -> impact = -5) /\
  (4 * revenue < 5 * debt -> debt <= revenue -> impact = -15) /\
  (revenue < debt -> impact = -25).

(** The market-cap banding as the specification words it: inclusive lower
    bounds 500, 100, 50 and 10 on the billions. *)
Definition market_cap_banding (billions : pyfloat) (impact : Z) : Prop :=
  (float_at_least billions 500 -> impact = 20) /\
  (float_below billions 500 -> float_at_least billions 100 -> impact = 15) /\
  (float_below billions 100 -> float_at_least billions 50 -> impact = 10) /\
  (float_below billions 50 -> float_at_least billions 10 -> impact = 5) /\
  (float_below billions 10 -> impact = 0).

(** The three phrases of the market-cap dimension, and the entries of a
    list that are among them. *)
Definition market_phrases : list string :=
  ["strong market position"; "solid market presence"; "limited market size"].

Definition market_entries (phrases : list string) : list string :=
  List.filter (fun phrase => existsb (String.eqb phrase) market_phrases) phrases.

(** The market-cap dimension in the two lists of the summary, by impact:
    from 10 up its one entry is a strength, "strong market position" from 15
    and "solid market presence" below; up to 5 its one entry is the concern
    "limited market size". *)
Definition market_cap_classified (m : Z) (strengths concerns : list string) : Prop :=
  (15 <= m ->
   market_entries strengths = ["strong market position"] /\
   market_entries concerns = []) /\
  (10 <= m < 15 ->
   market_entries strengths = ["solid market presence"] /\
   market_entries concerns = []) /\
  (m <= 5 ->
   market_entries strengths = [] /\
   market_entries concerns = ["limited market size"]).

(** An explanation with a debt impact and a news impact that name nothing
    and the given market-cap impact. *)
Definition plain_explanation (m : Z) : gmap string value :=
  <["news_sentiment_impact" := VInt 0]>
    (<["market_cap_impact" := VInt m]> {["debt_ratio_impact" := VInt (-5)]}).

(** The headlines the loop counts as positive: a positive keyword and no
    negative one. *)
Definition positive_only (headline : Headline) : bool :=
  negb (has_negative headline) && has_positive headline.

(** The explanation the scorer returns for a present snapshot, entry by
    entry in the order the source writes them. *)
Definition assembled_explanation (debt_ratio_impact : Z) (debt_ratio : value)
    (market_cap_impact : Z) (market_cap_billions : value)
    (news_sentiment_impact positive_count negative_count final_score : Z)
    : gmap string value :=
  <["final_score" := VInt final_score]>
    (<["negative_news_count" := VInt negative_count]>
       (<["positive_news_count" := VInt positive_count]>
          (<["news_sentiment_impact" := VInt news_sentiment_impact]>
             (<["market_cap_impact" := VInt market_cap_impact]>
                (<["market_cap_billions" := market_cap_billions]>
                   (<["debt_ratio_impact" := VInt debt_ratio_impact]>
                      (<["debt_ratio" := debt_ratio]> (initial_explanation 50)))))))).

(** ** Sample inputs *)

Definition snapshot_of (revenue debt cap : Z) (cur : string) : FinancialData :=
  {| ticker := "SAMPLE.NS"; company_name := "Sample Ltd";
     total_revenue := Some revenue; total_debt := Some debt;
     market_cap := Some cap; currency := Some cur;
     sector := "Unknown"; industry := "Unknown" |}.

Definition headline_titled (text : string) : Headline :=
  {| title := Some text; description := None; url := "";
     published_at := ""; source := "Unknown" |}.

(** The explanation of a snapshot with twice as much debt as revenue, no
    market cap and no news: debt impact -25, the other two 0, score 25. *)
Definition indebted_explanation : gmap string value :=
  assembled_explanation (-25) (VFloat (float_of_int 2)) 0 (VStr "Data unavailable")
    0 0 0 25.

(** The same snapshot with two favourable headlines: news impact +10,
    score 35. *)
Definition indebted_praised_explanation : gmap string value :=
  assembled_explanation (-25) (VFloat (float_of_int 2)) 0 (VStr "Data unavailable")
    10 2 0 35.

(** Revenue 1,000,000,000, debt 150,000,000 and a cap of 600 billion INR. *)
Definition thriving_snapshot : FinancialData :=
  snapshot_of 1000000000 150000000 600000000000 "INR".

(** The same company quoted at 6 billion USD. *)
Definition usd_snapshot : FinancialData :=
  snapshot_of 1000000000 150000000 6000000000 "USD".

(** Twice as much debt as revenue and no market cap. *)
Definition indebted_snapshot : FinancialData := snapshot_of 1 2 0 "INR".

Definition praise : list Headline :=
  [headline_titled "Company reports record profit";
   headline_titled "Strong growth in exports";
   headline_titled "Analysts upgrade after robust quarter"].

Definition two_praises : list Headline :=
  [headline_titled "Company reports record profit";
   headline_titled "Strong growth in exports"].

(** Six unfavourable headlines, one more than the news provider is asked
    for. *)
Definition alarm : list Headline :=
  [headline_titled "Fraud investigation launched";
   headline_titled "Shares crash";
   headline_titled "Lawsuit filed";
   headline_titled "Layoffs announced";
   headline_titled "Debt crisis deepens";
   headline_titled "Rating downgrade"].

(** A headline with a keyword of either set. *)
Definition mixed_headline : Headline :=
  headline_titled "Record profit despite FRAUD probe".

(** A headline whose keywords, one of either set, stand in the description
    only. *)
Definition described_headline : Headline :=
  {| title := Some "Quarterly Results";
     description := Some "Record PROFIT despite FRAUD probe";
     url := ""; published_at := ""; source := "Unknown" |}.

(** The letters of "loss" on either side of the join of title and
    description. *)
Definition split_keyword_headline : Headline :=
  {| title := Some "Heavy los"; description := Some "s reported";
     url := ""; published_at := ""; source := "Unknown" |}.

(** ** The rest of the file: get_score_color, the two providers, and the
    text handling of main *)

(** *** More text operations *)

(** As for [py_lower], letters are the ASCII ones. *)

Definition upper_ascii (c : ascii) : ascii :=
  let n := N_of_ascii c in
  if ((97 <=? n) && (n <=? 122))%N then ascii_of_N (n - 32) else c.

(** [s.upper()] *)
Fixpoint py_upper (s : string) : string :=
  match s with
  | EmptyString => EmptyString
  | String c t => String (upper_ascii c) (py_upper t)
  end.

(** The ASCII characters [str.isspace] accepts: tab to carriage return,
    the four separators 28 to 31, and the space. *)
Definition is_space (c : ascii) : bool :=
  let n := N_of_ascii c in
  ((9 <=? n) && (n <=? 13) || (28 <=? n) && (n <=? 32))%N.

Fixpoint py_lstrip (s : string) : string :=
  match s with
  | EmptyString => EmptyString
  | String c t => if is_space c then py_lstrip t else s
  end.

Fixpoint py_rstrip (s : string) : string :=
  match s with
  | EmptyString => EmptyString
  | String c t =>
      match py_rstrip t with
      | EmptyString => if is_space c then EmptyString else String c EmptyString
      | t' => String c t'
      end
  end.

(** [s.strip()] *)
Definition py_strip (s : string) : string := py_rstrip (py_lstrip s).

(** [s.endswith(suffix)] *)
Fixpoint py_endswith (suffix s : string) : bool :=
  String.eqb suffix s ||
  match s with
  | EmptyString => false
  | String _ t => py_endswith suffix t
  end.

(** [s.split(sep)] for a separator of one character: the pieces between
    the separators, empty pieces included. *)
Fixpoint py_split_on (sep : ascii) (s : string) : list string :=
  match s with
  | EmptyString => [EmptyString]
  | String c t =>
      if Ascii.eqb c sep then EmptyString :: py_split_on sep t
      else
        match py_split_on sep t with
        | piece :: pieces => String c piece :: pieces
        | [] => [String c EmptyString]
        end
  end.

Fixpoint split_at_spaces (s : string) : list string :=
  match s with
  | EmptyString => [EmptyString]
  | String c t =>
      if is_space c then EmptyString :: split_at_spaces t
      else
        match split_at_spaces t with
        | piece :: pieces => String c piece :: pieces
        | [] => [String c EmptyString]
        end
  end.

(** [s.split()]: the words between runs of whitespace. *)
Definition py_split (s : string) : list string :=
  List.filter (fun word => negb (String.eqb word "")) (split_at_spaces s).

(** [s.rstrip(chars)] for one character. *)
Fixpoint py_rstrip_char (c : ascii) (s : string) : string :=
  match s with
  | EmptyString => EmptyString
  | String a t =>
      match py_rstrip_char c t with
      | EmptyString => if Ascii.eqb a c then EmptyString else String a EmptyString
      | t' => String a t'
      end
  end.

(** *** get_score_color *)

Definition get_score_color (score : Z) : string :=
  if 80 <=? score then "green"
  else if 60 <=? score then "orange"
  else "red".

(** *** The ticker table and the rating display of main *)

Definition COMPANY_MAPPING : gmap string string :=
  list_to_map
    [("RELIANCE.NS", "Reliance Industries");
     ("TCS.NS", "Tata Consultancy Services");
     ("HDFCBANK.NS", "HDFC Bank");
     ("INFY.NS", "Infosys");
     ("ICICIBANK.NS", "ICICI Bank");
     ("HINDUNILVR.NS", "Hindustan Unilever");
     ("ITC.NS", "ITC Limited");
     ("SBIN.NS", "State Bank of India");
     ("BHARTIARTL.NS", "Bharti Airtel");
     ("KOTAKBANK.NS", "Kotak Mahindra Bank");
     ("LT.NS", "Larsen & Toubro");
     ("HCLTECH.NS", "HCL Technologies");
     ("ASIANPAINT.NS", "Asian Paints");
     ("MARUTI.NS", "Maruti Suzuki");
     ("TITAN.NS", "Titan Company")].

(** [ticker = st.text_input(...).upper().strip()] *)
Definition normalise_ticker (text : string) : string := py_strip (py_upper text).

(** [s.replace(old, new)]: the occurrences of [old] are replaced from the
    left and do not overlap; [skip] counts the characters of a replaced
    occurrence still to pass over. *)
Fixpoint replace_from (old new : string) (skip : nat) (s : string) : string :=
  match s with
  | EmptyString => EmptyString
  | String c t =>
      match skip with
      | S k => replace_from old new k t
      | O =>
          if String.prefix old s
          then new +:+ replace_from old new (String.length old - 1) t
          else String c (replace_from old new 0 t)
      end
  end.

(** An empty [old] matches before every character and at the end. *)
Fixpoint replace_between (new : string) (s : string) : string :=
  match s with
  | EmptyString => EmptyString
  | String c t => String c (new +:+ replace_between new t)
  end.

Definition py_replace (old new s : string) : string :=
  if String.eqb old "" then new +:+ replace_between new s
  else replace_from old new 0 s.

(** [COMPANY_MAPPING.get(ticker, ticker.replace('.NS', ''))] *)
Definition company_name_for (ticker : string) : string :=
  default (py_replace ".NS" "" ticker) (COMPANY_MAPPING !! ticker).

(** [rating.split()[0]]; [None] is the [IndexError] of an empty list. *)
Definition rating_grade (rating : string) : option string :=
  List.nth_error (py_split rating) 0.

(** [rating.split('(')[1].rstrip(')')] *)
Definition rating_desc (rating : string) : option string :=
  option_map (py_rstrip_char ")") (List.nth_error (py_split_on "(" rating) 1).

(** *** Values the providers hand over *)

(** What [response.json()] and [stock.info] hold. *)
#[warnings="-register-all"]
Inductive json : Type :=
| JNull
| JBool (b : bool)
| JInt (n : Z)
| JFloat (f : pyfloat)
| JStr (s : string)
| JArr (l : list json)
| JObj (m : gmap string json).

(** Truth value of a Python object: [None], [False], zero and the empty
    text, list and dict are false. *)
Definition json_truthy (v : json) : bool :=
  match v with
  | JNull => false
  | JBool b => b
  | JInt n => negb (n =? 0)
  | JFloat f => negb (units f =? 0)
  | JStr s => negb (String.eqb s "")
  | JArr l => match l with [] => false | _ => true end
  | JObj m => negb (bool_decide (m = ∅))
  end.

(** [d.get(key, dflt)] *)
Definition json_get (d : gmap string json) (key : string) (dflt : json) : json :=
  default dflt (d !! key).

(** [d.get(key) == text] *)
Definition entry_is_text (d : gmap string json) (key text : string) : bool :=
  match d !! key with
  | Some (JStr s) => String.eqb s text
  | _ => false
  end.

(** *** get_news_headlines *)

(** What [requests.get] gave back; [json_body] is [None] when
    [response.json()] raises. *)
Record Response : Type := {
  status_code : Z;
  json_body : option json
}.

Definition double_quote : ascii := "034"%char.

Definition news_url : string := "https://newsapi.org/v2/everything".

Definition news_params (company_name api_key : string) : list (string * value) :=
  [("q", VStr (String double_quote (company_name +:+ String double_quote EmptyString)));
   ("sortBy", VStr "publishedAt");
   ("pageSize", VInt 5);
   ("language", VStr "en");
   ("apiKey", VStr api_key)].

(** The dict built from one article; [None] is the [AttributeError] of a
    [.get] on something that is no dict. *)
Definition headline_of_article (article : json) : option (gmap string json) :=
  match article with
  | JObj a =>
      match json_get a "source" (JObj ∅) with
      | JObj src =>
          Some (list_to_map
                  [("title", json_get a "title" (JStr "No title available"));
                   ("description", json_get a "description" (JStr ""));
                   ("url", json_get a "url" (JStr ""));
                   ("published_at", json_get a "publishedAt" (JStr ""));
                   ("source", json_get src "name" (JStr "Unknown"))])
      | _ => None
      end
  | _ => None
  end.

(** The loop over [articles[:5]]; an exception in any iteration leaves the
    function through its handler, which returns the empty list. A truthy
    value that is no list raises as well, on the slice or in the first
    iteration. *)
Definition format_headlines (articles : json) : list (gmap string json) :=
  match articles with
  | JArr l => default [] (mapM headline_of_article (take 5 l))
  | _ => []
  end.

(** [requests_get url params timeout] stands for the call of
    [requests.get]; [None] is any exception it raises. The cache of
    [st.cache_data] hands back what the function returned for the same
    arguments and is left out. *)
Definition get_news_headlines
    (requests_get : string -> list (string * value) -> Z -> option Response)
    (company_name api_key : string) : list (gmap string json) :=
  if String.eqb api_key "" || String.eqb (py_strip api_key) ""
     || py_in "placeholder" (py_lower api_key)
  then []
  else
    match requests_get news_url (news_params company_name api_key) 10 with
    | None => []
    | Some response =>
        if negb (status_code response =? 200) then []
        else
          match json_body response with
          | Some (JObj data) =>
              if negb (entry_is_text data "status" "ok")
                 || negb (bool_decide (is_Some (data !! "articles")))
              then []
              else
                let articles := json_get data "articles" (JArr []) in
                if negb (json_truthy articles) then []
                else format_headlines articles
          | _ => []
          end
    end.

(** *** get_financial_data *)

(** [ticker_info ticker] stands for [yf.Ticker(ticker).info]; [None] is
    any exception it raises. An [info] that is no dict leaves through the
    handler too, on [len] or on the first [.get]. *)
Definition get_financial_data (ticker_info : string -> option json)
    (ticker : string) : option (gmap string json) :=
  match ticker_info ticker with
  | Some (JObj info) =>
      if negb (json_truthy (JObj info)) || (size info <? 3)%nat then None
      else
        Some (list_to_map
                [("ticker", JStr ticker);
                 ("company_name",
                  json_get info "longName" (json_get info "shortName" (JStr "Unknown")));
                 ("total_revenue", json_get info "totalRevenue" (JInt 0));
                 ("total_debt", json_get info "totalDebt" (JInt 0));
                 ("market_cap", json_get info "marketCap" (JInt 0));
                 ("currency", json_get info "currency" (JStr "INR"));
                 ("sector", json_get info "sector" (JStr "Unknown"));
                 ("industry", json_get info "industry" (JStr "Unknown"))])
  | _ => None
  end.

(** *** Dicts as the records the scorer reads *)

(** A text entry as [d.get(key, ...)] finds it: missing, or a text.
    [None] when the entry is no text. *)
Definition text_entry (d : gmap string json) (key : string) : option (option string) :=
  match d !! key with
  | None => Some None
  | Some (JStr s) => Some (Some s)
  | Some _ => None
  end.

Definition int_entry (d : gmap string json) (key : string) : option (option Z) :=
  match d !! key with
  | None => Some None
  | Some (JInt n) => Some (Some n)
  | Some _ => None
  end.

(** The text of an entry the scorer does not read. *)
Definition shown_text (d : gmap string json) (key : string) : string :=
  match d !! key with
  | Some (JStr s) => s
  | _ => EmptyString
  end.

(** The headline record of a headline dict whose title and description
    are texts. *)
Definition headline_view (d : gmap string json) : option Headline :=
  t ← text_entry d "title";
  ds ← text_entry d "description";
  Some {| title := t; description := ds; url := shown_text d "url";
          published_at := shown_text d "published_at";
          source := shown_text d "source" |}.

(** The snapshot record of a snapshot dict whose three figures are ints
    and whose currency is a text. *)
Definition snapshot_view (d : gmap string json) : option FinancialData :=
  revenue ← int_entry d "total_revenue";
  debt ← int_entry d "total_debt";
  cap ← int_entry d "market_cap";
  cur ← text_entry d "currency";
  Some {| ticker := shown_text d "ticker"; company_name := shown_text d "company_name";
          total_revenue := revenue; total_debt := debt; market_cap := cap;
          currency := cur; sector := shown_text d "sector";
          industry := shown_text d "industry" |}.

(** *** Vocabulary of the statements on headlines *)

(** A text of ASCII characters only, on which the model of [upper],
    [lower] and [strip] is what Python does. *)
Definition ascii_text (s : string) : bool :=
  forallb (fun c => (N_of_ascii c <? 128)%N) (list_ascii_of_string s).

(** A headline whose title and description are ASCII texts. *)
Definition ascii_headline (h : Headline) : bool :=
  ascii_text (default "" (title h)) && ascii_text (default "" (description h)).

(** A headline with its title and description in capital letters. *)
Definition in_capitals (h : Headline) : Headline :=
  {| title := option_map py_upper (title h);
     description := option_map py_upper (description h);
     url := url h; published_at := published_at h; source := source h |}.

(** *** Sample answers of the providers *)

Definition sample_article : json :=
  JObj (list_to_map
          [("title", JStr "Company reports record profit");
           ("description", JStr "Results of the quarter");
           ("url", JStr "https://news.example/1");
           ("publishedAt", JStr "2024-01-15T09:30:00Z");
           ("source", JObj (list_to_map [("id", JNull); ("name", JStr "Example News")]))]).

(** The headline made of [sample_article], as a dict and as a record. *)
Definition sample_headline : gmap string json :=
  list_to_map
    [("title", JStr "Company reports record profit");
     ("description", JStr "Results of the quarter");
     ("url", JStr "https://news.example/1");
     ("published_at", JStr "2024-01-15T09:30:00Z");
     ("source", JStr "Example News")].

Definition sample_headline_record : Headline :=
  {| title := Some "Company reports record profit";
     description := Some "Results of the quarter";
     url := "https://news.example/1";
     published_at := "2024-01-15T09:30:00Z";
     source := "Example News" |}.

(** A news provider that answers every request with status code 200 and
    the given body. *)
Definition answering (data : gmap string json)
    : string -> list (string * value) -> Z -> option Response :=
  fun _ _ _ => Some {| status_code := 200; json_body := Some (JObj data) |}.

Definition ok_answer : gmap string json := {["status" := JStr "ok"]}.

Definition sample_answer : gmap string json :=
  <["articles" := JArr [sample_article]]> ok_answer.

Definition five_articles : list json := replicate 5 sample_article.

(** The explanation of the snapshot with twice as much debt as revenue and
    one favourable headline: debt impact -25, news impact +5, score 30. *)
Definition indebted_sample_explanation : gmap string value :=
  assembled_explanation (-25) (VFloat (float_of_int 2)) 0 (VStr "Data unavailable")
    5 1 0 30.

(** A data provider that answers every ticker with the given dict. *)
Definition quoting (info : gmap string json) : string -> option json :=
  fun _ => Some (JObj info).

Definition sample_info : gmap string json :=
  list_to_map
    [("longName", JStr "Infosys Limited");
     ("totalRevenue", JInt 1000000000);
     ("totalDebt", JInt 150000000);
     ("marketCap", JInt 600000000000);
     ("currency", JStr "INR");
     ("sector", JStr "Technology")].

Definition sample_snapshot : gmap string json :=
  list_to_map
    [("ticker", JStr "INFY.NS");
     ("company_name", JStr "Infosys Limited");
     ("total_revenue", JInt 1000000000);
     ("total_debt", JInt 150000000);
     ("market_cap", JInt 600000000000);
     ("currency", JStr "INR");
     ("sector", JStr "Technology");
     ("industry", JStr "Unknown")].

(** What the data provider holds for an index: no revenue, no debt, no
    market capitalisation. *)
Definition index_info : gmap string json :=
  list_to_map
    [("shortName", JStr "NIFTY 50");
     ("quoteType", JStr "INDEX");
     ("exchange", JStr "NSI");
     ("currency", JStr "INR")].

(** * Properties *)

(** ** Rounding *)

Section Rounding.

Local Open Scope Z_scope.

(** [rne_div a b] is within one half of [a / b], and even on a tie. *)
Lemma rne_div_spec (a b : Z) :
  0 < b ->
  2 * a - b <= 2 * (b * rne_div a b) <= 2 * a + b /\
  (2 * (b * rne_div a b) = 2 * a + b -> Z.even (rne_div a b) = true) /\
  (2 * (b * rne_div a b) = 2 * a - b -> Z.even (rne_div a b) = true).
Proof.
  intros Hb. unfold rne_div.
  pose proof (Z.div_mod a b ltac:(lia)) as Hdm.
  pose proof (Z.mod_pos_bound a b Hb) as Hr.
  set (q := a / b) in *. set (r := a mod b) in *.
  assert (Hq1 : b * (q + 1) = b * q + b) by ring.
  destruct (Z.ltb_spec (2 * r) b) as [H1 | H1].
  { repeat split; lia. }
  destruct (Z.ltb_spec b (2 * r)) as [H2 | H2].
  { rewrite Hq1. repeat split; lia. }
  destruct (Z.even q) eqn:Hev.
  - repeat split; first [lia | intros _; exact Hev].
  - rewrite Hq1. repeat split; try lia;
      intros _; rewrite Z.even_add, Hev; reflexivity.
Qed.

(** Rounding to nearest keeps the order of the quotients. *)
Lemma rne_div_mono (a1 b1 a2 b2 : Z) :
  0 < b1 -> 0 < b2 -> a1 * b2 <= a2 * b1 ->
  rne_div a1 b1 <= rne_div a2 b2.
Proof.
  intros Hb1 Hb2 Hle.
  destruct (rne_div_spec a1 b1 Hb1) as ([_ Hu1] & Ht1 & _).
  destruct (rne_div_spec a2 b2 Hb2) as ([Hl2 _] & _ & Ht2).
  set (n1 := rne_div a1 b1) in *. set (n2 := rne_div a2 b2) in *.
  destruct (Z_le_gt_dec n1 n2) as [|Hgt]; [assumption | exfalso].
  assert (Hb : 0 < b1 * b2) by lia.
  assert (H1 : 2 * (b1 * b2 * n1) <= 2 * (a2 * b1) + b1 * b2) by nia.
  assert (H2 : 2 * (a2 * b1) - b1 * b2 <= 2 * (b1 * b2 * n2)) by nia.
  assert (Hd : n1 = n2 + 1) by nia.
  assert (E1 : 2 * (b1 * n1) = 2 * a1 + b1) by nia.
  assert (E2 : 2 * (b2 * n2) = 2 * a2 - b2) by nia.
  specialize (Ht1 E1). specialize (Ht2 E2).
  rewrite Hd, Z.even_add, Ht2 in Ht1. discriminate.
Qed.

Lemma rne_div_exact (n b : Z) : 0 < b -> rne_div (n * b) b = n.
Proof.
  intros Hb. unfold rne_div.
  rewrite Z.div_mul, Z.mod_mul by lia.
  destruct (Z.ltb_spec (2 * 0) b); [reflexivity | lia].
Qed.

Lemma rne_div_nonneg (a b : Z) : 0 <= a -> 0 < b -> 0 <= rne_div a b.
Proof.
  intros Ha Hb. rewrite <- (rne_div_exact 0 b Hb) at 1.
  apply rne_div_mono; lia.
Qed.

Lemma ulp_shift_nonneg (q : Z) : 0 <= ulp_shift q.
Proof. unfold ulp_shift. lia. Qed.

Lemma ulp_shift_mono (q1 q2 : Z) : q1 <= q2 -> ulp_shift q1 <= ulp_shift q2.
Proof.
  intros H. unfold ulp_shift.
  pose proof (Z.log2_le_mono q1 q2 H). lia.
Qed.

(** The integer part has at most 53 bits above the rounding position. *)
Lemma ulp_shift_upper (q : Z) : q < 2 ^ (ulp_shift q + 53).
Proof.
  destruct (Z_le_gt_dec q 0) as [Hq | Hq].
  - pose proof (ulp_shift_nonneg q).
    assert (0 < 2 ^ (ulp_shift q + 53)) by (apply Z.pow_pos_nonneg; lia). lia.
  - destruct (Z.log2_spec q ltac:(lia)) as [_ Hlt].
    eapply Z.lt_le_trans; [exact Hlt |].
    apply Z.pow_le_mono_r; unfold ulp_shift; lia.
Qed.

(** Above the first 53 bits the integer part has exactly 53 bits left. *)
Lemma ulp_shift_lower (q : Z) : 0 < ulp_shift q -> 2 ^ (ulp_shift q + 52) <= q.
Proof.
  intros Hk. unfold ulp_shift in *.
  assert (Hlog : 52 < Z.log2 q) by lia.
  assert (Hq : 0 < q).
  { destruct (Z_le_gt_dec q 0) as [Hq | Hq]; [| lia].
    rewrite (Z.log2_nonpos q Hq) in Hlog. lia. }
  destruct (Z.log2_spec q Hq) as [Hle _].
  replace (Z.max 0 (Z.log2 q - 52) + 52) with (Z.log2 q) by lia. exact Hle.
Qed.

Lemma div_cross_mono (a1 b1 a2 b2 : Z) :
  0 < b1 -> 0 < b2 -> a1 * b2 <= a2 * b1 -> a1 / b1 <= a2 / b2.
Proof.
  intros Hb1 Hb2 Hle.
  apply Z.div_le_lower_bound; [assumption |].
  pose proof (Z.mul_div_le a1 b1 Hb1) as Hq.
  assert (H : b1 * (b2 * (a1 / b1)) <= b1 * a2) by nia.
  apply Z.mul_le_mono_pos_l in H; assumption.
Qed.

(** Correct rounding to binary64 keeps the order of the quotients:
    if [a1 / b1 <= a2 / b2] as rationals, so are their roundings. *)
Lemma round_quot_mono (a1 b1 a2 b2 : Z) :
  0 < b1 -> 0 < b2 -> a1 * b2 <= a2 * b1 ->
  round_quot a1 b1 <= round_quot a2 b2.
Proof.
  intros Hb1 Hb2 Hle. unfold round_quot.
  pose proof (div_cross_mono a1 b1 a2 b2 Hb1 Hb2 Hle) as Hq.
  pose proof (ulp_shift_mono _ _ Hq) as Hk.
  pose proof (ulp_shift_nonneg (a1 / b1)) as Hk1.
  set (q1 := a1 / b1) in *. set (q2 := a2 / b2) in *.
  set (k1 := ulp_shift q1) in *. set (k2 := ulp_shift q2) in *.
  assert (Hp1 : 0 < 2 ^ k1) by (apply Z.pow_pos_nonneg; lia).
  assert (Hp2 : 0 < 2 ^ k2) by (apply Z.pow_pos_nonneg; lia).
  destruct (Z.eq_dec k1 k2) as [Heq | Hne].
  - rewrite <- Heq. apply Z.mul_le_mono_nonneg_r; [lia |].
    apply rne_div_mono; nia.
  - assert (Hlt : k1 + 1 <= k2) by lia.
    (* the smaller quotient rounds to at most 2^53 ulps ... *)
    assert (H1 : rne_div a1 (b1 * 2 ^ k1) <= 2 ^ 53).
    { rewrite <- (rne_div_exact (2 ^ 53) 1 Z.lt_0_1).
      apply rne_div_mono; [nia | lia |].
      pose proof (ulp_shift_upper q1) as Hu. fold k1 in Hu.
      rewrite Z.pow_add_r in Hu by lia.
      assert (Ha : a1 < b1 * (q1 + 1)).
      { unfold q1. pose proof (Z.div_mod a1 b1 ltac:(lia)).
        pose proof (Z.mod_pos_bound a1 b1 Hb1). nia. }
      nia. }
    (* ... and the larger one to at least 2^52 ulps of twice the size *)
    assert (H2 : 2 ^ 52 <= rne_div a2 (b2 * 2 ^ k2)).
    { rewrite <- (rne_div_exact (2 ^ 52) 1 Z.lt_0_1).
      apply rne_div_mono; [lia | nia |].
      pose proof (ulp_shift_lower q2 ltac:(fold k2; lia)) as Hl. fold k2 in Hl.
      rewrite Z.pow_add_r in Hl by lia.
      pose proof (Z.mul_div_le a2 b2 Hb2) as Hm. fold q2 in Hm.
      nia. }
    assert (Hpow : 2 * 2 ^ k1 <= 2 ^ k2).
    { replace (2 * 2 ^ k1) with (2 ^ (k1 + 1)) by (rewrite Z.pow_add_r; lia).
      apply Z.pow_le_mono_r; lia. }
    change (2 ^ 53) with (2 * 2 ^ 52) in H1.
    assert (0 < 2 ^ 52) by reflexivity.
    nia.
Qed.

End Rounding.

(** ** True division *)

Section TrueDivision.

Local Open Scope Z_scope.

Lemma unit_scale_pos : 0 < unit_scale.
Proof. reflexivity. Qed.

Lemma round_quot_nonneg (a b : Z) : 0 <= a -> 0 < b -> 0 <= round_quot a b.
Proof.
  intros Ha Hb. unfold round_quot.
  pose proof (ulp_shift_nonneg (a / b)) as Hk.
  assert (0 < 2 ^ ulp_shift (a / b)) by (apply Z.pow_pos_nonneg; lia).
  apply Z.mul_nonneg_nonneg; [| lia].
  apply rne_div_nonneg; nia.
Qed.

Lemma round_quot_zero (b : Z) : 0 < b -> round_quot 0 b = 0.
Proof.
  intros Hb. unfold round_quot. rewrite Z.div_0_l by lia.
  change (ulp_shift 0) with 0. change (2 ^ 0) with 1.
  rewrite !Z.mul_1_r. exact (rne_div_exact 0 b Hb).
Qed.

(** The quotient of a non-negative by a positive int, in units. *)
Lemma nearest_float_units (x y : Z) :
  0 <= x -> 0 < y -> units (nearest_float x y) = round_quot (x * unit_scale) y.
Proof.
  intros Hx Hy. unfold nearest_float. cbn [units].
  rewrite (Z.abs_eq x Hx), (Z.abs_eq y) by lia.
  rewrite (Z.sgn_pos y Hy), Z.mul_1_r.
  destruct (Z.eq_dec x 0) as [-> | Hne].
  - change (0 * unit_scale) with 0. rewrite round_quot_zero by lia. reflexivity.
  - rewrite Z.sgn_pos by lia. lia.
Qed.

Lemma max_float_fixed :
  round_quot (max_float_int * unit_scale) 1 = max_float_int * unit_scale.
Proof. vm_compute. reflexivity. Qed.

Lemma max_float_int_pos : 0 < max_float_int.
Proof. reflexivity. Qed.

Lemma max_float_below_overflow : max_float_int * unit_scale < overflow_units.
Proof. vm_compute. reflexivity. Qed.

(** A larger dividend gives a larger (or the same) float. *)
Lemma nearest_float_mono (x1 x2 y : Z) :
  0 <= x1 <= x2 -> 0 < y ->
  float_leq (nearest_float x1 y) (nearest_float x2 y).
Proof.
  intros Hx Hy. unfold float_leq.
  rewrite !nearest_float_units by lia.
  pose proof unit_scale_pos.
  apply round_quot_mono; [lia | lia |].
  apply Z.mul_le_mono_nonneg_r; [lia |].
  apply Z.mul_le_mono_nonneg_r; lia.
Qed.

(** Quotients are ordered as the exact fractions are. *)
Lemma nearest_float_order (x1 y1 x2 y2 : Z) :
  0 <= x1 -> 0 < y1 -> 0 <= x2 -> 0 < y2 -> x1 * y2 <= x2 * y1 ->
  float_leq (nearest_float x1 y1) (nearest_float x2 y2).
Proof.
  intros Hx1 Hy1 Hx2 Hy2 Hle. unfold float_leq.
  rewrite !nearest_float_units by lia.
  pose proof unit_scale_pos.
  apply round_quot_mono; [lia | lia |].
  replace (x1 * unit_scale * y2) with (x1 * y2 * unit_scale) by ring.
  replace (x2 * unit_scale * y1) with (x2 * y1 * unit_scale) by ring.
  apply Z.mul_le_mono_nonneg_r; lia.
Qed.

(** Within the binary64 range the division by a positive int returns. *)
Lemma py_true_div_ok (x y : Z) :
  0 <= x <= max_float_int -> 0 < y ->
  py_true_div x y = Ok (nearest_float x y).
Proof.
  intros Hx Hy. unfold py_true_div.
  destruct (Z.eqb_spec y 0) as [| _]; [lia |].
  assert (Hu : 0 <= units (nearest_float x y) <= max_float_int * unit_scale).
  { rewrite nearest_float_units by lia. split.
    - pose proof unit_scale_pos. apply round_quot_nonneg; nia.
    - rewrite <- max_float_fixed. pose proof unit_scale_pos.
      apply round_quot_mono; [lia | lia |].
      rewrite Z.mul_1_r.
      apply Z.le_trans with (max_float_int * unit_scale * 1).
      + rewrite Z.mul_1_r. apply Z.mul_le_mono_nonneg_r; lia.
      + apply Z.mul_le_mono_nonneg_l; [| lia].
        pose proof max_float_below_overflow. pose proof max_float_int_pos. nia. }
  pose proof max_float_below_overflow.
  cbv zeta.
  destruct (Z.leb_spec overflow_units (Z.abs (units (nearest_float x y)))); [lia | reflexivity].
Qed.

(** Division by a positive int never raises [ZeroDivisionError]. *)
Lemma py_true_div_nonzero (x y : Z) :
  y <> 0 -> py_true_div x y <> Raise ZeroDivisionError.
Proof.
  intros Hy. unfold py_true_div.
  destruct (Z.eqb_spec y 0); [contradiction |].
  cbv zeta. destruct (_ <=? _); discriminate.
Qed.

End TrueDivision.

(** ** The debt evaluator *)

Section DebtRatio.

Local Open Scope Z_scope.

Lemma debt_thresholds_increase :
  float_lt (float_lit 2 10) (float_lit 4 10) /\
  float_lt (float_lit 4 10) (float_lit 6 10) /\
  float_lt (float_lit 6 10) (float_lit 8 10) /\
  float_lt (float_lit 8 10) (float_lit 10 10).
Proof. unfold float_lt. vm_compute. auto. Qed.

Ltac name_thresholds :=
  unfold debt_ratio_band, float_le;
  generalize dependent (units (float_lit 2 10));
  generalize dependent (units (float_lit 4 10));
  generalize dependent (units (float_lit 6 10));
  generalize dependent (units (float_lit 8 10));
  generalize dependent (units (float_lit 10 10));
  intros.

Ltac band_cases :=
  repeat match goal with
         | |- context [?x <=? ?y] => destruct (Z.leb_spec x y)
         end.

(** The chain of comparisons of the source is the banding table. *)
Lemma debt_ratio_band_banding (ratio : pyfloat) :
  debt_ratio_banding ratio (debt_ratio_band ratio).
Proof.
  destruct debt_thresholds_increase as (H1 & H2 & H3 & H4).
  unfold debt_ratio_banding, float_leq, float_lt in *.
  name_thresholds. band_cases; repeat split; intros; lia.
Qed.

Lemma debt_ratio_band_values (ratio : pyfloat) :
  In (debt_ratio_band ratio) [25; 15; 5; -5; -15; -25].
Proof. name_thresholds. band_cases; simpl; tauto. Qed.

(** A larger ratio never earns a larger impact. *)
Lemma debt_ratio_band_antitone (r1 r2 : pyfloat) :
  float_leq r1 r2 -> debt_ratio_band r2 <= debt_ratio_band r1.
Proof.
  unfold float_leq. intros Hle.
  name_thresholds. band_cases; lia.
Qed.

Lemma bind_Ok {A B : Type} (a : A) (f : A -> result B) : (Ok a ≫= f) = f a.
Proof. reflexivity. Qed.

Lemma bind_Raise {A B : Type} (e : exn) (f : A -> result B) :
  (Raise e ≫= f) = Raise e.
Proof. reflexivity. Qed.

(** The division of the [try] body runs under [total_revenue > 0] only. *)
Lemma debt_ratio_try_no_zero_division (total_revenue total_debt : Z)
    (explanation : gmap string value) :
  debt_ratio_try total_revenue total_debt explanation <> Raise ZeroDivisionError.
Proof.
  unfold debt_ratio_try.
  destruct (Z.ltb_spec 0 total_revenue) as [Hrev | Hrev]; cbn [andb].
  - destruct (0 <=? total_debt); [| discriminate].
    pose proof (py_true_div_nonzero total_debt total_revenue ltac:(lia)) as Hz.
    destruct (py_true_div total_debt total_revenue) as [f | e].
    + rewrite bind_Ok. discriminate.
    + rewrite bind_Raise. congruence.
  - discriminate.
Qed.

(** So the handler never runs: the statement is its body. *)
Lemma debt_ratio_analysis_is_try (total_revenue total_debt : Z)
    (explanation : gmap string value) :
  debt_ratio_analysis total_revenue total_debt explanation =
  debt_ratio_try total_revenue total_debt explanation.
Proof.
  unfold debt_ratio_analysis.
  pose proof (debt_ratio_try_no_zero_division total_revenue total_debt explanation) as H.
  destruct (debt_ratio_try total_revenue total_debt explanation) as [r | []];
    [reflexivity | contradiction | reflexivity | reflexivity].
Qed.

Lemma debt_ratio_analysis_unavailable (total_revenue total_debt : Z)
    (explanation : gmap string value) :
  total_revenue <= 0 \/ total_debt < 0 ->
  debt_ratio_analysis total_revenue total_debt explanation =
  Ok (-10, <["debt_ratio" := VStr "Data unavailable"]> explanation).
Proof.
  intros H. rewrite debt_ratio_analysis_is_try. unfold debt_ratio_try.
  destruct (Z.ltb_spec 0 total_revenue); destruct (Z.leb_spec 0 total_debt);
    cbn [andb]; first [reflexivity | lia].
Qed.

Lemma debt_ratio_analysis_ratio (total_revenue total_debt : Z)
    (explanation : gmap string value) :
  0 < total_revenue -> 0 <= total_debt <= max_float_int ->
  debt_ratio_analysis total_revenue total_debt explanation =
  Ok (debt_ratio_band (nearest_float total_debt total_revenue),
      <["debt_ratio" := VFloat (py_round (nearest_float total_debt total_revenue) 3)]>
        explanation).
Proof.
  intros Hrev Hdebt. rewrite debt_ratio_analysis_is_try. unfold debt_ratio_try.
  destruct (Z.ltb_spec 0 total_revenue); [| lia].
  destruct (Z.leb_spec 0 total_debt); [| lia]. cbn [andb].
  rewrite py_true_div_ok by lia. reflexivity.
Qed.

(** Whatever the figures, a returned impact is one of seven values and
    the explanation gains exactly the [debt_ratio] entry. *)
Lemma debt_ratio_analysis_shape (total_revenue total_debt impact : Z)
    (explanation explanation' : gmap string value) :
  debt_ratio_analysis total_revenue total_debt explanation = Ok (impact, explanation') ->
  In impact [25; 15; 5; -5; -15; -25; -10] /\
  exists v, explanation' = <["debt_ratio" := v]> explanation /\
            v <> VStr "Revenue is zero".
Proof.
  rewrite debt_ratio_analysis_is_try. unfold debt_ratio_try.
  destruct ((0 <? total_revenue) && (0 <=? total_debt)).
  - destruct (py_true_div total_debt total_revenue) as [f | e];
      [rewrite bind_Ok | rewrite bind_Raise; discriminate].
    intros [= <- <-]. split.
    + pose proof (debt_ratio_band_values f) as Hin. simpl in *. tauto.
    + eexists. split; [reflexivity | discriminate].
  - intros [= <- <-]. split.
    + simpl. tauto.
    + eexists. split; [reflexivity | discriminate].
Qed.

End DebtRatio.

Section ExactBands.

Local Open Scope Z_scope.

(** The five thresholds are the floats nearest to 1/5, 2/5, 3/5, 4/5, 1. *)
Lemma thresholds_reduced :
  float_lit 2 10 = nearest_float 1 5 /\ float_lit 4 10 = nearest_float 2 5 /\
  float_lit 6 10 = nearest_float 3 5 /\ float_lit 8 10 = nearest_float 4 5 /\
  float_lit 10 10 = nearest_float 1 1.
Proof. vm_compute. repeat split; exact eq_refl. Qed.

(** For a revenue up to 2^50 the comparison of the float ratio with a
    threshold decides the comparison of the exact ratio with the fraction:
    the exact ratios above [p / q] are far enough from it to round above. *)
Lemma ratio_threshold_exact (p q debt revenue : Z) :
  In (p, q) [(1, 5); (2, 5); (3, 5); (4, 5); (1, 1)] ->
  0 <= debt -> 0 < revenue <= 2 ^ 50 ->
  (float_leq (nearest_float debt revenue) (nearest_float p q) <->
   q * debt <= p * revenue).
Proof.
  intros Hin Hdebt Hrev. split.
  - intros Hle.
    destruct (Z_le_gt_dec (q * debt) (p * revenue)) as [| Hgt]; [assumption | exfalso].
    assert (Hfar : float_lt (nearest_float p q)
                     (nearest_float (p * 2 ^ 50 + 1) (q * 2 ^ 50))).
    { simpl in Hin.
      destruct Hin as [[= <- <-] | [[= <- <-] | [[= <- <-] | [[= <- <-] | [[= <- <-] | []]]]]];
        vm_compute; reflexivity. }
    assert (Hord : float_leq (nearest_float (p * 2 ^ 50 + 1) (q * 2 ^ 50))
                     (nearest_float debt revenue)).
    { simpl in Hin.
      destruct Hin as [[= <- <-] | [[= <- <-] | [[= <- <-] | [[= <- <-] | [[= <- <-] | []]]]]];
        apply nearest_float_order; lia. }
    unfold float_leq, float_lt in *. lia.
  - intros Hle.
    simpl in Hin.
    destruct Hin as [[= <- <-] | [[= <- <-] | [[= <- <-] | [[= <- <-] | [[= <- <-] | []]]]]];
      apply nearest_float_order; lia.
Qed.

(** So for such a revenue the impact is the band of the exact ratio. *)
Lemma debt_ratio_band_exact (debt revenue : Z) :
  0 <= debt -> 0 < revenue <= 2 ^ 50 ->
  debt_ratio_banding_exact debt revenue (debt_ratio_band (nearest_float debt revenue)).
Proof.
  intros Hdebt Hrev.
  assert (T1 := ratio_threshold_exact 1 5 debt revenue (in_eq _ _) Hdebt Hrev).
  assert (T2 := ratio_threshold_exact 2 5 debt revenue
                  (in_cons _ _ _ (in_eq _ _)) Hdebt Hrev).
  assert (T3 := ratio_threshold_exact 3 5 debt revenue
                  (in_cons _ _ _ (in_cons _ _ _ (in_eq _ _))) Hdebt Hrev).
  assert (T4 := ratio_threshold_exact 4 5 debt revenue
                  (in_cons _ _ _ (in_cons _ _ _ (in_cons _ _ _ (in_eq _ _))))
                  Hdebt Hrev).
  assert (T5 := ratio_threshold_exact 1 1 debt revenue
                  (in_cons _ _ _ (in_cons _ _ _ (in_cons _ _ _
                     (in_cons _ _ _ (in_eq _ _))))) Hdebt Hrev).
  pose proof (debt_ratio_band_banding (nearest_float debt revenue)) as Hb.
  destruct thresholds_reduced as (E1 & E2 & E3 & E4 & E5).
  unfold debt_ratio_banding in Hb. rewrite E1, E2, E3, E4, E5 in Hb.
  unfold float_leq, float_lt in *.
  destruct Hb as (B1 & B2 & B3 & B4 & B5 & B6).
  unfold debt_ratio_banding_exact.
  repeat split; intros;
    first [ apply B1; lia | apply B2; lia | apply B3; lia
          | apply B4; lia | apply B5; lia | apply B6; lia ].
Qed.

End ExactBands.

(** ** The market-cap evaluator *)

Section MarketCap.

Local Open Scope Z_scope.

Ltac cap_cases :=
  unfold market_cap_band, float_ge_int;
  generalize dependent unit_scale; intros;
  repeat match goal with
         | |- context [?x <=? ?y] => destruct (Z.leb_spec x y)
         end.

Lemma market_cap_band_banding (billions : pyfloat) :
  market_cap_banding billions (market_cap_band billions).
Proof.
  pose proof unit_scale_pos as Hs.
  unfold market_cap_banding, float_at_least, float_below.
  cap_cases; repeat split; intros; lia.
Qed.

Lemma market_cap_band_values (billions : pyfloat) :
  In (market_cap_band billions) [20; 15; 10; 5; 0].
Proof. cap_cases; simpl; tauto. Qed.

(** A larger value never earns a smaller impact. *)
Lemma market_cap_band_monotone (b1 b2 : pyfloat) :
  float_leq b1 b2 -> market_cap_band b1 <= market_cap_band b2.
Proof.
  unfold float_leq. intros Hle. pose proof unit_scale_pos as Hs.
  cap_cases; lia.
Qed.

(** On the quotient by 10^9 the four float comparisons decide exactly the
    integer thresholds: rounding moves no value across a band limit. *)
Lemma billions_threshold (n x : Z) :
  In n [500; 100; 50; 10] -> 0 <= x ->
  (float_at_least (nearest_float x 1000000000) n <-> n * 1000000000 <= x).
Proof.
  intros Hn Hx. unfold float_at_least. split.
  - intros Hge.
    destruct (Z_le_gt_dec (n * 1000000000) x) as [| Hgt]; [assumption | exfalso].
    assert (Hpred : 0 <= x <= n * 1000000000 - 1) by lia.
    pose proof (nearest_float_mono x (n * 1000000000 - 1) 1000000000 Hpred
                  ltac:(lia)) as Hm.
    unfold float_leq in Hm.
    assert (Hb : units (nearest_float (n * 1000000000 - 1) 1000000000) < n * unit_scale).
    { simpl in Hn. destruct Hn as [<- | [<- | [<- | [<- | []]]]];
        vm_compute; reflexivity. }
    lia.
  - intros Hle.
    assert (Hn0 : 0 <= n) by (simpl in Hn; lia).
    pose proof (nearest_float_mono (n * 1000000000) x 1000000000
                  ltac:(lia) ltac:(lia)) as Hm.
    unfold float_leq in Hm.
    assert (He : units (nearest_float (n * 1000000000) 1000000000) = n * unit_scale).
    { simpl in Hn. destruct Hn as [<- | [<- | [<- | [<- | []]]]];
        vm_compute; reflexivity. }
    lia.
Qed.

Lemma market_cap_inr_le (market_cap : Z) (currency : string) :
  0 < market_cap -> 0 < market_cap_inr market_cap currency <= 83 * market_cap.
Proof.
  intros H. unfold market_cap_inr. destruct (String.eqb currency "USD"); lia.
Qed.

Lemma market_cap_analysis_unavailable (financial_data : FinancialData)
    (explanation : gmap string value) :
  default 0 (market_cap financial_data) <= 0 ->
  market_cap_analysis financial_data explanation =
  Ok (0, <["market_cap_billions" := VStr "Data unavailable"]> explanation).
Proof.
  intros H. unfold market_cap_analysis.
  destruct (Z.ltb_spec 0 (default 0 (market_cap financial_data))); [lia | reflexivity].
Qed.

Lemma market_cap_analysis_value (financial_data : FinancialData)
    (explanation : gmap string value) :
  let converted := market_cap_inr (default 0 (market_cap financial_data))
                     (default "INR" (currency financial_data)) in
  let billions := nearest_float converted 1000000000 in
  0 < default 0 (market_cap financial_data) ->
  83 * default 0 (market_cap financial_data) <= max_float_int ->
  market_cap_analysis financial_data explanation =
  Ok (market_cap_band billions,
      <["market_cap_billions" := VFloat (py_round billions 2)]> explanation).
Proof.
  intros converted billions Hpos Hmax. unfold market_cap_analysis.
  destruct (Z.ltb_spec 0 (default 0 (market_cap financial_data))); [| lia].
  pose proof (market_cap_inr_le _ (default "INR" (currency financial_data)) Hpos).
  cbv zeta. rewrite py_true_div_ok by (fold converted; lia). reflexivity.
Qed.

Lemma market_cap_analysis_shape (financial_data : FinancialData) (impact : Z)
    (explanation explanation' : gmap string value) :
  market_cap_analysis financial_data explanation = Ok (impact, explanation') ->
  In impact [20; 15; 10; 5; 0] /\
  exists v, explanation' = <["market_cap_billions" := v]> explanation.
Proof.
  unfold market_cap_analysis.
  destruct (0 <? default 0 (market_cap financial_data)).
  - cbv zeta.
    destruct (py_true_div _ 1000000000) as [f | e];
      [rewrite bind_Ok | rewrite bind_Raise; discriminate].
    intros [= <- <-]. split; [apply market_cap_band_values | eauto].
  - intros [= <- <-]. split; [simpl; tauto | eauto].
Qed.

End MarketCap.

(** ** Rounding to places, and the range of the true division *)

Section Quotients.

Local Open Scope Z_scope.

(** [py_round] is rounding to decimal places. *)
Lemma py_round_spec (f : pyfloat) (places : Z) :
  0 <= places -> rounded_to_places places f (py_round f places).
Proof.
  intros Hp. unfold rounded_to_places, py_round. cbv zeta.
  set (p := 10 ^ places).
  set (q := rne_div (Z.abs (units f) * p) unit_scale).
  exists (Z.sgn (units f) * q).
  destruct (rne_div_spec (Z.abs (units f) * p) unit_scale unit_scale_pos)
    as (Hnear & Hup & Hdown).
  fold q in Hnear, Hup, Hdown.
  assert (Habs : Z.abs (units f * p - Z.sgn (units f) * q * unit_scale) =
                 Z.abs (Z.abs (units f) * p - q * unit_scale)).
  { destruct (Z.lt_trichotomy (units f) 0) as [Hneg | [Hz | Hpos]].
    - rewrite (Z.sgn_neg _ Hneg), (Z.abs_neq (units f)) by lia.
      replace (units f * p - -1 * q * unit_scale)
        with (- (- units f * p - q * unit_scale)) by ring.
      apply Z.abs_opp.
    - assert (Hq0 : q = 0).
      { unfold q. rewrite Hz. change (Z.abs 0 * p) with 0.
        exact (rne_div_exact 0 unit_scale unit_scale_pos). }
      rewrite Hz, Hq0. reflexivity.
    - rewrite (Z.sgn_pos _ Hpos), (Z.abs_eq (units f)) by lia.
      f_equal. ring. }
  rewrite Habs.
  split; [lia |]. split; [| reflexivity].
  intros Htie.
  assert (Hq : Z.even q = true).
  { destruct (Z.abs_spec (Z.abs (units f) * p - q * unit_scale)) as [[_ E] | [_ E]];
      rewrite E in Htie; [apply Hdown | apply Hup]; lia. }
  destruct (Z.lt_trichotomy (units f) 0) as [Hneg | [Hz | Hpos]].
  - rewrite (Z.sgn_neg _ Hneg). replace (-1 * q) with (- q) by ring.
    rewrite Z.even_opp. exact Hq.
  - rewrite Hz. change (Z.sgn 0) with 0. rewrite Z.mul_0_l. reflexivity.
  - rewrite (Z.sgn_pos _ Hpos), Z.mul_1_l. exact Hq.
Qed.

(** The division of a non-negative int by a positive one returns as long
    as the exact quotient is no more than the largest float. *)
Lemma py_true_div_quotient (x y : Z) :
  0 <= x -> 0 < y -> x <= max_float_int * y ->
  py_true_div x y = Ok (nearest_float x y).
Proof.
  intros Hx Hy Hq. unfold py_true_div.
  destruct (Z.eqb_spec y 0) as [| _]; [lia |].
  assert (Hu : 0 <= units (nearest_float x y) <= max_float_int * unit_scale).
  { rewrite nearest_float_units by lia. pose proof unit_scale_pos. split.
    - apply round_quot_nonneg; nia.
    - rewrite <- max_float_fixed.
      apply round_quot_mono; [lia | lia |].
      rewrite Z.mul_1_r.
      replace (max_float_int * unit_scale * y) with (max_float_int * y * unit_scale) by ring.
      apply Z.mul_le_mono_nonneg_r; lia. }
  pose proof max_float_below_overflow.
  cbv zeta.
  destruct (Z.leb_spec overflow_units (Z.abs (units (nearest_float x y))));
    [lia | reflexivity].
Qed.

(** Otherwise it returns the nearest float all the same or raises
    [OverflowError]. *)
Lemma py_true_div_cases (x y : Z) :
  0 <= x -> 0 < y ->
  py_true_div x y = Ok (nearest_float x y) \/
  (max_float_int * y < x /\ py_true_div x y = Raise OverflowError).
Proof.
  intros Hx Hy.
  destruct (Z_le_gt_dec x (max_float_int * y)) as [Hle | Hgt].
  - left. apply py_true_div_quotient; assumption.
  - unfold py_true_div. destruct (Z.eqb_spec y 0) as [| _]; [lia |].
    cbv zeta. destruct (_ <=? _); [right | left]; [split; [lia |] |]; reflexivity.
Qed.

(** A smaller dividend is divided whenever a larger one is. *)
Lemma py_true_div_smaller (x1 x2 y : Z) (f2 : pyfloat) :
  0 <= x1 <= x2 -> 0 < y ->
  py_true_div x2 y = Ok f2 ->
  f2 = nearest_float x2 y /\ py_true_div x1 y = Ok (nearest_float x1 y).
Proof.
  intros Hx Hy. unfold py_true_div.
  destruct (Z.eqb_spec y 0) as [| _]; [lia |]. cbv zeta.
  destruct (Z.leb_spec overflow_units (Z.abs (units (nearest_float x2 y))))
    as [| H2]; [discriminate |].
  intros [= <-]. split; [reflexivity |].
  pose proof (nearest_float_mono x1 x2 y Hx Hy) as Hm. unfold float_leq in Hm.
  assert (H1 : 0 <= units (nearest_float x1 y)).
  { rewrite nearest_float_units by lia. pose proof unit_scale_pos.
    apply round_quot_nonneg; nia. }
  destruct (Z.leb_spec overflow_units (Z.abs (units (nearest_float x1 y))));
    [lia | reflexivity].
Qed.

(** The debt evaluator on a positive revenue and a non-negative debt
    follows the division. *)
Lemma debt_ratio_analysis_divides (total_revenue total_debt : Z)
    (explanation : gmap string value) :
  0 < total_revenue -> 0 <= total_debt ->
  debt_ratio_analysis total_revenue total_debt explanation =
  (debt_ratio ← py_true_div total_debt total_revenue;
   mret (debt_ratio_band debt_ratio,
         <["debt_ratio" := VFloat (py_round debt_ratio 3)]> explanation)).
Proof.
  intros Hrev Hdebt. rewrite debt_ratio_analysis_is_try. unfold debt_ratio_try.
  destruct (Z.ltb_spec 0 total_revenue); [| lia].
  destruct (Z.leb_spec 0 total_debt); [| lia]. reflexivity.
Qed.

Lemma market_cap_analysis_divides (financial_data : FinancialData)
    (explanation : gmap string value) :
  0 < default 0 (market_cap financial_data) ->
  market_cap_analysis financial_data explanation =
  (market_cap_billions ←
     py_true_div (market_cap_inr (default 0 (market_cap financial_data))
                    (default "INR" (currency financial_data))) 1000000000;
   mret (market_cap_band market_cap_billions,
         <["market_cap_billions" := VFloat (py_round market_cap_billions 2)]> explanation)).
Proof.
  intros Hcap. unfold market_cap_analysis.
  destruct (Z.ltb_spec 0 (default 0 (market_cap financial_data))); [| lia].
  reflexivity.
Qed.

End Quotients.

(** ** Text *)

Section Text.

Lemma append_nil (s : string) : "" +:+ s = s.
Proof. reflexivity. Qed.

Lemma append_cons (c : ascii) (s t : string) :
  String c s +:+ t = String c (s +:+ t).
Proof. reflexivity. Qed.

Lemma prefix_occurs (p s : string) :
  String.prefix p s = true <-> exists rest, s = p +:+ rest.
Proof.
  revert s. induction p as [| c p IH]; intros [| d s]; simpl.
  - split; [intros _; exists ""; reflexivity | intros _; reflexivity].
  - split; [intros _; exists (String d s); reflexivity | intros _; reflexivity].
  - split; [discriminate | intros [rest H]; discriminate].
  - destruct (Ascii.ascii_dec c d) as [-> | Hne].
    + rewrite IH. split; intros [rest H]; exists rest;
        rewrite append_cons in *; congruence.
    + split; [discriminate | intros [rest H]; rewrite append_cons in H; congruence].
Qed.

Lemma py_in_nil (sub : string) : py_in sub "" = String.prefix sub "" || false.
Proof. reflexivity. Qed.

Lemma py_in_cons (sub : string) (c : ascii) (s : string) :
  py_in sub (String c s) = String.prefix sub (String c s) || py_in sub s.
Proof. reflexivity. Qed.

(** [in] on text is occurrence as a substring. *)
Lemma py_in_occurs (sub s : string) : py_in sub s = true <-> occurs_in sub s.
Proof.
  unfold occurs_in. split.
  - induction s as [| c s IH].
    + rewrite py_in_nil, orb_true_iff. intros [H | H]; [| discriminate].
      apply prefix_occurs in H as [rest H]. exists "", rest. exact H.
    + rewrite py_in_cons, orb_true_iff. intros [H | H].
      * apply prefix_occurs in H as [rest H]. exists "", rest. exact H.
      * destruct (IH H) as (before & after & ->).
        exists (String c before), after. reflexivity.
  - intros (before & after & ->).
    induction before as [| c before IH].
    + rewrite append_nil.
      assert (Hp : String.prefix sub (sub +:+ after) = true)
        by (apply prefix_occurs; exists after; reflexivity).
      destruct (sub +:+ after);
        [rewrite py_in_nil | rewrite py_in_cons]; rewrite Hp; reflexivity.
    + rewrite append_cons, py_in_cons, IH. apply orb_true_r.
Qed.

Lemma existsb_mentions (keywords : list string) (headline : Headline) :
  existsb (fun keyword => py_in keyword (full_text headline)) keywords = true <->
  mentions_any keywords headline.
Proof.
  unfold mentions_any. rewrite existsb_exists.
  split; intros (k & Hin & H); exists k; (split; [exact Hin |]);
    apply py_in_occurs; exact H.
Qed.

Lemma append_assoc (s t u : string) : (s +:+ t) +:+ u = s +:+ (t +:+ u).
Proof.
  induction s as [| c s IH]; [reflexivity |].
  rewrite !append_cons, IH. reflexivity.
Qed.

(** The text the loop scans is the text of the specification. *)
Lemma full_text_title_plus_description (h : Headline) :
  full_text h = title_plus_description h.
Proof. reflexivity. Qed.

Lemma existsb_text_mentions (keywords : list string) (h : Headline) :
  existsb (fun keyword => py_in keyword (full_text h)) keywords = true <->
  text_mentions keywords (title_plus_description h).
Proof.
  rewrite existsb_mentions. unfold mentions_any, text_mentions.
  rewrite full_text_title_plus_description. reflexivity.
Qed.

(** What occurs in the lowercased title or description occurs in the
    text. *)
Lemma occurs_in_either_part (keyword : string) (h : Headline) :
  occurs_in keyword (py_lower (default "" (title h))) \/
  occurs_in keyword (py_lower (default "" (description h))) ->
  occurs_in keyword (title_plus_description h).
Proof.
  unfold title_plus_description.
  intros [(before & after & ->) | (before & after & ->)].
  - exists before, (after +:+ " " +:+ py_lower (default "" (description h))).
    rewrite !append_assoc. reflexivity.
  - exists (py_lower (default "" (title h)) +:+ " " +:+ before), after.
    rewrite !append_assoc. reflexivity.
Qed.

End Text.

(** ** The sentiment evaluator *)

Section Sentiment.

Local Open Scope Z_scope.

Lemma count_headlines_cons (test : Headline -> bool) (h : Headline)
    (news_headlines : list Headline) :
  count_headlines test (h :: news_headlines) =
  (if test h then 1 else 0) + count_headlines test news_headlines.
Proof.
  unfold count_headlines. simpl. destruct (test h); simpl length; lia.
Qed.

Lemma count_headlines_nonneg (test : Headline -> bool) (news_headlines : list Headline) :
  0 <= count_headlines test news_headlines.
Proof. unfold count_headlines. lia. Qed.

Lemma triple_eq (a a' b b' c c' : Z) :
  a = a' -> b = b' -> c = c' -> (a, b, c) = (a', b', c').
Proof. congruence. Qed.

Lemma sentiment_step_unfold (impact positive negative : Z) (h : Headline) :
  sentiment_step (impact, positive, negative) h =
  if has_negative h then (impact - 5, positive, negative + 1)
  else if has_positive h then (impact + 5, positive + 1, negative)
  else (impact, positive, negative).
Proof. reflexivity. Qed.

(** The loop from any state: each headline with a negative keyword
    takes 5 and is counted negative, each of the others with a positive
    keyword adds 5 and is counted positive. *)
Lemma sentiment_loop (news_headlines : list Headline) (impact positive negative : Z) :
  fold_left sentiment_step news_headlines (impact, positive, negative) =
  (impact + 5 * count_headlines positive_only news_headlines
          - 5 * count_headlines has_negative news_headlines,
   positive + count_headlines positive_only news_headlines,
   negative + count_headlines has_negative news_headlines).
Proof.
  revert impact positive negative.
  induction news_headlines as [| h rest IH]; intros impact positive negative.
  - unfold count_headlines. simpl. apply triple_eq; lia.
  - change (fold_left sentiment_step (h :: rest) (impact, positive, negative))
      with (fold_left sentiment_step rest (sentiment_step (impact, positive, negative) h)).
    rewrite sentiment_step_unfold, !count_headlines_cons.
    unfold positive_only at 1 3.
    destruct (has_negative h); [| destruct (has_positive h)];
      cbn [negb andb]; rewrite IH; apply triple_eq; lia.
Qed.

Lemma news_sentiment_analysis_counts (news_headlines : list Headline) :
  news_sentiment_analysis news_headlines =
  (5 * count_headlines positive_only news_headlines
     - 5 * count_headlines has_negative news_headlines,
   count_headlines positive_only news_headlines,
   count_headlines has_negative news_headlines).
Proof. unfold news_sentiment_analysis. rewrite sentiment_loop. reflexivity. Qed.

End Sentiment.

(** ** The scorer *)

Section Scorer.

Local Open Scope Z_scope.

Ltac lookup_entry :=
  unfold assembled_explanation, initial_explanation;
  repeat first [ rewrite lookup_insert_eq; reflexivity
               | rewrite lookup_insert_ne by discriminate ];
  try reflexivity.

Lemma assembled_debt_ratio_impact d vr m vb n p q s :
  assembled_explanation d vr m vb n p q s !! "debt_ratio_impact" = Some (VInt d).
Proof. lookup_entry. Qed.

Lemma assembled_debt_ratio d vr m vb n p q s :
  assembled_explanation d vr m vb n p q s !! "debt_ratio" = Some vr.
Proof. lookup_entry. Qed.

Lemma assembled_market_cap_impact d vr m vb n p q s :
  assembled_explanation d vr m vb n p q s !! "market_cap_impact" = Some (VInt m).
Proof. lookup_entry. Qed.

Lemma assembled_market_cap_billions d vr m vb n p q s :
  assembled_explanation d vr m vb n p q s !! "market_cap_billions" = Some vb.
Proof. lookup_entry. Qed.

Lemma assembled_news_sentiment_impact d vr m vb n p q s :
  assembled_explanation d vr m vb n p q s !! "news_sentiment_impact" = Some (VInt n).
Proof. lookup_entry. Qed.

Lemma assembled_positive_news_count d vr m vb n p q s :
  assembled_explanation d vr m vb n p q s !! "positive_news_count" = Some (VInt p).
Proof. lookup_entry. Qed.

Lemma assembled_negative_news_count d vr m vb n p q s :
  assembled_explanation d vr m vb n p q s !! "negative_news_count" = Some (VInt q).
Proof. lookup_entry. Qed.

Lemma assembled_final_score d vr m vb n p q s :
  assembled_explanation d vr m vb n p q s !! "final_score" = Some (VInt s).
Proof. lookup_entry. Qed.

Lemma assembled_base_score d vr m vb n p q s :
  assembled_explanation d vr m vb n p q s !! "base_score" = Some (VInt 50).
Proof. lookup_entry. Qed.

(** The scorer for a present snapshot, once both evaluators returned. *)
Lemma calculate_credit_score_compose (fd : FinancialData) (hl : list Headline)
    (d m : Z) (vr vb : value) :
  debt_ratio_analysis (default 0 (total_revenue fd)) (default 0 (total_debt fd))
    (initial_explanation 50) = Ok (d, <["debt_ratio" := vr]> (initial_explanation 50)) ->
  market_cap_analysis fd
    (<["debt_ratio_impact" := VInt d]> (<["debt_ratio" := vr]> (initial_explanation 50))) =
    Ok (m, <["market_cap_billions" := vb]>
             (<["debt_ratio_impact" := VInt d]>
                (<["debt_ratio" := vr]> (initial_explanation 50)))) ->
  let n := 5 * count_headlines positive_only hl - 5 * count_headlines has_negative hl in
  let score := Z.max 0 (Z.min 100 (50 + d + m + n)) in
  calculate_credit_score (Some fd) hl =
  Ok (score,
      assembled_explanation d vr m vb n (count_headlines positive_only hl)
        (count_headlines has_negative hl) score).
Proof.
  intros Hd Hm n score. unfold calculate_credit_score. cbv zeta.
  rewrite Hd, bind_Ok. cbv beta iota. rewrite Hm, bind_Ok. cbv beta iota.
  rewrite news_sentiment_analysis_counts. reflexivity.
Qed.

(** Every score returned for a present snapshot was put together so. *)
Lemma calculate_credit_score_inv (fd : FinancialData) (hl : list Headline)
    (score : Z) (e : gmap string value) :
  calculate_credit_score (Some fd) hl = Ok (score, e) ->
  exists d vr m vb,
    debt_ratio_analysis (default 0 (total_revenue fd)) (default 0 (total_debt fd))
      (initial_explanation 50) = Ok (d, <["debt_ratio" := vr]> (initial_explanation 50)) /\
    market_cap_analysis fd
      (<["debt_ratio_impact" := VInt d]> (<["debt_ratio" := vr]> (initial_explanation 50))) =
      Ok (m, <["market_cap_billions" := vb]>
               (<["debt_ratio_impact" := VInt d]>
                  (<["debt_ratio" := vr]> (initial_explanation 50)))) /\
    score = Z.max 0 (Z.min 100
              (50 + d + m + (5 * count_headlines positive_only hl
                             - 5 * count_headlines has_negative hl))) /\
    e = assembled_explanation d vr m vb
          (5 * count_headlines positive_only hl - 5 * count_headlines has_negative hl)
          (count_headlines positive_only hl) (count_headlines has_negative hl) score.
Proof.
  intros H.
  destruct (debt_ratio_analysis (default 0 (total_revenue fd))
              (default 0 (total_debt fd)) (initial_explanation 50))
    as [[d ex1] | err] eqn:Hd.
  2: { unfold calculate_credit_score in H. cbv zeta in H.
       rewrite Hd, bind_Raise in H. discriminate. }
  destruct (debt_ratio_analysis_shape _ _ _ _ _ Hd) as (_ & vr & -> & _).
  destruct (market_cap_analysis fd
              (<["debt_ratio_impact" := VInt d]>
                 (<["debt_ratio" := vr]> (initial_explanation 50))))
    as [[m ex2] | err] eqn:Hm.
  2: { unfold calculate_credit_score in H. cbv zeta in H.
       rewrite Hd, bind_Ok in H. cbv beta iota in H.
       rewrite Hm, bind_Raise in H. discriminate. }
  destruct (market_cap_analysis_shape _ _ _ _ Hm) as (_ & vb & ->).
  rewrite (calculate_credit_score_compose fd hl d m vr vb Hd Hm) in H.
  injection H as <- <-.
  exists d, vr, m, vb.
  split; [reflexivity | split; [exact Hm | split; reflexivity]].
Qed.

(** Within the binary64 range both evaluators return. *)
Lemma debt_ratio_analysis_returns (total_revenue total_debt : Z)
    (explanation : gmap string value) :
  total_debt <= max_float_int ->
  exists d vr, debt_ratio_analysis total_revenue total_debt explanation =
               Ok (d, <["debt_ratio" := vr]> explanation).
Proof.
  intros Hmax.
  destruct (Z_lt_le_dec 0 total_revenue) as [Hrev | Hrev];
    [destruct (Z_le_gt_dec 0 total_debt) as [Hdebt | Hdebt] |].
  - rewrite debt_ratio_analysis_ratio by lia. eauto.
  - rewrite debt_ratio_analysis_unavailable by lia. eauto.
  - rewrite debt_ratio_analysis_unavailable by lia. eauto.
Qed.

Lemma market_cap_analysis_returns (fd : FinancialData) (explanation : gmap string value) :
  83 * default 0 (market_cap fd) <= max_float_int ->
  exists m vb, market_cap_analysis fd explanation =
               Ok (m, <["market_cap_billions" := vb]> explanation).
Proof.
  intros Hmax.
  destruct (Z_lt_le_dec 0 (default 0 (market_cap fd))) as [Hpos | Hpos].
  - rewrite market_cap_analysis_value by assumption. eauto.
  - rewrite market_cap_analysis_unavailable by assumption. eauto.
Qed.

Lemma calculate_credit_score_returns (fd : FinancialData) (hl : list Headline) :
  snapshot_in_range fd ->
  exists score e, calculate_credit_score (Some fd) hl = Ok (score, e).
Proof.
  intros [Hd Hm].
  destruct (debt_ratio_analysis_returns (default 0 (total_revenue fd))
              (default 0 (total_debt fd)) (initial_explanation 50) Hd) as (d & vr & Hda).
  destruct (market_cap_analysis_returns fd
              (<["debt_ratio_impact" := VInt d]>
                 (<["debt_ratio" := vr]> (initial_explanation 50))) Hm) as (m & vb & Hma).
  rewrite (calculate_credit_score_compose fd hl d m vr vb Hda Hma). eauto.
Qed.

End Scorer.

(** ** The narrative generator *)

Section Narrative.

Local Open Scope Z_scope.

Ltac chain :=
  cbn [py_ge py_le];
  repeat (rewrite bind_Ok;
          match goal with
          | |- context [?x <=? ?y] => destruct (Z.leb_spec x y)
          end).

(** On an int impact each chain returns, and only ever appends. *)
Lemma analyze_debt_int (d : Z) (strengths concerns : list string) :
  exists s c, analyze_debt (VInt d) (strengths, concerns) =
              Ok (strengths ++ s, concerns ++ c).
Proof.
  unfold analyze_debt. chain;
    first [ exists [], []; rewrite !app_nil_r; reflexivity
          | eexists; exists []; rewrite (app_nil_r concerns); reflexivity
          | exists []; eexists; rewrite (app_nil_r strengths); reflexivity ].
Qed.

Lemma analyze_news_int (n : Z) (strengths concerns : list string) :
  exists s c, analyze_news (VInt n) (strengths, concerns) =
              Ok (strengths ++ s, concerns ++ c).
Proof.
  unfold analyze_news. chain;
    first [ exists [], []; rewrite !app_nil_r; reflexivity
          | eexists; exists []; rewrite (app_nil_r concerns); reflexivity
          | exists []; eexists; rewrite (app_nil_r strengths); reflexivity ].
Qed.

Lemma analyze_market_strength (m : Z) (strengths concerns : list string) :
  10 <= m ->
  analyze_market (VInt m) (strengths, concerns) =
  Ok (strengths ++ [if 15 <=? m then "strong market position"
                    else "solid market presence"], concerns).
Proof.
  intros H. unfold analyze_market. chain; first [reflexivity | lia].
Qed.

Lemma analyze_market_concern (m : Z) (strengths concerns : list string) :
  m <= 5 ->
  analyze_market (VInt m) (strengths, concerns) =
  Ok (strengths, concerns ++ ["limited market size"]).
Proof.
  intros H. unfold analyze_market. chain; first [reflexivity | lia].
Qed.

(** Impacts 6 to 9 would be left out, but the scorer has none of them. *)
Lemma analyze_market_gap (m : Z) (lists : list string * list string) :
  5 < m < 10 -> analyze_market (VInt m) lists = Ok lists.
Proof.
  intros H. destruct lists as [strengths concerns].
  unfold analyze_market. chain; first [reflexivity | lia].
Qed.

Lemma analyze_debt_gap (d : Z) (lists : list string * list string) :
  -10 < d < 5 -> analyze_debt (VInt d) lists = Ok lists.
Proof.
  intros H. destruct lists as [strengths concerns].
  unfold analyze_debt. chain; first [reflexivity | lia].
Qed.

Lemma analyze_news_gap (n : Z) (lists : list string * list string) :
  -5 < n < 5 -> analyze_news (VInt n) lists = Ok lists.
Proof.
  intros H. destruct lists as [strengths concerns].
  unfold analyze_news. chain; first [reflexivity | lia].
Qed.

(** The summary is its four parts joined by single spaces. *)
Lemma generate_plain_language_summary_parts (score : Z) (e : gmap string value)
    (name : string) (strengths concerns : list string) :
  strengths_and_concerns e = Ok (strengths, concerns) ->
  generate_plain_language_summary score e name =
  Ok (py_join " "
        (["Based on our comprehensive analysis, " +:+ name +:+ " " +:+
          overall_assessment score +:+ "."]
           ++ strengths_clause strengths
           ++ concerns_clause strengths concerns
           ++ [recommendation score])).
Proof.
  intros H. unfold generate_plain_language_summary. cbv zeta.
  rewrite H, bind_Ok. reflexivity.
Qed.

Lemma market_entries_app (l1 l2 : list string) :
  market_entries (l1 ++ l2) = market_entries l1 ++ market_entries l2.
Proof. apply List.filter_app. Qed.

Ltac chain_values :=
  repeat (rewrite bind_Ok;
          match goal with
          | |- context [if ?b then _ else _] => destruct b
          end).

(** What the debt and the sentiment chains append is no phrase of the
    market-cap dimension. *)
Lemma analyze_debt_no_market (v : value) (strengths concerns : list string) :
  (forall t, v <> VStr t) ->
  exists xs ys : list string,
    analyze_debt v (strengths, concerns) = Ok (strengths ++ xs, concerns ++ ys) /\
    market_entries xs = [] /\ market_entries ys = [].
Proof.
  intros Hv. unfold analyze_debt.
  destruct v as [n | f | t]; [| | exfalso; eapply Hv; reflexivity];
    cbn [py_ge py_le]; chain_values;
    first [ exists [], []; rewrite !app_nil_r; repeat split; reflexivity
          | eexists; exists []; rewrite (app_nil_r concerns);
            repeat split; reflexivity
          | exists []; eexists; rewrite (app_nil_r strengths);
            repeat split; reflexivity ].
Qed.

Lemma analyze_news_no_market (v : value) (strengths concerns : list string) :
  (forall t, v <> VStr t) ->
  exists xs ys : list string,
    analyze_news v (strengths, concerns) = Ok (strengths ++ xs, concerns ++ ys) /\
    market_entries xs = [] /\ market_entries ys = [].
Proof.
  intros Hv. unfold analyze_news.
  destruct v as [n | f | t]; [| | exfalso; eapply Hv; reflexivity];
    cbn [py_ge py_le]; chain_values;
    first [ exists [], []; rewrite !app_nil_r; repeat split; reflexivity
          | eexists; exists []; rewrite (app_nil_r concerns);
            repeat split; reflexivity
          | exists []; eexists; rewrite (app_nil_r strengths);
            repeat split; reflexivity ].
Qed.

Lemma value_text_or_number (v : value) :
  (exists t, v = VStr t) \/ (forall t, v <> VStr t).
Proof. destruct v; [right | right | left]; try discriminate. eauto. Qed.

(** The three chains in a row, for an int as market-cap impact: lists with
    the market-cap dimension classified, or [TypeError] for a text as debt or
    news impact. *)
Lemma chains_classified (debt news : value) (m : Z) :
  10 <= m \/ m <= 5 ->
  let lists := (lists ← analyze_debt debt ([], []);
                lists ← analyze_market (VInt m) lists;
                analyze_news news lists) in
  (exists strengths concerns : list string,
      lists = Ok (strengths, concerns) /\
      market_cap_classified m strengths concerns /\
      (m <= 5 -> In "limited market size" concerns))
  \/
  (((exists t, debt = VStr t) \/ (exists t, news = VStr t)) /\
   lists = Raise TypeError).
Proof.
  intros Hm lists. unfold lists.
  destruct (value_text_or_number debt) as [[t ->] | Hd].
  { right. split; [left; eauto | reflexivity]. }
  destruct (analyze_debt_no_market debt [] [] Hd) as (x1 & y1 & -> & Hx1 & Hy1).
  rewrite bind_Ok.
  assert (Hmk : exists x2 y2 : list string,
             analyze_market (VInt m) ([] ++ x1, [] ++ y1) =
             Ok (([] ++ x1) ++ x2, ([] ++ y1) ++ y2) /\
             market_cap_classified m x2 y2 /\
             (m <= 5 -> In "limited market size" y2)).
  { destruct (Z_le_gt_dec 10 m) as [Hge | Hlt].
    - exists [if 15 <=? m then "strong market position" else "solid market presence"], [].
      rewrite analyze_market_strength by lia.
      rewrite (app_nil_r ([] ++ y1)). split; [reflexivity |]. split; [| lia].
      unfold market_cap_classified.
      destruct (Z.leb_spec 15 m); repeat split; intros; first [reflexivity | lia].
    - exists [], ["limited market size"].
      rewrite analyze_market_concern by lia.
      rewrite (app_nil_r ([] ++ x1)). split; [reflexivity |]. split.
      + unfold market_cap_classified. repeat split; intros; first [reflexivity | lia].
      + intros _. left. reflexivity. }
  destruct Hmk as (x2 & y2 & -> & (C15 & C10 & C5) & Hin). rewrite bind_Ok.
  destruct (value_text_or_number news) as [[t ->] | Hn].
  { right. split; [right; eauto | reflexivity]. }
  destruct (analyze_news_no_market news (([] ++ x1) ++ x2) (([] ++ y1) ++ y2) Hn)
    as (x3 & y3 & -> & Hx3 & Hy3).
  left. do 2 eexists. split; [reflexivity |]. split.
  - unfold market_cap_classified.
    rewrite !market_entries_app, Hx1, Hy1, Hx3, Hy3, !app_nil_r.
    change (market_entries []) with (@nil string). rewrite !app_nil_l.
    exact (conj C15 (conj C10 C5)).
  - intros H5. apply in_or_app. left. apply in_or_app. right. apply Hin, H5.
Qed.

End Narrative.

(** ** The arithmetic against the Standard Library's IEEE 754 division *)

Example true_div_agrees_with_ieee :
  forallb (fun '(x, y) =>
             match py_true_div x y with
             | Ok f =>
                 match to_spec_float f, ieee_div x y with
                 | S754_zero s, S754_zero s' => Bool.eqb s s'
                 | S754_finite s m e, S754_finite s' m' e' =>
                     Bool.eqb s s' && Pos.eqb m m' && Z.eqb e e'
                 | _, _ => false
                 end
             | Raise OverflowError =>
                 match ieee_div x y with S754_infinity _ => true | _ => false end
             | Raise _ => false
             end)
    [(1, 5); (2, 5); (3, 5); (4, 5); (1, 3); (2, 3); (150000000, 1000000000);
     (498000000000, 1000000000); (200000000000000001, 1000000000000000000);
     (2 ^ 54 + 1, 2 ^ 54); (2 ^ 80 + 1, 3); (1, 2 ^ 1074); (1, 2 ^ 1075);
     (3, 2 ^ 1075); (5, 2 ^ 1075); (7, 10 ^ 310); (10 ^ 300, 7); (-7, 3);
     (2 ^ 1024 - 2 ^ 970 - 1, 1); (2 ^ 1024 - 2 ^ 970, 1); (2 ^ 1024, 1); (0, 9)]
  = true.
Proof. vm_compute. exact eq_refl. Qed.

(** A ratio a little above one fifth is the float [0.2] all the same. *)
Example ratio_just_above_threshold :
  py_true_div 200000000000000001 1000000000000000000 = Ok (float_lit 2 10).
Proof. vm_compute. exact eq_refl. Qed.

Example round_three_places :
  py_round (nearest_float 1 3) 3 = float_lit 333 1000 /\
  py_round (nearest_float 2 3) 3 = float_lit 667 1000 /\
  py_round (nearest_float 1 8) 2 = float_lit 12 100 /\
  py_round (float_of_int 498) 2 = float_of_int 498.
Proof. vm_compute. repeat split; exact eq_refl. Qed.

(** [round] on the values CPython is known for: 2.675 is stored below the
    tie and goes down, 0.0005 and 0.0015 are stored above it and go up, 1.005
    goes down, and the exact tie 0.125 goes to the even 0.12. *)
Example round_known_values :
  py_round (float_lit 2675 1000) 2 = float_lit 267 100 /\
  py_round (float_lit 5 10000) 3 = float_lit 1 1000 /\
  py_round (float_lit 15 10000) 3 = float_lit 2 1000 /\
  py_round (float_lit 1005 1000) 2 = float_lit 1 1 /\
  py_round (float_lit 125 1000) 2 = float_lit 12 100.
Proof. vm_compute. repeat split; exact eq_refl. Qed.

(** ** The scoring contract *)

Section Contract.

Local Open Scope Z_scope.

(** C1. For every present snapshot and every headline list, the score the
    scorer returns lies in [0, 100]: it is the sum of the base score 50
    and the three impacts, clamped, and it is the [final_score] entry of the
    explanation. Whenever the snapshot's figures are in the binary64 range
    the scorer does return. *)
Theorem final_score_in_range (fd : FinancialData) (hl : list Headline) :
  (forall (score : Z) (e : gmap string value),
      calculate_credit_score (Some fd) hl = Ok (score, e) ->
      0 <= score <= 100 /\
      e !! "final_score" = Some (VInt score) /\
      exists d m n : Z,
        e !! "base_score" = Some (VInt 50) /\
        e !! "debt_ratio_impact" = Some (VInt d) /\
        e !! "market_cap_impact" = Some (VInt m) /\
        e !! "news_sentiment_impact" = Some (VInt n) /\
        score = Z.max 0 (Z.min 100 (50 + d + m + n))) /\
  (snapshot_in_range fd ->
   exists (score : Z) (e : gmap string value),
     calculate_credit_score (Some fd) hl = Ok (score, e)).
Proof.
  split.
  - intros score e H.
    destruct (calculate_credit_score_inv fd hl score e H)
      as (d & vr & m & vb & _ & _ & Hs & ->).
    split; [lia |]. split; [apply assembled_final_score |].
    exists d, m, (5 * count_headlines positive_only hl
                  - 5 * count_headlines has_negative hl).
    split; [apply assembled_base_score |].
    split; [apply assembled_debt_ratio_impact |].
    split; [apply assembled_market_cap_impact |].
    split; [apply assembled_news_sentiment_impact | exact Hs].
  - apply calculate_credit_score_returns.
Qed.

Lemma thriving_praised_score :
  calculate_credit_score (Some thriving_snapshot) praise =
  Ok (100, assembled_explanation 25 (VFloat (float_lit 15 100)) 20
             (VFloat (float_of_int 600)) 15 3 0 100).
Proof.
  vm_cast_no_check
    (eq_refl (Ok (100, assembled_explanation 25 (VFloat (float_lit 15 100)) 20
                         (VFloat (float_of_int 600)) 15 3 0 100))).
Qed.

Lemma indebted_alarmed_score :
  calculate_credit_score (Some indebted_snapshot) alarm =
  Ok (0, assembled_explanation (-25) (VFloat (float_of_int 2)) 0
           (VStr "Data unavailable") (-30) 0 6 0).
Proof.
  vm_cast_no_check
    (eq_refl (Ok (0, assembled_explanation (-25) (VFloat (float_of_int 2)) 0
                       (VStr "Data unavailable") (-30) 0 6 0))).
Qed.

Lemma final_score_in_range_witness :
  calculate_credit_score (Some thriving_snapshot) praise =
    Ok (100, assembled_explanation 25 (VFloat (float_lit 15 100)) 20
               (VFloat (float_of_int 600)) 15 3 0 100) /\
  0 <= 100 <= 100 /\
  exists (score : Z) (e : gmap string value),
    calculate_credit_score (Some thriving_snapshot) praise = Ok (score, e).
Proof.
  pose proof thriving_praised_score as H.
  destruct (final_score_in_range thriving_snapshot praise) as [Hrange Hreturns].
  split; [exact H |]. split.
  - exact (proj1 (Hrange _ _ H)).
  - apply Hreturns. split; vm_compute; discriminate.
Defined.

(** The sum 50 + 25 + 20 + 15 = 110 is cut to 100, and 50 - 25 + 0 - 30 = -5
    is raised to 0 (with five headlines or fewer no sum is below 0). *)
Example clamp_at_both_ends :
  (exists e, calculate_credit_score (Some thriving_snapshot) praise = Ok (100, e) /\
             e !! "debt_ratio_impact" = Some (VInt 25) /\
             e !! "market_cap_impact" = Some (VInt 20) /\
             e !! "news_sentiment_impact" = Some (VInt 15)) /\
  (exists e, calculate_credit_score (Some indebted_snapshot) alarm = Ok (0, e) /\
             e !! "debt_ratio_impact" = Some (VInt (-25)) /\
             e !! "market_cap_impact" = Some (VInt 0) /\
             e !! "news_sentiment_impact" = Some (VInt (-30))).
Proof.
  split.
  - eexists. split; [exact thriving_praised_score |].
    split; [apply assembled_debt_ratio_impact |].
    split; [apply assembled_market_cap_impact | apply assembled_news_sentiment_impact].
  - eexists. split; [exact indebted_alarmed_score |].
    split; [apply assembled_debt_ratio_impact |].
    split; [apply assembled_market_cap_impact | apply assembled_news_sentiment_impact].
Qed.

(** C2 (as the code has it). For every headline list, an absent snapshot
    gives score 0 and an explanation of exactly five entries: [base_score]
    0, the three impacts 0, and the [error] marker, whose text is
    ["Invalid ticker or data unavailable"]. None of the entries the three
    evaluators and the aggregator write is there. *)
Theorem absent_snapshot_short_circuit (hl : list Headline) :
  exists e : gmap string value,
    calculate_credit_score None hl = Ok (0, e) /\
    e !! "base_score" = Some (VInt 0) /\
    e !! "debt_ratio_impact" = Some (VInt 0) /\
    e !! "market_cap_impact" = Some (VInt 0) /\
    e !! "news_sentiment_impact" = Some (VInt 0) /\
    e !! "error" = Some (VStr "Invalid ticker or data unavailable") /\
    size e = 5%nat /\
    e !! "debt_ratio" = None /\
    e !! "market_cap_billions" = None /\
    e !! "positive_news_count" = None /\
    e !! "negative_news_count" = None /\
    e !! "final_score" = None.
Proof.
  exists invalid_ticker_explanation.
  split; [reflexivity |].
  repeat split; vm_compute; reflexivity.
Qed.

(** The marker is not the text of the specification. *)
Lemma absent_snapshot_error_text :
  ~ exists e : gmap string value,
      calculate_credit_score None [] = Ok (0, e) /\
      e !! "error" = Some (VStr "invalid instrument or data unavailable").
Proof.
  intros (e & H & Herr). injection H as <-.
  vm_compute in Herr. discriminate.
Qed.

(** C3 (as the code has it). For a non-negative debt: with no positive
    revenue the impact is -10 and the ratio is reported unavailable, without
    a division. With a positive revenue the ints are divided. If the quotient
    is within the binary64 range, as it is whenever the debt is at most
    [sys.float_info.max] times the revenue, the ratio is the float quotient,
    the impact follows the banding table on it, the ratio is reported rounded
    to 3 decimal places, and nothing is raised; for a revenue up to 2^50 the
    impact is also the band of the exact ratio. Beyond that range the
    division raises [OverflowError], which the handler does not catch. *)
Theorem debt_evaluator_contract (total_revenue total_debt : Z)
    (explanation : gmap string value) :
  0 <= total_debt ->
  (total_revenue <= 0 ->
   debt_ratio_analysis total_revenue total_debt explanation =
   Ok (-10, <["debt_ratio" := VStr "Data unavailable"]> explanation)) /\
  (0 < total_revenue ->
   (exists (ratio reported : pyfloat) (impact : Z),
       py_true_div total_debt total_revenue = Ok ratio /\
       debt_ratio_analysis total_revenue total_debt explanation =
       Ok (impact, <["debt_ratio" := VFloat reported]> explanation) /\
       debt_ratio_banding ratio impact /\
       rounded_to_places 3 ratio reported /\
       (total_revenue <= 2 ^ 50 ->
        debt_ratio_banding_exact total_debt total_revenue impact))
   \/
   (max_float_int * total_revenue < total_debt /\
    py_true_div total_debt total_revenue = Raise OverflowError /\
    debt_ratio_analysis total_revenue total_debt explanation = Raise OverflowError)).
Proof.
  intros Hdebt. split.
  - intros Hrev. apply debt_ratio_analysis_unavailable. lia.
  - intros Hrev.
    rewrite (debt_ratio_analysis_divides _ _ explanation Hrev Hdebt).
    destruct (py_true_div_cases total_debt total_revenue Hdebt Hrev)
      as [Hok | [Hbig Hraise]].
    + left. rewrite Hok, bind_Ok.
      exists (nearest_float total_debt total_revenue),
             (py_round (nearest_float total_debt total_revenue) 3),
             (debt_ratio_band (nearest_float total_debt total_revenue)).
      split; [reflexivity |]. split; [reflexivity |].
      split; [apply debt_ratio_band_banding |].
      split; [apply py_round_spec; lia |].
      intros Hsmall. apply debt_ratio_band_exact; lia.
    + right. rewrite Hraise, bind_Raise. repeat split. exact Hbig.
Qed.

Lemma debt_evaluator_contract_witness :
  debt_ratio_analysis 0 150000000 ∅ =
    Ok (-10, <["debt_ratio" := VStr "Data unavailable"]> ∅) /\
  ((exists (ratio reported : pyfloat) (impact : Z),
       py_true_div 1 3 = Ok ratio /\
       debt_ratio_analysis 3 1 ∅ =
       Ok (impact, <["debt_ratio" := VFloat reported]> ∅) /\
       debt_ratio_banding ratio impact /\
       rounded_to_places 3 ratio reported /\
       (3 <= 2 ^ 50 -> debt_ratio_banding_exact 1 3 impact))
   \/
   (max_float_int * 3 < 1 /\
    py_true_div 1 3 = Raise OverflowError /\
    debt_ratio_analysis 3 1 ∅ = Raise OverflowError)).
Proof.
  split.
  - apply (debt_evaluator_contract 0 150000000 ∅); lia.
  - apply (debt_evaluator_contract 3 1 ∅); lia.
Defined.

(** A debt of 10^400 on a revenue of 1: the quotient is no float, the
    division raises [OverflowError] and the scorer with it. *)
Lemma debt_evaluator_overflow :
  0 <= 10 ^ 400 /\ 0 < 1 /\
  debt_ratio_analysis 1 (10 ^ 400) ∅ = Raise OverflowError /\
  calculate_credit_score (Some (snapshot_of 1 (10 ^ 400) 0 "INR")) [] =
    Raise OverflowError /\
  ~ exists (impact : Z) (e : gmap string value),
      debt_ratio_analysis 1 (10 ^ 400) ∅ = Ok (impact, e).
Proof.
  assert (H : debt_ratio_analysis 1 (10 ^ 400) ∅ = Raise OverflowError)
    by (vm_compute; reflexivity).
  split; [vm_compute; discriminate |]. split; [lia |].
  split; [exact H |].
  split; [vm_compute; reflexivity |].
  intros (impact & e & He). rewrite H in He. discriminate.
Qed.

(** Revenue 1,000,000,000 and debt 150,000,000: ratio 0.15, impact +25. *)
Example debt_ratio_fifteen_percent :
  debt_ratio_analysis 1000000000 150000000 ∅ =
  Ok (25, <["debt_ratio" := VFloat (float_lit 15 100)]> ∅).
Proof.
  vm_cast_no_check
    (eq_refl (Ok (25, <["debt_ratio" := VFloat (float_lit 15 100)]>
                        (∅ : gmap string value)))).
Qed.

(** Revenue 3 and debt 1: the ratio is reported as 0.333, impact +15. *)
Example debt_ratio_one_third :
  debt_ratio_analysis 3 1 ∅ =
  Ok (15, <["debt_ratio" := VFloat (float_lit 333 1000)]> ∅).
Proof.
  vm_cast_no_check
    (eq_refl (Ok (15, <["debt_ratio" := VFloat (float_lit 333 1000)]>
                        (∅ : gmap string value)))).
Qed.

(** C8. For a fixed positive revenue and two non-negative debts, whenever
    the evaluator computes an impact for both, the larger debt does not earn
    the larger impact. It computes one for the smaller debt whenever it does
    for the larger, and for both whenever the larger debt is at most
    [sys.float_info.max] times the revenue. *)
Theorem debt_impact_monotone (total_revenue debt1 debt2 : Z)
    (explanation : gmap string value) :
  0 < total_revenue -> 0 <= debt1 <= debt2 ->
  (forall (impact1 impact2 : Z) (e1 e2 : gmap string value),
      debt_ratio_analysis total_revenue debt1 explanation = Ok (impact1, e1) ->
      debt_ratio_analysis total_revenue debt2 explanation = Ok (impact2, e2) ->
      impact2 <= impact1) /\
  (forall (impact2 : Z) (e2 : gmap string value),
      debt_ratio_analysis total_revenue debt2 explanation = Ok (impact2, e2) ->
      exists (impact1 : Z) (e1 : gmap string value),
        debt_ratio_analysis total_revenue debt1 explanation = Ok (impact1, e1) /\
        impact2 <= impact1) /\
  (debt2 <= max_float_int * total_revenue ->
   exists (impact1 impact2 : Z) (e1 e2 : gmap string value),
     debt_ratio_analysis total_revenue debt1 explanation = Ok (impact1, e1) /\
     debt_ratio_analysis total_revenue debt2 explanation = Ok (impact2, e2) /\
     impact2 <= impact1).
Proof.
  intros Hrev Hdebt.
  rewrite (debt_ratio_analysis_divides _ debt1 explanation Hrev ltac:(lia)).
  rewrite (debt_ratio_analysis_divides _ debt2 explanation Hrev ltac:(lia)).
  assert (Hband : debt_ratio_band (nearest_float debt2 total_revenue) <=
                  debt_ratio_band (nearest_float debt1 total_revenue))
    by (apply debt_ratio_band_antitone, nearest_float_mono; lia).
  assert (Hsecond : forall (impact2 : Z) (e2 : gmap string value),
             (debt_ratio ← py_true_div debt2 total_revenue;
              mret (debt_ratio_band debt_ratio,
                    <["debt_ratio" := VFloat (py_round debt_ratio 3)]> explanation)) =
             Ok (impact2, e2) ->
             impact2 = debt_ratio_band (nearest_float debt2 total_revenue) /\
             py_true_div debt1 total_revenue = Ok (nearest_float debt1 total_revenue)).
  { intros impact2 e2.
    destruct (py_true_div debt2 total_revenue) as [f2 |] eqn:E2;
      [rewrite bind_Ok | rewrite bind_Raise; discriminate].
    destruct (py_true_div_smaller debt1 debt2 total_revenue f2 Hdebt Hrev E2)
      as [-> H1].
    intros [= <- _]. split; [reflexivity | exact H1]. }
  split; [| split].
  - intros impact1 impact2 e1 e2 H1 H2.
    destruct (Hsecond impact2 e2 H2) as [-> Hd1].
    rewrite Hd1, bind_Ok in H1. injection H1 as <- _. exact Hband.
  - intros impact2 e2 H2.
    destruct (Hsecond impact2 e2 H2) as [-> Hd1].
    rewrite Hd1, bind_Ok. do 2 eexists. split; [reflexivity | exact Hband].
  - intros Hmax.
    rewrite (py_true_div_quotient debt1 total_revenue) by nia.
    rewrite (py_true_div_quotient debt2 total_revenue) by lia.
    rewrite !bind_Ok. do 4 eexists.
    split; [reflexivity |]. split; [reflexivity | exact Hband].
Qed.

Lemma debt_impact_monotone_witness :
  (forall (impact1 impact2 : Z) (e1 e2 : gmap string value),
      debt_ratio_analysis 2 0 ∅ = Ok (impact1, e1) ->
      debt_ratio_analysis 2 (2 ^ 1024) ∅ = Ok (impact2, e2) ->
      impact2 <= impact1) /\
  (forall (impact2 : Z) (e2 : gmap string value),
      debt_ratio_analysis 2 (2 ^ 1024) ∅ = Ok (impact2, e2) ->
      exists (impact1 : Z) (e1 : gmap string value),
        debt_ratio_analysis 2 0 ∅ = Ok (impact1, e1) /\ impact2 <= impact1) /\
  (2 ^ 1024 <= max_float_int * 2 ->
   exists (impact1 impact2 : Z) (e1 e2 : gmap string value),
     debt_ratio_analysis 2 0 ∅ = Ok (impact1, e1) /\
     debt_ratio_analysis 2 (2 ^ 1024) ∅ = Ok (impact2, e2) /\
     impact2 <= impact1).
Proof.
  apply (debt_impact_monotone 2 0 (2 ^ 1024) ∅);
    [lia | split; [lia | vm_compute; discriminate]].
Defined.

(** A debt beyond the largest float is still rated when the ratio is a
    float: revenue 2 with debts 0 and 2^1024 earns +25 and -25. *)
Example debt_beyond_the_largest_float :
  max_float_int < 2 ^ 1024 /\
  debt_ratio_analysis 2 0 ∅ =
    Ok (25, <["debt_ratio" := VFloat (float_of_int 0)]> ∅) /\
  debt_ratio_analysis 2 (2 ^ 1024) ∅ =
    Ok (-25, <["debt_ratio" := VFloat (float_of_int (2 ^ 1023))]> ∅).
Proof.
  split; [vm_compute; reflexivity |]. split.
  - vm_cast_no_check
      (eq_refl (Ok (25, <["debt_ratio" := VFloat (float_of_int 0)]>
                          (∅ : gmap string value)))).
  - vm_cast_no_check
      (eq_refl (Ok (-25, <["debt_ratio" := VFloat (float_of_int (2 ^ 1023))]>
                           (∅ : gmap string value)))).
Qed.

(** C9. The division of the debt evaluator never raises
    [ZeroDivisionError], so the handler is dead code: the [try] statement
    is its body, and no explanation the scorer returns has a debt impact of
    -20 or the ratio text ["Revenue is zero"]. *)
Theorem zero_division_handler_unreachable :
  (forall (total_revenue total_debt : Z) (explanation : gmap string value),
      debt_ratio_try total_revenue total_debt explanation <> Raise ZeroDivisionError /\
      debt_ratio_analysis total_revenue total_debt explanation =
      debt_ratio_try total_revenue total_debt explanation) /\
  (forall (total_revenue total_debt impact : Z) (explanation e : gmap string value),
      debt_ratio_analysis total_revenue total_debt explanation = Ok (impact, e) ->
      impact <> -20 /\ e !! "debt_ratio" <> Some (VStr "Revenue is zero")) /\
  (forall (financial_data : option FinancialData) (hl : list Headline)
          (score : Z) (e : gmap string value),
      calculate_credit_score financial_data hl = Ok (score, e) ->
      e !! "debt_ratio_impact" <> Some (VInt (-20)) /\
      e !! "debt_ratio" <> Some (VStr "Revenue is zero")).
Proof.
  split; [| split].
  - intros total_revenue total_debt explanation. split.
    + apply debt_ratio_try_no_zero_division.
    + apply debt_ratio_analysis_is_try.
  - intros total_revenue total_debt impact explanation e H.
    destruct (debt_ratio_analysis_shape _ _ _ _ _ H) as (Hin & v & -> & Hv).
    split.
    + simpl in Hin. lia.
    + rewrite lookup_insert_eq. congruence.
  - intros [fd |] hl score e H.
    + destruct (calculate_credit_score_inv fd hl score e H)
        as (d & vr & m & vb & Hd & _ & _ & ->).
      destruct (debt_ratio_analysis_shape _ _ _ _ _ Hd) as (Hin & v & Heq & Hv).
      assert (vr = v) as ->.
      { apply (f_equal (fun x : gmap string value => x !! "debt_ratio")) in Heq.
        rewrite !lookup_insert_eq in Heq. congruence. }
      rewrite assembled_debt_ratio_impact, assembled_debt_ratio.
      split; [| congruence].
      simpl in Hin. intros [= ->]. lia.
    + injection H as <- <-. split; vm_compute; discriminate.
Qed.

Lemma zero_division_handler_unreachable_witness :
  debt_ratio_analysis 0 150000000 ∅ =
    Ok (-10, <["debt_ratio" := VStr "Data unavailable"]> ∅) /\
  (-10 <> -20 /\
   (<["debt_ratio" := VStr "Data unavailable"]> ∅ : gmap string value) !! "debt_ratio"
   <> Some (VStr "Revenue is zero")).
Proof.
  assert (H : debt_ratio_analysis 0 150000000 ∅ =
              Ok (-10, <["debt_ratio" := VStr "Data unavailable"]> ∅))
    by reflexivity.
  split; [exact H |].
  exact (proj1 (proj2 zero_division_handler_unreachable) 0 150000000 (-10) ∅ _ H).
Defined.

(** A zero revenue, where the division would raise, takes the branch that
    does not divide. *)
Example zero_revenue_is_not_divided :
  py_true_div 150000000 0 = Raise ZeroDivisionError /\
  debt_ratio_analysis 0 150000000 ∅ =
  Ok (-10, <["debt_ratio" := VStr "Data unavailable"]> ∅).
Proof. split; reflexivity. Qed.

(** C5 (as the code has it). With no positive cap the impact is 0 and the
    value is reported unavailable. Otherwise the cap is multiplied by 83 when
    the currency is "USD" and left as it is for any other currency, and the
    converted value is divided by 10^9. If the quotient is within the
    binary64 range, as it is whenever the converted value is at most 10^9
    times [sys.float_info.max], the impact follows the banding table, which
    the float comparisons decide exactly as on the integers, and the billions
    are reported rounded to 2 decimal places. Beyond that range the division
    raises [OverflowError]. A cap of 6,000,000,000 USD is 498 billions and
    earns +15. *)
Theorem market_cap_evaluator_contract :
  (forall (fd : FinancialData) (explanation : gmap string value),
      let cap := default 0 (market_cap fd) in
      let cur := default "INR" (currency fd) in
      (cap <= 0 ->
       market_cap_analysis fd explanation =
       Ok (0, <["market_cap_billions" := VStr "Data unavailable"]> explanation)) /\
      (0 < cap ->
       exists converted : Z,
         (cur = "USD" -> converted = cap * 83) /\
         (cur <> "USD" -> converted = cap) /\
         ((exists (billions reported : pyfloat) (impact : Z),
              py_true_div converted 1000000000 = Ok billions /\
              market_cap_analysis fd explanation =
              Ok (impact, <["market_cap_billions" := VFloat reported]> explanation) /\
              market_cap_banding billions impact /\
              rounded_to_places 2 billions reported /\
              (500 * 1000000000 <= converted -> impact = 20) /\
              (100 * 1000000000 <= converted < 500 * 1000000000 -> impact = 15) /\
              (50 * 1000000000 <= converted < 100 * 1000000000 -> impact = 10) /\
              (10 * 1000000000 <= converted < 50 * 1000000000 -> impact = 5) /\
              (converted < 10 * 1000000000 -> impact = 0))
          \/
          (max_float_int * 1000000000 < converted /\
           py_true_div converted 1000000000 = Raise OverflowError /\
           market_cap_analysis fd explanation = Raise OverflowError)))) /\
  (forall explanation : gmap string value,
      py_true_div (6000000000 * 83) 1000000000 = Ok (float_of_int 498) /\
      market_cap_analysis usd_snapshot explanation =
      Ok (15, <["market_cap_billions" := VFloat (float_of_int 498)]> explanation)).
Proof.
  split.
  - intros fd explanation cap cur. split.
    + intros Hcap. apply market_cap_analysis_unavailable. exact Hcap.
    + intros Hcap.
      pose proof (market_cap_inr_le cap cur Hcap) as Hconv.
      rewrite (market_cap_analysis_divides fd explanation Hcap).
      fold cap cur.
      set (converted := market_cap_inr cap cur) in *.
      exists converted.
      split; [| split].
      { intros ->. reflexivity. }
      { intros Hne. unfold converted, market_cap_inr.
        destruct (String.eqb_spec cur "USD"); [contradiction | reflexivity]. }
      destruct (py_true_div_cases converted 1000000000 ltac:(lia) ltac:(lia))
        as [Hok | [Hbig Hraise]].
      * left. rewrite Hok, bind_Ok.
        set (billions := nearest_float converted 1000000000).
        exists billions, (py_round billions 2), (market_cap_band billions).
        split; [reflexivity |]. split; [reflexivity |].
        pose proof (market_cap_band_banding billions) as Hband.
        split; [exact Hband |].
        split; [apply py_round_spec; lia |].
        destruct Hband as (B500 & B100 & B50 & B10 & B0).
        pose proof (billions_threshold 500 converted (in_eq _ _) ltac:(lia)) as T500.
        pose proof (billions_threshold 100 converted
                      (in_cons _ _ _ (in_eq _ _)) ltac:(lia)) as T100.
        pose proof (billions_threshold 50 converted
                      (in_cons _ _ _ (in_cons _ _ _ (in_eq _ _))) ltac:(lia)) as T50.
        pose proof (billions_threshold 10 converted
                      (in_cons _ _ _ (in_cons _ _ _ (in_cons _ _ _ (in_eq _ _))))
                      ltac:(lia)) as T10.
        fold billions in T500, T100, T50, T10.
        unfold float_below, float_at_least in *.
        repeat split; intros H;
          first [ apply B500; lia | apply B100; lia | apply B50; lia
                | apply B10; lia | apply B0; lia ].
      * right. rewrite Hraise, bind_Raise. repeat split. exact Hbig.
  - intros explanation.
    assert (Hdiv : nearest_float (6000000000 * 83) 1000000000 = float_of_int 498)
      by (vm_compute; exact eq_refl).
    assert (Hq : py_true_div (6000000000 * 83) 1000000000 = Ok (float_of_int 498)).
    { rewrite (py_true_div_quotient (6000000000 * 83) 1000000000);
        [rewrite Hdiv; reflexivity | lia | lia | vm_compute; discriminate]. }
    split; [exact Hq |].
    rewrite (market_cap_analysis_divides usd_snapshot explanation)
      by (simpl; lia).
    change (market_cap_inr (default 0 (market_cap usd_snapshot))
              (default "INR" (currency usd_snapshot)))
      with (6000000000 * 83).
    rewrite Hq, bind_Ok.
    assert (Hb : market_cap_band (float_of_int 498) = 15)
      by (vm_compute; exact eq_refl).
    assert (Hr : py_round (float_of_int 498) 2 = float_of_int 498)
      by (vm_compute; exact eq_refl).
    rewrite Hb, Hr. reflexivity.
Qed.

Lemma market_cap_evaluator_contract_witness :
  market_cap_analysis (snapshot_of 0 0 0 "INR") ∅ =
    Ok (0, <["market_cap_billions" := VStr "Data unavailable"]> ∅) /\
  exists converted : Z,
    ("INR" = "USD" -> converted = 600000000000 * 83) /\
    ("INR" <> "USD" -> converted = 600000000000) /\
    ((exists (billions reported : pyfloat) (impact : Z),
         py_true_div converted 1000000000 = Ok billions /\
         market_cap_analysis thriving_snapshot ∅ =
         Ok (impact, <["market_cap_billions" := VFloat reported]> ∅) /\
         market_cap_banding billions impact /\
         rounded_to_places 2 billions reported /\
         (500 * 1000000000 <= converted -> impact = 20) /\
         (100 * 1000000000 <= converted < 500 * 1000000000 -> impact = 15) /\
         (50 * 1000000000 <= converted < 100 * 1000000000 -> impact = 10) /\
         (10 * 1000000000 <= converted < 50 * 1000000000 -> impact = 5) /\
         (converted < 10 * 1000000000 -> impact = 0))
     \/
     (max_float_int * 1000000000 < converted /\
      py_true_div converted 1000000000 = Raise OverflowError /\
      market_cap_analysis thriving_snapshot ∅ = Raise OverflowError)).
Proof.
  split.
  - apply (proj1 market_cap_evaluator_contract (snapshot_of 0 0 0 "INR") ∅).
    simpl. lia.
  - apply (proj1 market_cap_evaluator_contract thriving_snapshot ∅).
    simpl. lia.
Defined.

(** A cap of 10^400 INR is far above 500 billions, yet no impact is
    computed: the division raises [OverflowError] and the scorer with it. *)
Lemma market_cap_evaluator_overflow :
  500 * 1000000000 <= 10 ^ 400 /\
  market_cap_analysis (snapshot_of 1000000000 150000000 (10 ^ 400) "INR") ∅ =
    Raise OverflowError /\
  calculate_credit_score
    (Some (snapshot_of 1000000000 150000000 (10 ^ 400) "INR")) [] =
    Raise OverflowError /\
  ~ exists e : gmap string value,
      market_cap_analysis (snapshot_of 1000000000 150000000 (10 ^ 400) "INR") ∅ =
      Ok (20, e).
Proof.
  assert (H : market_cap_analysis
                (snapshot_of 1000000000 150000000 (10 ^ 400) "INR") ∅ =
              Raise OverflowError) by (vm_compute; reflexivity).
  split; [vm_compute; discriminate |].
  split; [exact H |].
  split; [vm_compute; reflexivity |].
  intros (e & He). rewrite H in He. discriminate.
Qed.

(** A cap of 600 billion INR earns +20. *)
Example market_cap_six_hundred_billion :
  market_cap_analysis thriving_snapshot ∅ =
  Ok (20, <["market_cap_billions" := VFloat (float_of_int 600)]> ∅).
Proof.
  vm_cast_no_check
    (eq_refl (Ok (20, <["market_cap_billions" := VFloat (float_of_int 600)]>
                        (∅ : gmap string value)))).
Qed.

(** A cap beyond the largest float is still rated when the billions are a
    float: 3 * 10^315 INR earns +20. A cap of 1,234,567,891 INR is reported
    as 1.23 billions. *)
Example market_cap_far_out :
  max_float_int < 3 * 10 ^ 315 /\
  market_cap_analysis (snapshot_of 1000000000 150000000 (3 * 10 ^ 315) "INR") ∅ =
    Ok (20, <["market_cap_billions" := VFloat (float_lit (3 * 10 ^ 306) 1)]> ∅) /\
  market_cap_analysis (snapshot_of 1000000000 150000000 1234567891 "INR") ∅ =
    Ok (0, <["market_cap_billions" := VFloat (float_lit 123 100)]> ∅).
Proof.
  split; [vm_compute; reflexivity |]. split.
  - vm_cast_no_check
      (eq_refl (Ok (20, <["market_cap_billions" := VFloat (float_lit (3 * 10 ^ 306) 1)]>
                          (∅ : gmap string value)))).
  - vm_cast_no_check
      (eq_refl (Ok (0, <["market_cap_billions" := VFloat (float_lit 123 100)]>
                         (∅ : gmap string value)))).
Qed.

(** For a fixed currency, a larger cap never earns a smaller impact. *)
Lemma market_cap_impact_monotone (cap1 cap2 : Z) (cur : string) :
  0 < cap1 <= cap2 ->
  market_cap_band (nearest_float (market_cap_inr cap1 cur) 1000000000) <=
  market_cap_band (nearest_float (market_cap_inr cap2 cur) 1000000000).
Proof.
  intros H. apply market_cap_band_monotone, nearest_float_mono; [| lia].
  unfold market_cap_inr. destruct (String.eqb cur "USD"); lia.
Qed.

(** C4. The text of a headline is its lowercased title, a space, and its
    lowercased description. A headline whose text contains a negative
    keyword is counted as negative only, whatever else it contains; one whose
    text contains a positive keyword and no negative one is counted as
    positive; one whose text contains neither changes nothing. A keyword in
    the title or in the description is in the text. Over a list the counts
    are the numbers of such headlines and the impact is 5 times the positive
    count minus 5 times the negative count, and so they stand in the
    explanation. *)
Theorem negative_takes_precedence (hl : list Headline) :
  positive_keywords =
    ["profit"; "growth"; "deal"; "upgrade"; "surge"; "gain"; "rise"; "expansion";
     "acquisition"; "partnership"; "success"; "record"; "strong"; "robust";
     "positive"; "bullish"; "optimistic"] /\
  negative_keywords =
    ["loss"; "fraud"; "scam"; "downgrade"; "slump"; "decline"; "fall"; "crash";
     "lawsuit"; "investigation"; "layoffs"; "crisis"; "warning"; "deficit";
     "trouble"; "concern"; "risk"; "scandal"] /\
  (forall (h : Headline) (impact positive negative : Z),
      text_mentions negative_keywords (title_plus_description h) ->
      sentiment_step (impact, positive, negative) h =
      (impact - 5, positive, negative + 1)) /\
  (forall (h : Headline) (impact positive negative : Z),
      ~ text_mentions negative_keywords (title_plus_description h) ->
      text_mentions positive_keywords (title_plus_description h) ->
      sentiment_step (impact, positive, negative) h =
      (impact + 5, positive + 1, negative)) /\
  (forall (h : Headline) (st : Z * Z * Z),
      ~ text_mentions negative_keywords (title_plus_description h) ->
      ~ text_mentions positive_keywords (title_plus_description h) ->
      sentiment_step st h = st) /\
  (forall (h : Headline) (keyword : string),
      occurs_in keyword (py_lower (default "" (title h))) \/
      occurs_in keyword (py_lower (default "" (description h))) ->
      occurs_in keyword (title_plus_description h)) /\
  (forall h : Headline,
      has_negative h = true <->
      text_mentions negative_keywords (title_plus_description h)) /\
  (forall h : Headline,
      positive_only h = true <->
      ~ text_mentions negative_keywords (title_plus_description h) /\
      text_mentions positive_keywords (title_plus_description h)) /\
  exists impact positive negative : Z,
    news_sentiment_analysis hl = (impact, positive, negative) /\
    negative = count_headlines has_negative hl /\
    positive = count_headlines positive_only hl /\
    impact = 5 * positive - 5 * negative /\
    forall (fd : FinancialData) (score : Z) (e : gmap string value),
      calculate_credit_score (Some fd) hl = Ok (score, e) ->
      e !! "news_sentiment_impact" = Some (VInt impact) /\
      e !! "positive_news_count" = Some (VInt positive) /\
      e !! "negative_news_count" = Some (VInt negative).
Proof.
  assert (Hneg : forall h, has_negative h = true <->
                           text_mentions negative_keywords (title_plus_description h))
    by (intros h; apply existsb_text_mentions).
  assert (Hpos : forall h, has_positive h = true <->
                           text_mentions positive_keywords (title_plus_description h))
    by (intros h; apply existsb_text_mentions).
  split; [reflexivity |]. split; [reflexivity |].
  split; [| split; [| split; [| split; [| split; [| split]]]]].
  - intros h impact positive negative H. apply Hneg in H.
    rewrite sentiment_step_unfold, H. reflexivity.
  - intros h impact positive negative Hn Hp. apply Hpos in Hp.
    rewrite sentiment_step_unfold, Hp.
    destruct (has_negative h) eqn:E; [| reflexivity].
    exfalso. apply Hn, Hneg, E.
  - intros h [[impact positive] negative] Hn Hp.
    rewrite sentiment_step_unfold.
    destruct (has_negative h) eqn:En; [exfalso; apply Hn, Hneg, En |].
    destruct (has_positive h) eqn:Ep; [exfalso; apply Hp, Hpos, Ep |].
    reflexivity.
  - intros h keyword. apply occurs_in_either_part.
  - exact Hneg.
  - intros h. unfold positive_only. rewrite andb_true_iff, negb_true_iff, Hpos.
    rewrite <- Hneg. destruct (has_negative h); intuition congruence.
  - exists (5 * count_headlines positive_only hl - 5 * count_headlines has_negative hl),
           (count_headlines positive_only hl), (count_headlines has_negative hl).
    split; [apply news_sentiment_analysis_counts |].
    split; [reflexivity |]. split; [reflexivity |]. split; [reflexivity |].
    intros fd score e H.
    destruct (calculate_credit_score_inv fd hl score e H)
      as (d & vr & m & vb & _ & _ & _ & ->).
    split; [apply assembled_news_sentiment_impact |].
    split; [apply assembled_positive_news_count | apply assembled_negative_news_count].
Qed.

Lemma described_headline_mentions :
  text_mentions negative_keywords (title_plus_description described_headline) /\
  text_mentions positive_keywords (title_plus_description described_headline).
Proof.
  split.
  - exists "fraud". split; [simpl; tauto |].
    exists "quarterly results record profit despite ", " probe". reflexivity.
  - exists "profit". split; [simpl; tauto |].
    exists "quarterly results record ", " despite fraud probe". reflexivity.
Qed.

Lemma negative_takes_precedence_witness :
  text_mentions negative_keywords (title_plus_description described_headline) /\
  text_mentions positive_keywords (title_plus_description described_headline) /\
  sentiment_step (0, 0, 0) described_headline = (0 - 5, 0, 0 + 1).
Proof.
  split; [exact (proj1 described_headline_mentions) |].
  split; [exact (proj2 described_headline_mentions) |].
  apply (proj1 (proj2 (proj2 (negative_takes_precedence [])))).
  exact (proj1 described_headline_mentions).
Defined.

(** One favourable and one unfavourable headline cancel out. *)
Example record_profit_and_fraud :
  news_sentiment_analysis
    [headline_titled "Company reports record profit";
     headline_titled "Fraud investigation launched"] = (0, 1, 1).
Proof. vm_compute. reflexivity. Qed.

(** A keyword inside a longer word counts. *)
Example concerning_is_a_concern :
  news_sentiment_analysis [headline_titled "A concerning quarter"] = (-5, 0, 1).
Proof. vm_compute. reflexivity. Qed.

(** Keywords in the description count, in capitals too; the letters of a
    keyword on either side of the joining space do not. *)
Example description_and_join :
  news_sentiment_analysis [described_headline] = (-5, 0, 1) /\
  news_sentiment_analysis [split_keyword_headline] = (0, 0, 0).
Proof. vm_compute. split; reflexivity. Qed.

(** C6. The rating classifier is total and its seven bands partition the
    integers, so also those of [0, 100]: the label is one of seven
    different labels, and it is each one exactly on that label's band. *)
Theorem rating_bands (score : Z) :
  In (get_rating_category score) rating_labels /\
  List.NoDup rating_labels /\
  (get_rating_category score = "AAA (Excellent)" <-> 85 <= score) /\
  (get_rating_category score = "AA (Very Good)" <-> 75 <= score < 85) /\
  (get_rating_category score = "A (Good)" <-> 65 <= score < 75) /\
  (get_rating_category score = "BBB (Fair)" <-> 55 <= score < 65) /\
  (get_rating_category score = "BB (Below Average)" <-> 45 <= score < 55) /\
  (get_rating_category score = "B (Poor)" <-> 35 <= score < 45) /\
  (get_rating_category score = "C (High Risk)" <-> score < 35).
Proof.
  split; [| split].
  - unfold get_rating_category, rating_labels.
    repeat match goal with
           | |- context [?x <=? ?y] => destruct (x <=? y)
           end; simpl; tauto.
  - unfold rating_labels.
    repeat (constructor; [simpl; intuition discriminate |]).
    constructor.
  - unfold get_rating_category.
    repeat match goal with
           | |- context [?x <=? ?y] => destruct (Z.leb_spec x y)
           end;
      repeat split; intros; first [lia | discriminate | reflexivity].
Qed.

(** A raw sum of 15 is a score of 15, rated "C (High Risk)". *)
Example rating_of_fifteen :
  Z.max 0 (Z.min 100 (50 + -25 + 0 + -10)) = 15 /\
  get_rating_category 15 = "C (High Risk)".
Proof. split; reflexivity. Qed.

(** C7 (as the code has it). When exactly one concern is listed, its
    clause is "However, attention should be paid to ..." if a strength was
    stated and "Primary concerns include ..." if none was; when two or more
    are listed the clause is "Areas of concern include ..." either way. The
    clause is the part of the summary after the strengths. *)
Theorem concern_lead_in (score : Z) (e : gmap string value) (name : string)
    (strengths concerns : list string) :
  strengths_and_concerns e = Ok (strengths, concerns) ->
  concerns <> [] ->
  exists clause : string,
    concerns_clause strengths concerns = [clause] /\
    generate_plain_language_summary score e name =
    Ok (py_join " "
          (["Based on our comprehensive analysis, " +:+ name +:+ " " +:+
            overall_assessment score +:+ "."]
             ++ strengths_clause strengths ++ [clause] ++ [recommendation score])) /\
    (forall c : string,
        concerns = [c] -> strengths <> [] ->
        clause = "However, attention should be paid to " +:+ c +:+ ".") /\
    (forall c : string,
        concerns = [c] -> strengths = [] ->
        clause = "Primary concerns include " +:+ c +:+ ".") /\
    ((2 <= length concerns)%nat ->
     clause = "Areas of concern include " +:+ py_join ", " (List.removelast concerns)
              +:+ ", and " +:+ List.last concerns "" +:+ ".").
Proof.
  intros He Hne.
  pose proof (generate_plain_language_summary_parts score e name _ _ He) as Hsum.
  destruct concerns as [| c1 [| c2 rest]]; [contradiction | |].
  - destruct strengths as [| s1 srest].
    + eexists. split; [reflexivity |]. split; [exact Hsum |].
      split; [| split].
      * intros c _ Hs. contradiction.
      * intros c [= <-] _. reflexivity.
      * simpl. lia.
    + eexists. split; [reflexivity |]. split; [exact Hsum |].
      split; [| split].
      * intros c [= <-] _. reflexivity.
      * intros c _ Hs. discriminate.
      * simpl. lia.
  - eexists. split; [reflexivity |]. split; [exact Hsum |].
    split; [| split].
    + intros c Hc. discriminate.
    + intros c Hc. discriminate.
    + intros _. reflexivity.
Qed.

Lemma indebted_score :
  calculate_credit_score (Some indebted_snapshot) [] = Ok (25, indebted_explanation).
Proof. vm_cast_no_check (eq_refl (Ok (25, indebted_explanation))). Qed.

Lemma indebted_lists :
  strengths_and_concerns indebted_explanation =
  Ok ([], ["high debt burden"; "limited market size"]).
Proof.
  vm_cast_no_check
    (eq_refl (Ok (([] : list string), ["high debt burden"; "limited market size"]))).
Qed.

Lemma indebted_praised_score :
  calculate_credit_score (Some indebted_snapshot) two_praises =
  Ok (35, indebted_praised_explanation).
Proof. vm_cast_no_check (eq_refl (Ok (35, indebted_praised_explanation))). Qed.

Lemma indebted_praised_lists :
  strengths_and_concerns indebted_praised_explanation =
  Ok (["positive market sentiment"], ["high debt burden"; "limited market size"]).
Proof.
  vm_cast_no_check
    (eq_refl (Ok (["positive market sentiment"],
                  ["high debt burden"; "limited market size"]))).
Qed.

Lemma concern_lead_in_witness :
  exists clause : string,
    concerns_clause [] ["high debt burden"; "limited market size"] = [clause] /\
    generate_plain_language_summary 25 indebted_explanation "Sample Ltd" =
    Ok (py_join " "
          (["Based on our comprehensive analysis, " +:+ "Sample Ltd" +:+ " " +:+
            overall_assessment 25 +:+ "."]
             ++ strengths_clause [] ++ [clause] ++ [recommendation 25])) /\
    (forall c : string,
        ["high debt burden"; "limited market size"] = [c] -> @nil string <> [] ->
        clause = "However, attention should be paid to " +:+ c +:+ ".") /\
    (forall c : string,
        ["high debt burden"; "limited market size"] = [c] -> @nil string = [] ->
        clause = "Primary concerns include " +:+ c +:+ ".") /\
    ((2 <= length ["high debt burden"; "limited market size"])%nat ->
     clause = "Areas of concern include " +:+
              py_join ", " (List.removelast ["high debt burden"; "limited market size"])
              +:+ ", and " +:+ List.last ["high debt burden"; "limited market size"] ""
              +:+ ".").
Proof.
  apply (concern_lead_in 25 indebted_explanation "Sample Ltd" []
           ["high debt burden"; "limited market size"]);
    [exact indebted_lists | discriminate].
Defined.

(** With two concerns and no strength the clause does not begin with
    "Primary concerns include", and with two concerns and a strength it does
    not begin with "However,". *)
Lemma concern_lead_in_counterexample :
  calculate_credit_score (Some indebted_snapshot) [] = Ok (25, indebted_explanation) /\
  strengths_and_concerns indebted_explanation =
    Ok ([], ["high debt burden"; "limited market size"]) /\
  concerns_clause [] ["high debt burden"; "limited market size"] =
    ["Areas of concern include high debt burden, and limited market size."] /\
  String.prefix "Primary concerns include"
    "Areas of concern include high debt burden, and limited market size." = false /\
  generate_plain_language_summary 25 indebted_explanation "Sample Ltd" =
    Ok ("Based on our comprehensive analysis, Sample Ltd exhibits high credit risk. "
        +:+ "Areas of concern include high debt burden, and limited market size. "
        +:+ "This credit profile suggests significant risk that requires careful consideration.") /\
  calculate_credit_score (Some indebted_snapshot) two_praises =
    Ok (35, indebted_praised_explanation) /\
  strengths_and_concerns indebted_praised_explanation =
    Ok (["positive market sentiment"], ["high debt burden"; "limited market size"]) /\
  concerns_clause ["positive market sentiment"]
    ["high debt burden"; "limited market size"] =
    ["Areas of concern include high debt burden, and limited market size."] /\
  String.prefix "However,"
    "Areas of concern include high debt burden, and limited market size." = false.
Proof.
  split; [exact indebted_score |].
  split; [exact indebted_lists |].
  split; [reflexivity |].
  split; [reflexivity |].
  split.
  { rewrite (generate_plain_language_summary_parts _ _ _ _ _ indebted_lists).
    reflexivity. }
  split; [exact indebted_praised_score |].
  split; [exact indebted_praised_lists |].
  split; reflexivity.
Qed.

(** The lists of an explanation the scorer assembled. *)
Lemma strengths_and_concerns_assembled d vr m vb n p q s :
  strengths_and_concerns (assembled_explanation d vr m vb n p q s) =
  (lists ← analyze_debt (VInt d) ([], []);
   lists ← analyze_market (VInt m) lists;
   analyze_news (VInt n) lists).
Proof.
  unfold strengths_and_concerns, dict_get.
  rewrite assembled_debt_ratio_impact, assembled_market_cap_impact,
    assembled_news_sentiment_impact.
  reflexivity.
Qed.

(** C10. For every explanation whose market-cap impact is 0, 5, 10, 15 or
    20, the generator either builds its two lists, and then the market-cap
    dimension has exactly one entry in them, a strength from 10 up and the
    concern "limited market size" up to 5, and the summary is written from
    these lists; or the debt or the news impact is a text and the comparison
    raises [TypeError]. An explanation in which the debt impact is -5 and the
    news impact 0 has the market-cap entry and no other: the debt and the
    sentiment chains have impacts that append to neither list. For every
    explanation the scorer returns the lists are built, the market-cap impact
    is one of the five values, and a snapshot with no positive cap gets the
    concern. *)
Theorem market_cap_always_classified :
  (forall (e : gmap string value) (m score : Z) (name : string),
      e !! "market_cap_impact" = Some (VInt m) ->
      In m [0; 5; 10; 15; 20] ->
      (exists strengths concerns : list string,
          strengths_and_concerns e = Ok (strengths, concerns) /\
          market_cap_classified m strengths concerns /\
          generate_plain_language_summary score e name =
          Ok (py_join " "
                (["Based on our comprehensive analysis, " +:+ name +:+ " " +:+
                  overall_assessment score +:+ "."]
                   ++ strengths_clause strengths
                   ++ concerns_clause strengths concerns
                   ++ [recommendation score])))
      \/
      (((exists t, dict_get e "debt_ratio_impact" (VInt 0) = VStr t) \/
        (exists t, dict_get e "news_sentiment_impact" (VInt 0) = VStr t)) /\
       strengths_and_concerns e = Raise TypeError /\
       generate_plain_language_summary score e name = Raise TypeError)) /\
  (forall m : Z,
      In m [0; 5; 10; 15; 20] ->
      exists strengths concerns : list string,
        strengths_and_concerns (plain_explanation m) = Ok (strengths, concerns) /\
        market_entries strengths = strengths /\
        market_entries concerns = concerns /\
        (length strengths + length concerns = 1)%nat) /\
  (forall lists : list string * list string,
      analyze_debt (VInt (-5)) lists = Ok lists /\
      analyze_news (VInt 0) lists = Ok lists) /\
  (forall (fd : FinancialData) (hl : list Headline) (score : Z)
          (e : gmap string value),
      calculate_credit_score (Some fd) hl = Ok (score, e) ->
      exists (m : Z) (strengths concerns : list string),
        e !! "market_cap_impact" = Some (VInt m) /\
        In m [0; 5; 10; 15; 20] /\
        strengths_and_concerns e = Ok (strengths, concerns) /\
        market_cap_classified m strengths concerns /\
        (default 0 (market_cap fd) <= 0 ->
         m = 0 /\ In "limited market size" concerns)).
Proof.
  split; [| split; [| split]].
  - intros e m score name Hm Hin.
    assert (Hcases : 10 <= m \/ m <= 5) by (simpl in Hin; lia).
    pose proof (chains_classified (dict_get e "debt_ratio_impact" (VInt 0))
                  (dict_get e "news_sentiment_impact" (VInt 0)) m Hcases) as H.
    cbv zeta in H.
    assert (Hl : strengths_and_concerns e =
                 (lists ← analyze_debt (dict_get e "debt_ratio_impact" (VInt 0)) ([], []);
                  lists ← analyze_market (VInt m) lists;
                  analyze_news (dict_get e "news_sentiment_impact" (VInt 0)) lists)).
    { unfold strengths_and_concerns. cbv zeta.
      unfold dict_get at 2. rewrite Hm. reflexivity. }
    rewrite <- Hl in H.
    destruct H as [(s & c & Hs & Hc & _) | [Htext Hraise]].
    + left. exists s, c. split; [exact Hs |]. split; [exact Hc |].
      apply generate_plain_language_summary_parts. exact Hs.
    + right. split; [exact Htext |]. split; [exact Hraise |].
      unfold generate_plain_language_summary. cbv zeta.
      rewrite Hraise. reflexivity.
  - intros m Hin.
    assert (Hl : strengths_and_concerns (plain_explanation m) =
                 (lists ← analyze_debt (VInt (-5)) ([], []);
                  lists ← analyze_market (VInt m) lists;
                  analyze_news (VInt 0) lists)) by reflexivity.
    rewrite Hl, analyze_debt_gap, bind_Ok by lia.
    destruct (Z_le_gt_dec 10 m) as [Hge | Hlt].
    + rewrite analyze_market_strength, bind_Ok, analyze_news_gap by lia.
      do 2 eexists. split; [reflexivity |].
      destruct (15 <=? m); repeat split; reflexivity.
    + rewrite analyze_market_concern, bind_Ok, analyze_news_gap
        by (simpl in Hin; lia).
      do 2 eexists. split; [reflexivity |]. repeat split; reflexivity.
  - intros lists. split; [apply analyze_debt_gap | apply analyze_news_gap]; lia.
  - intros fd hl score e H.
    destruct (calculate_credit_score_inv fd hl score e H)
      as (d & vr & m & vb & _ & Hm & _ & ->).
    destruct (market_cap_analysis_shape _ _ _ _ Hm) as [Hin _].
    assert (Hset : In m [0; 5; 10; 15; 20]) by (simpl in *; tauto).
    assert (Hcases : 10 <= m \/ m <= 5) by (simpl in Hset; lia).
    pose proof (chains_classified (VInt d)
                  (VInt (5 * count_headlines positive_only hl
                         - 5 * count_headlines has_negative hl)) m Hcases) as Hc.
    cbv zeta in Hc. rewrite <- strengths_and_concerns_assembled
      with (vr := vr) (vb := vb) (p := count_headlines positive_only hl)
           (q := count_headlines has_negative hl)
           (s := Z.max 0 (Z.min 100
                   (50 + d + m + (5 * count_headlines positive_only hl
                                  - 5 * count_headlines has_negative hl)))) in Hc.
    destruct Hc as [(s & c & Hs & Hcl & Hlim) | [[[t Ht] | [t Ht]] _]];
      [| discriminate Ht | discriminate Ht].
    exists m, s, c.
    split; [apply assembled_market_cap_impact |].
    split; [exact Hset |]. split; [exact Hs |]. split; [exact Hcl |].
    intros Hcap.
    rewrite (market_cap_analysis_unavailable fd _ Hcap) in Hm.
    apply (f_equal (fun r : result (Z * gmap string value) =>
                      match r with Ok (impact, _) => impact | Raise _ => 0 end)) in Hm.
    cbv beta iota in Hm. subst m. split; [reflexivity | apply Hlim; lia].
Qed.

Lemma market_cap_always_classified_witness :
  indebted_explanation !! "market_cap_impact" = Some (VInt 0) /\
  In 0 [0; 5; 10; 15; 20] /\
  ((exists strengths concerns : list string,
       strengths_and_concerns indebted_explanation = Ok (strengths, concerns) /\
       market_cap_classified 0 strengths concerns /\
       generate_plain_language_summary 25 indebted_explanation "Sample Ltd" =
       Ok (py_join " "
             (["Based on our comprehensive analysis, " +:+ "Sample Ltd" +:+ " " +:+
               overall_assessment 25 +:+ "."]
                ++ strengths_clause strengths
                ++ concerns_clause strengths concerns
                ++ [recommendation 25])))
   \/
   (((exists t, dict_get indebted_explanation "debt_ratio_impact" (VInt 0) = VStr t) \/
     (exists t, dict_get indebted_explanation "news_sentiment_impact" (VInt 0) = VStr t)) /\
    strengths_and_concerns indebted_explanation = Raise TypeError /\
    generate_plain_language_summary 25 indebted_explanation "Sample Ltd" =
    Raise TypeError)).
Proof.
  assert (Hm : indebted_explanation !! "market_cap_impact" = Some (VInt 0))
    by apply assembled_market_cap_impact.
  assert (Hin : In 0 [0; 5; 10; 15; 20]) by (left; reflexivity).
  split; [exact Hm |]. split; [exact Hin |].
  exact (proj1 market_cap_always_classified indebted_explanation 0 25 "Sample Ltd"
           Hm Hin).
Defined.

(** The summary of a snapshot without market cap names the concern. *)
Example summary_without_market_cap :
  generate_plain_language_summary 25 indebted_explanation "Sample Ltd" =
  Ok ("Based on our comprehensive analysis, Sample Ltd exhibits high credit risk. "
      +:+ "Areas of concern include high debt burden, and limited market size. "
      +:+ "This credit profile suggests significant risk that requires careful consideration.").
Proof.
  rewrite (generate_plain_language_summary_parts _ _ _ _ _ indebted_lists).
  reflexivity.
Qed.

(** A text entry where an impact is expected makes the comparison raise. *)
Example text_impact_raises :
  generate_plain_language_summary 50 {["debt_ratio_impact" := VStr "high"]} "Sample Ltd" =
  Raise TypeError.
Proof. vm_compute. reflexivity. Qed.

End Contract.

(** * Further properties of the scorer *)

Section ScorerExtras.

Local Open Scope Z_scope.

Lemma count_headlines_app (test : Headline -> bool) (hl1 hl2 : list Headline) :
  count_headlines test (hl1 ++ hl2) =
  count_headlines test hl1 + count_headlines test hl2.
Proof.
  induction hl1 as [| h rest IH].
  - unfold count_headlines. simpl. lia.
  - change ((h :: rest) ++ hl2) with (h :: (rest ++ hl2)).
    rewrite !count_headlines_cons, IH. lia.
Qed.

Lemma count_headlines_le (test : Headline -> bool) (hl : list Headline) :
  count_headlines test hl <= Z.of_nat (length hl).
Proof.
  induction hl as [| h rest IH].
  - unfold count_headlines. simpl. lia.
  - rewrite count_headlines_cons. cbn [length]. destruct (test h); lia.
Qed.

(** No headline is counted twice. *)
Lemma counts_le_length (hl : list Headline) :
  count_headlines positive_only hl + count_headlines has_negative hl
  <= Z.of_nat (length hl).
Proof.
  induction hl as [| h rest IH].
  - unfold count_headlines. simpl. lia.
  - rewrite !count_headlines_cons. cbn [length]. unfold positive_only at 1.
    destruct (has_negative h), (has_positive h); cbn [negb andb]; lia.
Qed.

Lemma count_headlines_perm (test : Headline -> bool) (hl hl' : list Headline) :
  Permutation hl hl' -> count_headlines test hl = count_headlines test hl'.
Proof.
  induction 1 as [| h l l' _ IH | h1 h2 l | l1 l2 l3 _ IH1 _ IH2].
  - reflexivity.
  - rewrite !count_headlines_cons, IH. reflexivity.
  - rewrite !count_headlines_cons. lia.
  - congruence.
Qed.

(** The scorer reads the headlines through the sentiment loop only. *)
Lemma calculate_credit_score_news (fdo : option FinancialData)
    (hl hl' : list Headline) :
  news_sentiment_analysis hl = news_sentiment_analysis hl' ->
  calculate_credit_score fdo hl = calculate_credit_score fdo hl'.
Proof.
  intros H. destruct fdo as [fd |]; [| reflexivity].
  unfold calculate_credit_score. cbv zeta.
  destruct (debt_ratio_analysis _ _ _) as [[d ex1] | err];
    [rewrite !bind_Ok | rewrite !bind_Raise; reflexivity].
  cbv beta iota.
  destruct (market_cap_analysis _ _) as [[m ex2] | err];
    [rewrite !bind_Ok | rewrite !bind_Raise; reflexivity].
  cbv beta iota. rewrite H. reflexivity.
Qed.

(** X1. Each headline counts at most once and moves the news impact by at
    most 5: the two counts are non-negative, together at most the number of
    headlines, and the impact lies between -5 and +5 times that number. *)
Theorem news_impact_bounded (hl : list Headline) :
  exists impact positive negative : Z,
    news_sentiment_analysis hl = (impact, positive, negative) /\
    0 <= positive /\ 0 <= negative /\
    positive + negative <= Z.of_nat (length hl) /\
    -5 * Z.of_nat (length hl) <= impact <= 5 * Z.of_nat (length hl).
Proof.
  do 3 eexists. split; [apply news_sentiment_analysis_counts |].
  pose proof (count_headlines_nonneg positive_only hl).
  pose proof (count_headlines_nonneg has_negative hl).
  pose proof (counts_le_length hl).
  lia.
Qed.

(** X2. The score and the explanation do not depend on the order of the
    headlines. *)
Theorem score_ignores_headline_order (fdo : option FinancialData)
    (hl hl' : list Headline) :
  Permutation hl hl' ->
  calculate_credit_score fdo hl = calculate_credit_score fdo hl'.
Proof.
  intros Hperm. apply calculate_credit_score_news.
  rewrite !news_sentiment_analysis_counts.
  rewrite (count_headlines_perm positive_only hl hl' Hperm).
  rewrite (count_headlines_perm has_negative hl hl' Hperm).
  reflexivity.
Qed.

Lemma score_ignores_headline_order_witness :
  Permutation praise (List.rev praise) /\
  calculate_credit_score (Some thriving_snapshot) praise =
  calculate_credit_score (Some thriving_snapshot) (List.rev praise).
Proof.
  assert (H : Permutation praise (List.rev praise)) by apply Permutation_rev.
  split; [exact H |].
  exact (score_ignores_headline_order (Some thriving_snapshot) praise _ H).
Defined.

(** X3. The sentiment of two lists put together is the sum of their
    sentiments, impact and counts alike. *)
Theorem sentiment_of_concatenation (hl1 hl2 : list Headline) :
  exists i1 p1 n1 i2 p2 n2 : Z,
    news_sentiment_analysis hl1 = (i1, p1, n1) /\
    news_sentiment_analysis hl2 = (i2, p2, n2) /\
    news_sentiment_analysis (hl1 ++ hl2) = (i1 + i2, p1 + p2, n1 + n2).
Proof.
  do 6 eexists.
  split; [apply news_sentiment_analysis_counts |].
  split; [apply news_sentiment_analysis_counts |].
  rewrite news_sentiment_analysis_counts, !count_headlines_app.
  apply triple_eq; lia.
Qed.

Lemma has_negative_mentions (h : Headline) :
  has_negative h = true <->
  text_mentions negative_keywords (title_plus_description h).
Proof. apply existsb_text_mentions. Qed.

(** X4. One more headline whose title and description are texts, or
    missing, moves the final score by at most 5 points: never up when its
    text contains a negative keyword, never down otherwise. *)
Theorem one_more_headline (fd : FinancialData) (hl : list Headline)
    (entry : gmap string json) (h : Headline) (score : Z) (e : gmap string value) :
  calculate_credit_score (Some fd) hl = Ok (score, e) ->
  headline_view entry = Some h ->
  exists (score' : Z) (e' : gmap string value),
    calculate_credit_score (Some fd) (hl ++ [h]) = Ok (score', e') /\
    score - 5 <= score' <= score + 5 /\
    (text_mentions negative_keywords (title_plus_description h) -> score' <= score) /\
    (~ text_mentions negative_keywords (title_plus_description h) -> score <= score').
Proof.
  intros H _.
  destruct (calculate_credit_score_inv fd hl score e H)
    as (d & vr & m & vb & Hd & Hm & Hs & _).
  do 2 eexists.
  split; [apply (calculate_credit_score_compose fd (hl ++ [h]) d m vr vb Hd Hm) |].
  rewrite !count_headlines_app.
  assert (Hp : count_headlines positive_only [h] =
               if has_negative h then 0 else if has_positive h then 1 else 0).
  { unfold count_headlines, positive_only. simpl.
    destruct (has_negative h), (has_positive h); reflexivity. }
  assert (Hn : count_headlines has_negative [h] = if has_negative h then 1 else 0).
  { unfold count_headlines. simpl. destruct (has_negative h); reflexivity. }
  rewrite Hp, Hn. rewrite Hs.
  pose proof (has_negative_mentions h) as Hneg.
  destruct (has_negative h), (has_positive h);
    (split; [lia | split; intros Hcase; first [lia | exfalso; intuition congruence]]).
Qed.

Lemma sample_headline_view : headline_view sample_headline = Some sample_headline_record.
Proof. vm_cast_no_check (eq_refl (Some sample_headline_record)). Qed.

Lemma one_more_headline_witness :
  calculate_credit_score (Some indebted_snapshot) [] = Ok (25, indebted_explanation) /\
  headline_view sample_headline = Some sample_headline_record /\
  exists (score' : Z) (e' : gmap string value),
    calculate_credit_score (Some indebted_snapshot) ([] ++ [sample_headline_record]) =
    Ok (score', e') /\
    25 - 5 <= score' <= 25 + 5 /\
    (text_mentions negative_keywords (title_plus_description sample_headline_record) ->
     score' <= 25) /\
    (~ text_mentions negative_keywords (title_plus_description sample_headline_record) ->
     25 <= score').
Proof.
  split; [exact indebted_score |]. split; [exact sample_headline_view |].
  exact (one_more_headline indebted_snapshot [] sample_headline sample_headline_record
           25 indebted_explanation indebted_score sample_headline_view).
Defined.

Lemma score_of_few_headlines (fd : FinancialData) (hl : list Headline)
    (score : Z) (e : gmap string value) :
  (length hl <= 5)%nat ->
  calculate_credit_score (Some fd) hl = Ok (score, e) ->
  exists d m n : Z,
    e !! "debt_ratio_impact" = Some (VInt d) /\
    e !! "market_cap_impact" = Some (VInt m) /\
    e !! "news_sentiment_impact" = Some (VInt n) /\
    -25 <= d <= 25 /\ 0 <= m <= 20 /\ -25 <= n <= 25 /\
    0 <= 50 + d + m + n /\
    score = Z.min 100 (50 + d + m + n).
Proof.
  intros Hlen H.
  destruct (calculate_credit_score_inv fd hl score e H)
    as (d & vr & m & vb & Hd & Hm & Hs & ->).
  destruct (debt_ratio_analysis_shape _ _ _ _ _ Hd) as [Hdin _].
  destruct (market_cap_analysis_shape _ _ _ _ Hm) as [Hmin _].
  pose proof (count_headlines_nonneg positive_only hl).
  pose proof (count_headlines_nonneg has_negative hl).
  pose proof (counts_le_length hl).
  exists d, m, (5 * count_headlines positive_only hl
                - 5 * count_headlines has_negative hl).
  split; [apply assembled_debt_ratio_impact |].
  split; [apply assembled_market_cap_impact |].
  split; [apply assembled_news_sentiment_impact |].
  simpl in Hdin, Hmin. lia.
Qed.

(** X5. With at most five headlines, as many as the news provider is asked
    for, the sum of the base score and the three impacts is never negative:
    the score is that sum cut at 100, and the lower clamp does nothing. *)
Theorem lower_clamp_idle (fd : FinancialData) (hl : list Headline)
    (score : Z) (e : gmap string value) :
  (length hl <= 5)%nat ->
  calculate_credit_score (Some fd) hl = Ok (score, e) ->
  exists d m n : Z,
    e !! "debt_ratio_impact" = Some (VInt d) /\
    e !! "market_cap_impact" = Some (VInt m) /\
    e !! "news_sentiment_impact" = Some (VInt n) /\
    -25 <= d <= 25 /\ 0 <= m <= 20 /\ -25 <= n <= 25 /\
    0 <= 50 + d + m + n /\
    score = Z.min 100 (50 + d + m + n).
Proof. apply score_of_few_headlines. Qed.

Lemma lower_clamp_idle_witness :
  (length praise <= 5)%nat /\
  exists d m n : Z,
    assembled_explanation 25 (VFloat (float_lit 15 100)) 20
      (VFloat (float_of_int 600)) 15 3 0 100 !! "debt_ratio_impact" = Some (VInt d) /\
    assembled_explanation 25 (VFloat (float_lit 15 100)) 20
      (VFloat (float_of_int 600)) 15 3 0 100 !! "market_cap_impact" = Some (VInt m) /\
    assembled_explanation 25 (VFloat (float_lit 15 100)) 20
      (VFloat (float_of_int 600)) 15 3 0 100 !! "news_sentiment_impact" = Some (VInt n) /\
    -25 <= d <= 25 /\ 0 <= m <= 20 /\ -25 <= n <= 25 /\
    0 <= 50 + d + m + n /\
    100 = Z.min 100 (50 + d + m + n).
Proof.
  assert (Hlen : (length praise <= 5)%nat) by (simpl; lia).
  split; [exact Hlen |].
  exact (lower_clamp_idle thriving_snapshot praise 100 _ Hlen thriving_praised_score).
Defined.

End ScorerExtras.

(** * Further properties of the two evaluators *)

Section EvaluatorExtras.

Local Open Scope Z_scope.

Lemma market_cap_analysis_impact (fd : FinancialData) (explanation : gmap string value) :
  83 * default 0 (market_cap fd) <= max_float_int ->
  exists (vb : value),
    market_cap_analysis fd explanation =
    Ok ((if 0 <? default 0 (market_cap fd)
         then market_cap_band
                (nearest_float
                   (market_cap_inr (default 0 (market_cap fd))
                      (default "INR" (currency fd))) 1000000000)
         else 0),
        <["market_cap_billions" := vb]> explanation).
Proof.
  intros Hmax. destruct (Z.ltb_spec 0 (default 0 (market_cap fd))) as [Hpos | Hpos].
  - eexists. apply market_cap_analysis_value; assumption.
  - eexists. apply market_cap_analysis_unavailable; assumption.
Qed.

Lemma market_cap_band_nonneg (billions : pyfloat) : 0 <= market_cap_band billions.
Proof.
  pose proof (market_cap_band_values billions) as H. simpl in H. lia.
Qed.

(** X6. For a fixed currency, a larger market cap never earns a smaller
    market-cap impact (caps that are zero or negative included). *)
Theorem market_cap_monotone (fd1 fd2 : FinancialData)
    (explanation : gmap string value) :
  default "INR" (currency fd1) = default "INR" (currency fd2) ->
  default 0 (market_cap fd1) <= default 0 (market_cap fd2) ->
  83 * default 0 (market_cap fd2) <= max_float_int ->
  exists (m1 m2 : Z) (e1 e2 : gmap string value),
    market_cap_analysis fd1 explanation = Ok (m1, e1) /\
    market_cap_analysis fd2 explanation = Ok (m2, e2) /\
    m1 <= m2.
Proof.
  intros Hcur Hle Hmax.
  destruct (market_cap_analysis_impact fd1 explanation ltac:(lia)) as (vb1 & H1).
  destruct (market_cap_analysis_impact fd2 explanation Hmax) as (vb2 & H2).
  do 4 eexists. split; [exact H1 |]. split; [exact H2 |].
  destruct (Z.ltb_spec 0 (default 0 (market_cap fd1))) as [Hp1 | Hp1];
    destruct (Z.ltb_spec 0 (default 0 (market_cap fd2))) as [Hp2 | Hp2];
    try lia; try apply market_cap_band_nonneg.
  rewrite Hcur. apply market_cap_impact_monotone. lia.
Qed.

Lemma market_cap_monotone_witness :
  exists (m1 m2 : Z) (e1 e2 : gmap string value),
    market_cap_analysis (snapshot_of 0 0 0 "INR") ∅ = Ok (m1, e1) /\
    market_cap_analysis thriving_snapshot ∅ = Ok (m2, e2) /\
    m1 <= m2.
Proof.
  apply (market_cap_monotone (snapshot_of 0 0 0 "INR") thriving_snapshot ∅);
    [reflexivity | simpl; lia | vm_compute; discriminate].
Defined.

(** X7. The same cap never earns less when the currency is "USD" than with
    any other currency: the conversion multiplies by 83 and the banding is
    monotone. *)
Theorem usd_never_earns_less (fd_usd fd_other : FinancialData)
    (explanation : gmap string value) :
  default "INR" (currency fd_usd) = "USD" ->
  default 0 (market_cap fd_usd) = default 0 (market_cap fd_other) ->
  83 * default 0 (market_cap fd_usd) <= max_float_int ->
  exists (m_usd m_other : Z) (e1 e2 : gmap string value),
    market_cap_analysis fd_usd explanation = Ok (m_usd, e1) /\
    market_cap_analysis fd_other explanation = Ok (m_other, e2) /\
    m_other <= m_usd.
Proof.
  intros Hcur Hcap Hmax.
  destruct (market_cap_analysis_impact fd_usd explanation Hmax) as (vb1 & H1).
  destruct (market_cap_analysis_impact fd_other explanation ltac:(lia)) as (vb2 & H2).
  do 4 eexists. split; [exact H1 |]. split; [exact H2 |].
  rewrite <- Hcap.
  destruct (Z.ltb_spec 0 (default 0 (market_cap fd_usd))) as [Hp | Hp]; [| lia].
  apply market_cap_band_monotone, nearest_float_mono; [| lia].
  rewrite Hcur.
  change (market_cap_inr (default 0 (market_cap fd_usd)) "USD")
    with (default 0 (market_cap fd_usd) * 83).
  pose proof (market_cap_inr_le _ (default "INR" (currency fd_other)) Hp) as Hle.
  unfold market_cap_inr in *.
  destruct (String.eqb (default "INR" (currency fd_other)) "USD"); lia.
Qed.

Lemma usd_never_earns_less_witness :
  exists (m_usd m_other : Z) (e1 e2 : gmap string value),
    market_cap_analysis usd_snapshot ∅ = Ok (m_usd, e1) /\
    market_cap_analysis (snapshot_of 1000000000 150000000 6000000000 "INR") ∅ =
    Ok (m_other, e2) /\
    m_other <= m_usd.
Proof.
  apply (usd_never_earns_less usd_snapshot
           (snapshot_of 1000000000 150000000 6000000000 "INR") ∅);
    [reflexivity | reflexivity | vm_compute; discriminate].
Defined.

(** X8. The impact -10 and the text "Data unavailable" mark exactly the
    snapshots without a positive revenue or with a negative debt; in every
    other case the impact is one of the six band values and the reported
    ratio is a float. *)
Theorem unavailable_marks_missing_data (total_revenue total_debt impact : Z)
    (explanation e : gmap string value) :
  debt_ratio_analysis total_revenue total_debt explanation = Ok (impact, e) ->
  (total_revenue <= 0 \/ total_debt < 0 ->
   impact = -10 /\ e !! "debt_ratio" = Some (VStr "Data unavailable")) /\
  (0 < total_revenue /\ 0 <= total_debt ->
   In impact [25; 15; 5; -5; -15; -25] /\
   exists ratio : pyfloat,
     py_true_div total_debt total_revenue = Ok ratio /\
     e !! "debt_ratio" = Some (VFloat (py_round ratio 3))).
Proof.
  intros H. split.
  - intros Hcase.
    rewrite (debt_ratio_analysis_unavailable _ _ _ Hcase) in H.
    injection H as <- <-. split; [reflexivity | apply lookup_insert_eq].
  - intros [Hrev Hdebt].
    rewrite debt_ratio_analysis_is_try in H. unfold debt_ratio_try in H.
    destruct (Z.ltb_spec 0 total_revenue); [| lia].
    destruct (Z.leb_spec 0 total_debt); [| lia]. cbn [andb] in H.
    destruct (py_true_div total_debt total_revenue) as [ratio | err];
      [rewrite bind_Ok in H | rewrite bind_Raise in H; discriminate].
    injection H as <- <-.
    split; [apply debt_ratio_band_values |].
    exists ratio. split; [reflexivity | apply lookup_insert_eq].
Qed.

Lemma unavailable_marks_missing_data_witness :
  debt_ratio_analysis 1000000000 (-5) ∅ =
    Ok (-10, <["debt_ratio" := VStr "Data unavailable"]> ∅) /\
  (-10 = -10 /\
   (<["debt_ratio" := VStr "Data unavailable"]> ∅ : gmap string value) !! "debt_ratio" =
   Some (VStr "Data unavailable")).
Proof.
  assert (H : debt_ratio_analysis 1000000000 (-5) ∅ =
              Ok (-10, <["debt_ratio" := VStr "Data unavailable"]> ∅))
    by reflexivity.
  split; [exact H |].
  apply (proj1 (unavailable_marks_missing_data 1000000000 (-5) (-10) ∅ _ H)).
  right. lia.
Defined.

End EvaluatorExtras.

(** * The explanation and the summary made of it *)

Section ExplanationExtras.

Local Open Scope Z_scope.

Lemma assembled_dom d vr m vb n p q s :
  dom (assembled_explanation d vr m vb n p q s) =
  list_to_set ["base_score"; "debt_ratio_impact"; "market_cap_impact";
               "news_sentiment_impact"; "debt_ratio"; "market_cap_billions";
               "positive_news_count"; "negative_news_count"; "final_score"].
Proof.
  unfold assembled_explanation, initial_explanation.
  rewrite !dom_insert_L, dom_list_to_map_L. cbn [fmap list_fmap fst list_to_set].
  set_solver.
Qed.

(** X9. For a present snapshot the explanation has exactly nine entries:
    the base score, the three impacts, the two reported values, the two
    counts and the final score, the numbers among them ints, and no [error]
    entry. An [error] entry is there exactly when the snapshot is absent. *)
Theorem explanation_entries (fdo : option FinancialData) (hl : list Headline)
    (score : Z) (e : gmap string value) :
  calculate_credit_score fdo hl = Ok (score, e) ->
  (fdo = None <-> is_Some (e !! "error")) /\
  (fdo <> None ->
   dom e = list_to_set ["base_score"; "debt_ratio_impact"; "market_cap_impact";
                        "news_sentiment_impact"; "debt_ratio"; "market_cap_billions";
                        "positive_news_count"; "negative_news_count"; "final_score"] /\
   forall key : string,
     In key ["base_score"; "debt_ratio_impact"; "market_cap_impact";
             "news_sentiment_impact"; "positive_news_count";
             "negative_news_count"; "final_score"] ->
     exists n : Z, e !! key = Some (VInt n)).
Proof.
  intros H. destruct fdo as [fd |].
  - destruct (calculate_credit_score_inv fd hl score e H)
      as (d & vr & m & vb & _ & _ & _ & ->).
    split.
    + split; [discriminate |].
      intros Herr. apply elem_of_dom in Herr. rewrite assembled_dom in Herr.
      apply elem_of_list_to_set, list_elem_of_In in Herr.
      simpl in Herr. intuition discriminate.
    + intros _. split; [apply assembled_dom |].
      intros key Hin. simpl in Hin.
      destruct Hin as [<- | [<- | [<- | [<- | [<- | [<- | [<- | []]]]]]]]; eexists;
        [ exact (assembled_base_score _ _ _ _ _ _ _ _)
        | exact (assembled_debt_ratio_impact _ _ _ _ _ _ _ _)
        | exact (assembled_market_cap_impact _ _ _ _ _ _ _ _)
        | exact (assembled_news_sentiment_impact _ _ _ _ _ _ _ _)
        | exact (assembled_positive_news_count _ _ _ _ _ _ _ _)
        | exact (assembled_negative_news_count _ _ _ _ _ _ _ _)
        | exact (assembled_final_score _ _ _ _ _ _ _ _) ].
  - injection H as <- <-. split; [| intros Hne; contradiction].
    split; [intros _; vm_compute; eauto | reflexivity].
Qed.

Lemma explanation_entries_witness :
  calculate_credit_score (Some indebted_snapshot) [] = Ok (25, indebted_explanation) /\
  (Some indebted_snapshot = None <-> is_Some (indebted_explanation !! "error")).
Proof.
  split; [exact indebted_score |].
  exact (proj1 (explanation_entries (Some indebted_snapshot) [] 25
                  indebted_explanation indebted_score)).
Defined.

End ExplanationExtras.

(** * Further properties of the narrative generator *)

Section NarrativeExtras.

Local Open Scope Z_scope.

Ltac chain_any :=
  repeat match goal with
         | |- context [Ok ?b ≫= _] => rewrite bind_Ok
         | |- context [if ?b then _ else _] => destruct b
         end.

(** Whatever the number, each chain returns and appends at most one phrase,
    to one list. *)
Lemma analyze_debt_appends (v : value) (strengths concerns : list string) :
  (forall s, v <> VStr s) ->
  exists xs ys : list string,
    analyze_debt v (strengths, concerns) = Ok (strengths ++ xs, concerns ++ ys) /\
    (length xs + length ys <= 1)%nat.
Proof.
  intros Hv. unfold analyze_debt.
  destruct v as [n | f | s]; [| | exfalso; eapply Hv; reflexivity];
    cbn [py_ge py_le]; chain_any;
    first [ exists [], []; rewrite !app_nil_r; split; [reflexivity | simpl; lia]
          | eexists; exists []; rewrite (app_nil_r concerns);
            split; [reflexivity | simpl; lia]
          | exists []; eexists; rewrite (app_nil_r strengths);
            split; [reflexivity | simpl; lia] ].
Qed.

Lemma analyze_market_appends (v : value) (strengths concerns : list string) :
  (forall s, v <> VStr s) ->
  exists xs ys : list string,
    analyze_market v (strengths, concerns) = Ok (strengths ++ xs, concerns ++ ys) /\
    (length xs + length ys <= 1)%nat.
Proof.
  intros Hv. unfold analyze_market.
  destruct v as [n | f | s]; [| | exfalso; eapply Hv; reflexivity];
    cbn [py_ge py_le]; chain_any;
    first [ exists [], []; rewrite !app_nil_r; split; [reflexivity | simpl; lia]
          | eexists; exists []; rewrite (app_nil_r concerns);
            split; [reflexivity | simpl; lia]
          | exists []; eexists; rewrite (app_nil_r strengths);
            split; [reflexivity | simpl; lia] ].
Qed.

Lemma analyze_news_appends (v : value) (strengths concerns : list string) :
  (forall s, v <> VStr s) ->
  exists xs ys : list string,
    analyze_news v (strengths, concerns) = Ok (strengths ++ xs, concerns ++ ys) /\
    (length xs + length ys <= 1)%nat.
Proof.
  intros Hv. unfold analyze_news.
  destruct v as [n | f | s]; [| | exfalso; eapply Hv; reflexivity];
    cbn [py_ge py_le]; chain_any;
    first [ exists [], []; rewrite !app_nil_r; split; [reflexivity | simpl; lia]
          | eexists; exists []; rewrite (app_nil_r concerns);
            split; [reflexivity | simpl; lia]
          | exists []; eexists; rewrite (app_nil_r strengths);
            split; [reflexivity | simpl; lia] ].
Qed.

Lemma classic_text (v : value) : (exists s, v = VStr s) \/ (forall s, v <> VStr s).
Proof. destruct v; [right | right | left]; try discriminate. eauto. Qed.

(** A text where a number is expected makes the first comparison raise. *)
Lemma analyze_text_raises (s : string) (lists : list string * list string) :
  analyze_debt (VStr s) lists = Raise TypeError /\
  analyze_market (VStr s) lists = Raise TypeError /\
  analyze_news (VStr s) lists = Raise TypeError.
Proof. destruct lists. repeat split. Qed.

Lemma lists_of_numbers (debt cap news : value) :
  (forall s, debt <> VStr s) -> (forall s, cap <> VStr s) -> (forall s, news <> VStr s) ->
  exists strengths concerns : list string,
    (lists ← analyze_debt debt ([], []);
     lists ← analyze_market cap lists;
     analyze_news news lists) = Ok (strengths, concerns) /\
    (length strengths + length concerns <= 3)%nat.
Proof.
  intros Hd Hc Hn.
  destruct (analyze_debt_appends debt [] [] Hd) as (x1 & y1 & H1 & L1).
  destruct (analyze_market_appends cap ([] ++ x1) ([] ++ y1) Hc) as (x2 & y2 & H2 & L2).
  destruct (analyze_news_appends news (([] ++ x1) ++ x2) (([] ++ y1) ++ y2) Hn)
    as (x3 & y3 & H3 & L3).
  do 2 eexists. rewrite H1, bind_Ok, H2, bind_Ok. split; [exact H3 |].
  rewrite !length_app. simpl. lia.
Qed.

(** X10. The summary is produced exactly when none of the three impact
    entries of the explanation is a text (a missing entry counts as 0):
    otherwise the call raises [TypeError]. A summary names at most three
    strengths and concerns together. *)
Theorem summary_needs_numbers (score : Z) (e : gmap string value) (name : string) :
  let debt := dict_get e "debt_ratio_impact" (VInt 0) in
  let cap := dict_get e "market_cap_impact" (VInt 0) in
  let news := dict_get e "news_sentiment_impact" (VInt 0) in
  ((forall s, debt <> VStr s) /\ (forall s, cap <> VStr s) /\ (forall s, news <> VStr s) ->
   exists (text : string) (strengths concerns : list string),
     generate_plain_language_summary score e name = Ok text /\
     strengths_and_concerns e = Ok (strengths, concerns) /\
     (length strengths + length concerns <= 3)%nat) /\
  ((exists s, debt = VStr s) \/ (exists s, cap = VStr s) \/ (exists s, news = VStr s) ->
   generate_plain_language_summary score e name = Raise TypeError).
Proof.
  intros debt cap news. split.
  - intros (Hd & Hc & Hn).
    destruct (lists_of_numbers debt cap news Hd Hc Hn) as (st & co & H & Hlen).
    eexists _, st, co. split; [| split; [exact H | exact Hlen]].
    apply generate_plain_language_summary_parts. exact H.
  - intros Hcase.
    unfold generate_plain_language_summary, strengths_and_concerns.
    fold debt cap news. cbv zeta.
    destruct (classic_text debt) as [[s ->] | Hd].
    { destruct (analyze_text_raises s ([], [])) as (-> & _). reflexivity. }
    destruct (analyze_debt_appends debt [] [] Hd) as (x1 & y1 & H1 & _).
    rewrite H1, bind_Ok.
    destruct (classic_text cap) as [[s ->] | Hc].
    { destruct (analyze_text_raises s ([] ++ x1, [] ++ y1)) as (_ & -> & _).
      reflexivity. }
    destruct (analyze_market_appends cap ([] ++ x1) ([] ++ y1) Hc) as (x2 & y2 & H2 & _).
    rewrite H2, bind_Ok.
    destruct Hcase as [[s Hs] | [[s Hs] | [s ->]]];
      [exfalso; eapply Hd; exact Hs | exfalso; eapply Hc; exact Hs |].
    destruct (analyze_text_raises s (([] ++ x1) ++ x2, ([] ++ y1) ++ y2)) as (_ & _ & ->).
    reflexivity.
Qed.

Lemma summary_needs_numbers_witness :
  (exists (text : string) (strengths concerns : list string),
      generate_plain_language_summary 50 ∅ "Sample Ltd" = Ok text /\
      strengths_and_concerns ∅ = Ok (strengths, concerns) /\
      (length strengths + length concerns <= 3)%nat) /\
  generate_plain_language_summary 50 {["market_cap_impact" := VStr "large"]}
    "Sample Ltd" = Raise TypeError.
Proof.
  split.
  - apply (proj1 (summary_needs_numbers 50 ∅ "Sample Ltd")).
    repeat split; intros s; discriminate.
  - apply (proj2 (summary_needs_numbers 50 {["market_cap_impact" := VStr "large"]}
                    "Sample Ltd")).
    right. left. exists "large". reflexivity.
Defined.

(** X11. The summary of a score the scorer returned is always produced,
    for a present and for an absent snapshot. For a present one it names
    between one and three strengths and concerns together, so it has three or
    four sentences. *)
Theorem summary_of_score (fdo : option FinancialData) (hl : list Headline)
    (score : Z) (e : gmap string value) (name : string) :
  calculate_credit_score fdo hl = Ok (score, e) ->
  exists strengths concerns : list string,
    strengths_and_concerns e = Ok (strengths, concerns) /\
    generate_plain_language_summary score e name =
    Ok (py_join " "
          (["Based on our comprehensive analysis, " +:+ name +:+ " " +:+
            overall_assessment score +:+ "."]
             ++ strengths_clause strengths
             ++ concerns_clause strengths concerns
             ++ [recommendation score])) /\
    (length strengths + length concerns <= 3)%nat /\
    (fdo <> None ->
     (1 <= length strengths + length concerns)%nat /\
     (3 <= length (strengths_clause strengths ++ concerns_clause strengths concerns) + 2
      <= 4)%nat).
Proof.
  intros H. destruct fdo as [fd |].
  - destruct (calculate_credit_score_inv fd hl score e H)
      as (d & vr & m & vb & _ & Hm & _ & ->).
    destruct (market_cap_analysis_shape _ _ _ _ Hm) as [Hin _].
    rewrite strengths_and_concerns_assembled.
    destruct (analyze_debt_appends (VInt d) [] [] ltac:(discriminate))
      as (x1 & y1 & H1 & L1).
    assert (Hmk : exists x2 y2,
               analyze_market (VInt m) ([] ++ x1, [] ++ y1) =
               Ok (([] ++ x1) ++ x2, ([] ++ y1) ++ y2) /\
               (length x2 + length y2 = 1)%nat).
    { destruct (Z_le_gt_dec 10 m).
      - exists [if 15 <=? m then "strong market position"
                else "solid market presence"], [].
        rewrite analyze_market_strength by lia.
        rewrite (app_nil_r ([] ++ y1)). split; reflexivity.
      - exists [], ["limited market size"].
        rewrite analyze_market_concern by (simpl in Hin; lia).
        rewrite (app_nil_r ([] ++ x1)). split; reflexivity. }
    destruct Hmk as (x2 & y2 & H2 & L2).
    destruct (analyze_news_appends
                (VInt (5 * count_headlines positive_only hl
                       - 5 * count_headlines has_negative hl))
                (([] ++ x1) ++ x2) (([] ++ y1) ++ y2) ltac:(discriminate))
      as (x3 & y3 & H3 & L3).
    assert (Hl : (lists ← analyze_debt (VInt d) ([], []);
                  lists ← analyze_market (VInt m) lists;
                  analyze_news
                    (VInt (5 * count_headlines positive_only hl
                           - 5 * count_headlines has_negative hl)) lists) =
                 Ok ((([] ++ x1) ++ x2) ++ x3, (([] ++ y1) ++ y2) ++ y3))
      by (rewrite H1, bind_Ok, H2, bind_Ok; exact H3).
    do 2 eexists. split; [exact Hl |].
    split.
    { apply generate_plain_language_summary_parts.
      rewrite strengths_and_concerns_assembled. exact Hl. }
    cbn [app]. rewrite !length_app.
    split; [lia |]. intros _. split; [lia |].
    destruct x1 as [| ? [| ? ?]], x2 as [| ? [| ? ?]], x3 as [| ? [| ? ?]],
      y1 as [| ? [| ? ?]], y2 as [| ? [| ? ?]], y3 as [| ? [| ? ?]];
      simpl in L1, L2, L3; try lia; simpl; lia.
  - injection H as <- <-.
    exists [], ["limited market size"].
    assert (Hl : strengths_and_concerns invalid_ticker_explanation =
                 Ok ([], ["limited market size"])) by (vm_compute; reflexivity).
    split; [exact Hl |].
    split; [apply generate_plain_language_summary_parts; exact Hl |].
    split; [simpl; lia | intros Hne; contradiction].
Qed.

Lemma summary_of_score_witness :
  exists strengths concerns : list string,
    strengths_and_concerns indebted_explanation = Ok (strengths, concerns) /\
    generate_plain_language_summary 25 indebted_explanation "Sample Ltd" =
    Ok (py_join " "
          (["Based on our comprehensive analysis, " +:+ "Sample Ltd" +:+ " " +:+
            overall_assessment 25 +:+ "."]
             ++ strengths_clause strengths
             ++ concerns_clause strengths concerns
             ++ [recommendation 25])) /\
    (length strengths + length concerns <= 3)%nat /\
    (Some indebted_snapshot <> None ->
     (1 <= length strengths + length concerns)%nat /\
     (3 <= length (strengths_clause strengths ++ concerns_clause strengths concerns) + 2
      <= 4)%nat).
Proof.
  exact (summary_of_score (Some indebted_snapshot) [] 25 indebted_explanation
           "Sample Ltd" indebted_score).
Defined.

End NarrativeExtras.

(** * The three banding schemes and the colour *)

Section Bands.

Local Open Scope Z_scope.

(** X12. How the rating relates to the two score wordings of the summary.
    The recommendation is "solid investment-grade" exactly for the ratings
    AAA and AA, and the overall wording is "high credit risk" exactly for the
    rating C; but "excellent creditworthiness" starts at 80, inside the band
    of AA, and "moderate credit profile" covers 50 to 64, across BB and
    BBB. *)
Theorem rating_and_summary_bands (score : Z) :
  (recommendation score = "This represents a solid investment-grade credit profile."
   <-> get_rating_category score = "AAA (Excellent)" \/
       get_rating_category score = "AA (Very Good)") /\
  (overall_assessment score = "exhibits high credit risk"
   <-> get_rating_category score = "C (High Risk)") /\
  (get_rating_category score = "AAA (Excellent)" ->
   overall_assessment score = "shows excellent creditworthiness") /\
  (overall_assessment score = "shows excellent creditworthiness" <-> 80 <= score) /\
  (get_rating_category score = "AA (Very Good)" <-> 75 <= score < 85) /\
  (overall_assessment score = "presents a moderate credit profile" <-> 50 <= score < 65) /\
  (recommendation score =
   "This credit profile suggests significant risk that requires careful consideration."
   <-> score < 40).
Proof.
  unfold get_rating_category, overall_assessment, recommendation.
  repeat match goal with
         | |- context [?x <=? ?y] => destruct (Z.leb_spec x y)
         end;
    try lia;
    repeat split; intros;
    repeat match goal with H : _ \/ _ |- _ => destruct H end;
    first [lia | discriminate | reflexivity | (left; reflexivity) | (right; reflexivity)].
Qed.

(** X13. The colour follows the score in three bands, 80 and 60 the
    limits. It is "green" exactly when the summary says "excellent
    creditworthiness"; a green score is rated AAA or AA, and a red one is
    rated BBB or lower. *)
Theorem score_color_bands (score : Z) :
  (get_score_color score = "green" <-> 80 <= score) /\
  (get_score_color score = "orange" <-> 60 <= score < 80) /\
  (get_score_color score = "red" <-> score < 60) /\
  (get_score_color score = "green" <->
   overall_assessment score = "shows excellent creditworthiness") /\
  (get_score_color score = "green" ->
   get_rating_category score = "AAA (Excellent)" \/
   get_rating_category score = "AA (Very Good)") /\
  (get_score_color score = "red" ->
   In (get_rating_category score)
     ["BBB (Fair)"; "BB (Below Average)"; "B (Poor)"; "C (High Risk)"]).
Proof.
  unfold get_rating_category, get_score_color, overall_assessment.
  repeat match goal with
         | |- context [?x <=? ?y] => destruct (Z.leb_spec x y)
         end;
    try lia;
    repeat split; intros;
    first [lia | discriminate | reflexivity | (left; reflexivity)
          | (right; reflexivity) | (simpl; tauto)].
Qed.

End Bands.

(** * The news provider *)

Section NewsProvider.

Local Open Scope Z_scope.

Variable requests_get : string -> list (string * value) -> Z -> option Response.

Lemma py_lower_app (s t : string) : py_lower (s +:+ t) = py_lower s +:+ py_lower t.
Proof.
  induction s as [| c s IH]; [reflexivity |].
  rewrite append_cons. cbn [py_lower]. rewrite IH, append_cons. reflexivity.
Qed.

(** X14. A key that is empty, blank, or contains the word "placeholder" in
    any mix of upper and lower case gives no headlines, whatever the
    provider would answer. *)
Theorem unusable_key_gives_no_headlines (company_name api_key : string) :
  api_key = "" \/ py_strip api_key = "" \/
  (exists before word after : string,
      api_key = before +:+ word +:+ after /\ py_lower word = "placeholder") ->
  get_news_headlines requests_get company_name api_key = [].
Proof.
  intros Hkey. unfold get_news_headlines.
  destruct Hkey as [-> | [Hblank | (before & word & after & -> & Hword)]].
  - reflexivity.
  - rewrite Hblank. rewrite orb_true_r. reflexivity.
  - assert (Hin : py_in "placeholder" (py_lower (before +:+ word +:+ after)) = true).
    { apply py_in_occurs. rewrite !py_lower_app, Hword.
      exists (py_lower before), (py_lower after). reflexivity. }
    rewrite Hin, orb_true_r. reflexivity.
Qed.

Lemma headline_of_article_dom (article : json) (d : gmap string json) :
  headline_of_article article = Some d ->
  dom d = list_to_set ["title"; "description"; "url"; "published_at"; "source"].
Proof.
  unfold headline_of_article.
  destruct article as [| | | | | | a]; try discriminate.
  destruct (json_get a "source" (JObj ∅)) as [| | | | | | src]; try discriminate.
  intros [= <-]. rewrite !dom_insert_L, dom_empty_L. reflexivity.
Qed.

Lemma format_headlines_length (articles : json) :
  (length (format_headlines articles) <= 5)%nat.
Proof.
  unfold format_headlines. destruct articles as [| | | | | l |]; simpl; try lia.
  destruct (mapM headline_of_article (take 5 l)) as [hs |] eqn:E; simpl; [| lia].
  apply length_mapM in E. rewrite <- E, length_take. lia.
Qed.

Lemma format_headlines_dom (articles : json) (d : gmap string json) :
  In d (format_headlines articles) ->
  dom d = list_to_set ["title"; "description"; "url"; "published_at"; "source"].
Proof.
  unfold format_headlines. destruct articles as [| | | | | l |]; simpl; try tauto.
  destruct (mapM headline_of_article (take 5 l)) as [hs |] eqn:E; simpl; [| tauto].
  intros Hin. apply mapM_Some in E.
  induction E as [| a h l' hs' Hah _ IH]; [contradiction |].
  destruct Hin as [<- | Hin];
    [eapply headline_of_article_dom; exact Hah | apply IH; exact Hin].
Qed.

(** What the function returns is, in every case, what its loop makes of
    some list of articles. *)
Lemma get_news_headlines_cases (company_name api_key : string) :
  get_news_headlines requests_get company_name api_key = [] \/
  exists (response : Response) (data : gmap string json) (l : list json),
    String.eqb api_key "" || String.eqb (py_strip api_key) ""
      || py_in "placeholder" (py_lower api_key) = false /\
    requests_get news_url (news_params company_name api_key) 10 = Some response /\
    status_code response = 200 /\
    json_body response = Some (JObj data) /\
    data !! "status" = Some (JStr "ok") /\
    data !! "articles" = Some (JArr l) /\
    l <> [] /\
    get_news_headlines requests_get company_name api_key = format_headlines (JArr l).
Proof.
  unfold get_news_headlines.
  destruct (String.eqb api_key "" || String.eqb (py_strip api_key) ""
            || py_in "placeholder" (py_lower api_key)); [left; reflexivity |].
  destruct (requests_get news_url (news_params company_name api_key) 10)
    as [response |] eqn:Hget; [| left; reflexivity].
  destruct (Z.eqb_spec (status_code response) 200) as [Hstatus | _];
    [| left; reflexivity].
  cbn [negb].
  destruct (json_body response) as [[| | | | | | data] |] eqn:Hbody;
    try (left; reflexivity).
  unfold entry_is_text.
  destruct (data !! "status") as [[| | | | s | |] |] eqn:Hs;
    try (left; reflexivity).
  destruct (String.eqb_spec s "ok") as [-> | _]; [| left; reflexivity].
  cbn [negb orb].
  destruct (data !! "articles") as [articles |] eqn:Ha.
  2: { left. rewrite bool_decide_eq_false_2; [reflexivity |].
       intros [x Hx]. discriminate. }
  rewrite bool_decide_eq_true_2 by eauto. cbn [negb].
  unfold json_get. rewrite Ha.
  change (default (JArr []) (Some articles)) with articles.
  destruct (json_truthy articles) eqn:Ht; [| left; reflexivity].
  cbn [negb].
  destruct articles as [| | | | | l |]; try (left; reflexivity).
  right. exists response, data, l.
  repeat split; try assumption; try reflexivity.
  intros ->. discriminate.
Qed.

Lemma fetched_count_le_five (company_name api_key : string) :
  (length (get_news_headlines requests_get company_name api_key) <= 5)%nat.
Proof.
  destruct (get_news_headlines_cases company_name api_key)
    as [-> | (response & data & l & _ & _ & _ & _ & _ & _ & _ & ->)].
  - simpl. lia.
  - apply format_headlines_length.
Qed.

(** X15. At most five headlines are returned, and each of them has exactly
    the five entries [title], [description], [url], [published_at] and
    [source]. *)
Theorem at_most_five_headlines (company_name api_key : string) :
  (length (get_news_headlines requests_get company_name api_key) <= 5)%nat /\
  forall d : gmap string json,
    In d (get_news_headlines requests_get company_name api_key) ->
    dom d = list_to_set ["title"; "description"; "url"; "published_at"; "source"].
Proof.
  split; [apply fetched_count_le_five |].
  destruct (get_news_headlines_cases company_name api_key)
    as [-> | (response & data & l & _ & _ & _ & _ & _ & _ & _ & ->)].
  - intros d [].
  - apply format_headlines_dom.
Qed.

(** X16. Headlines come back only from a complete answer: a usable key, a
    response with status code 200 whose body is an object with [status]
    "ok" and a non-empty list of [articles], and among the first five
    articles none that is not an object and none whose [source] is there but
    is not an object. Each headline is then built from its article. *)
Theorem headlines_only_from_complete_answer (company_name api_key : string) :
  get_news_headlines requests_get company_name api_key <> [] ->
  api_key <> "" /\ py_strip api_key <> "" /\
  py_in "placeholder" (py_lower api_key) = false /\
  exists (response : Response) (data : gmap string json) (l : list json),
    requests_get news_url (news_params company_name api_key) 10 = Some response /\
    status_code response = 200 /\
    json_body response = Some (JObj data) /\
    data !! "status" = Some (JStr "ok") /\
    data !! "articles" = Some (JArr l) /\
    Forall2 (fun article d => headline_of_article article = Some d)
      (take 5 l) (get_news_headlines requests_get company_name api_key) /\
    Forall (fun article =>
              exists a : gmap string json,
                article = JObj a /\
                (a !! "source" = None \/ exists src, a !! "source" = Some (JObj src)))
      (take 5 l).
Proof.
  intros Hne.
  destruct (get_news_headlines_cases company_name api_key)
    as [Hempty | (response & data & l & Hkey & Hget & Hst & Hbody & Hok & Harts & Hl & Heq)];
    [contradiction |].
  apply orb_false_iff in Hkey as [Hkey Hph].
  apply orb_false_iff in Hkey as [Hk1 Hk2].
  split; [intros ->; discriminate |].
  split; [intros Hs; rewrite Hs in Hk2; discriminate |].
  split; [exact Hph |].
  exists response, data, l.
  repeat (split; [assumption |]).
  rewrite Heq in *. unfold format_headlines in *.
  destruct (mapM headline_of_article (take 5 l)) as [hs |] eqn:E;
    [| contradiction]. cbn [default].
  apply mapM_Some in E. split; [exact E |].
  clear - E. induction E as [| article d l' hs' Had _ IH]; constructor; [| exact IH].
  unfold headline_of_article in Had.
  destruct article as [| | | | | | a]; try discriminate.
  exists a. split; [reflexivity |].
  unfold json_get in Had.
  destruct (a !! "source") as [[| | | | | | src] |]; try discriminate; eauto.
Qed.

End NewsProvider.

Section NewsProviderExamples.

Local Open Scope Z_scope.

Lemma unusable_key_gives_no_headlines_witness :
  ("my-PlaceHolder-key" = "" \/ py_strip "my-PlaceHolder-key" = "" \/
   exists before word after : string,
     "my-PlaceHolder-key" = before +:+ word +:+ after /\
     py_lower word = "placeholder") /\
  get_news_headlines (answering sample_answer)
    "Infosys" "my-PlaceHolder-key" = [].
Proof.
  assert (H : "my-PlaceHolder-key" = "" \/ py_strip "my-PlaceHolder-key" = "" \/
              exists before word after : string,
                "my-PlaceHolder-key" = before +:+ word +:+ after /\
                py_lower word = "placeholder").
  { right. right. exists "my-", "PlaceHolder", "-key". split; reflexivity. }
  split; [exact H |].
  exact (unusable_key_gives_no_headlines
           (answering sample_answer)
           "Infosys" "my-PlaceHolder-key" H).
Defined.

Lemma sample_fetch :
  get_news_headlines (answering sample_answer)
    "Infosys" "k3y" = [sample_headline].
Proof. vm_cast_no_check (eq_refl [sample_headline]). Qed.

Lemma headlines_only_from_complete_answer_witness :
  get_news_headlines (answering sample_answer) "Infosys" "k3y" <> [] /\
  "k3y" <> "" /\ py_strip "k3y" <> "" /\
  py_in "placeholder" (py_lower "k3y") = false /\
  exists (response : Response) (data : gmap string json) (l : list json),
    answering sample_answer news_url (news_params "Infosys" "k3y") 10 = Some response /\
    status_code response = 200 /\
    json_body response = Some (JObj data) /\
    data !! "status" = Some (JStr "ok") /\
    data !! "articles" = Some (JArr l) /\
    Forall2 (fun article d => headline_of_article article = Some d)
      (take 5 l) (get_news_headlines (answering sample_answer) "Infosys" "k3y") /\
    Forall (fun article =>
              exists a : gmap string json,
                article = JObj a /\
                (a !! "source" = None \/ exists src, a !! "source" = Some (JObj src)))
      (take 5 l).
Proof.
  assert (H : get_news_headlines (answering sample_answer) "Infosys" "k3y" <> [])
    by (rewrite sample_fetch; discriminate).
  split; [exact H |].
  exact (headlines_only_from_complete_answer (answering sample_answer) "Infosys" "k3y" H).
Defined.

End NewsProviderExamples.

(** * From the news provider to the scorer *)

Section NewsPipeline.

Local Open Scope Z_scope.

(** X17. Only the first five articles of an answer are looked at: a longer
    list of articles, whatever comes after the fifth, gives the same
    headlines. *)
Theorem later_articles_ignored
    (requests_get1 requests_get2 : string -> list (string * value) -> Z -> option Response)
    (company_name api_key : string) (data : gmap string json)
    (l extra : list json) :
  requests_get1 news_url (news_params company_name api_key) 10 =
    Some {| status_code := 200;
            json_body := Some (JObj (<["articles" := JArr l]> data)) |} ->
  requests_get2 news_url (news_params company_name api_key) 10 =
    Some {| status_code := 200;
            json_body := Some (JObj (<["articles" := JArr (l ++ extra)]> data)) |} ->
  (5 <= length l)%nat ->
  get_news_headlines requests_get1 company_name api_key =
  get_news_headlines requests_get2 company_name api_key.
Proof.
  intros H1 H2 Hlen. unfold get_news_headlines. rewrite H1, H2.
  destruct (String.eqb api_key "" || String.eqb (py_strip api_key) ""
            || py_in "placeholder" (py_lower api_key)); [reflexivity |].
  cbn [status_code json_body]. cbn [Z.eqb Pos.eqb negb].
  unfold entry_is_text, json_get.
  rewrite !lookup_insert_eq, !lookup_insert_ne by discriminate.
  destruct (data !! "status") as [[| | | | s | |] |]; try reflexivity.
  destruct (String.eqb s "ok"); [| reflexivity].
  rewrite !bool_decide_eq_true_2 by eauto.
  cbn [negb orb].
  change (default (JArr []) (Some (JArr l))) with (JArr l).
  change (default (JArr []) (Some (JArr (l ++ extra)))) with (JArr (l ++ extra)).
  destruct l as [| a l']; [simpl in Hlen; lia |].
  cbn [json_truthy app negb].
  unfold format_headlines.
  change (a :: l' ++ extra) with ((a :: l') ++ extra).
  rewrite take_app_le by exact Hlen. reflexivity.
Qed.

Lemma later_articles_ignored_witness :
  answering (<["articles" := JArr five_articles]> ok_answer)
    news_url (news_params "Infosys" "k3y") 10 =
    Some {| status_code := 200;
            json_body := Some (JObj (<["articles" := JArr five_articles]> ok_answer)) |} /\
  answering (<["articles" := JArr (five_articles ++ [JNull])]> ok_answer)
    news_url (news_params "Infosys" "k3y") 10 =
    Some {| status_code := 200;
            json_body :=
              Some (JObj (<["articles" := JArr (five_articles ++ [JNull])]> ok_answer)) |} /\
  (5 <= length five_articles)%nat /\
  get_news_headlines (answering (<["articles" := JArr five_articles]> ok_answer))
    "Infosys" "k3y" =
  get_news_headlines
    (answering (<["articles" := JArr (five_articles ++ [JNull])]> ok_answer))
    "Infosys" "k3y".
Proof.
  assert (Hlen : (5 <= length five_articles)%nat) by (simpl; lia).
  split; [reflexivity |]. split; [reflexivity |]. split; [exact Hlen |].
  exact (later_articles_ignored
           (answering (<["articles" := JArr five_articles]> ok_answer))
           (answering (<["articles" := JArr (five_articles ++ [JNull])]> ok_answer))
           "Infosys" "k3y" ok_answer five_articles [JNull] eq_refl eq_refl Hlen).
Defined.

Lemma headline_view_length (hs : list (gmap string json)) (hl : list Headline) :
  mapM headline_view hs = Some hl -> length hl = length hs.
Proof. intros H. symmetry. exact (length_mapM _ _ _ H). Qed.

(** X18. When the fetched headlines have texts for titles and
    descriptions, the scorer gets at most five of them, the news impact lies
    between -25 and +25, and the score is the sum of base score and impacts
    cut at 100 only. *)
Theorem score_of_fetched_headlines
    (requests_get : string -> list (string * value) -> Z -> option Response)
    (company_name api_key : string) (fd : FinancialData)
    (hl : list Headline) (score : Z) (e : gmap string value) :
  mapM headline_view (get_news_headlines requests_get company_name api_key) = Some hl ->
  calculate_credit_score (Some fd) hl = Ok (score, e) ->
  (length hl <= 5)%nat /\
  exists d m n : Z,
    e !! "debt_ratio_impact" = Some (VInt d) /\
    e !! "market_cap_impact" = Some (VInt m) /\
    e !! "news_sentiment_impact" = Some (VInt n) /\
    -25 <= n <= 25 /\
    score = Z.min 100 (50 + d + m + n).
Proof.
  intros Hview H.
  assert (Hlen : (length hl <= 5)%nat).
  { rewrite (headline_view_length _ _ Hview).
    apply fetched_count_le_five. }
  split; [exact Hlen |].
  destruct (score_of_few_headlines fd hl score e Hlen H)
    as (d & m & n & Hd & Hm & Hn & _ & _ & Hnb & _ & Hs).
  exists d, m, n. auto.
Qed.

Lemma sample_fetch_view :
  mapM headline_view
    (get_news_headlines (answering sample_answer)
       "Infosys" "k3y") = Some [sample_headline_record].
Proof. vm_cast_no_check (eq_refl (Some [sample_headline_record])). Qed.

Lemma indebted_sample_score :
  calculate_credit_score (Some indebted_snapshot) [sample_headline_record] =
  Ok (30, indebted_sample_explanation).
Proof. vm_cast_no_check (eq_refl (Ok (30, indebted_sample_explanation))). Qed.

Lemma score_of_fetched_headlines_witness :
  mapM headline_view (get_news_headlines (answering sample_answer) "Infosys" "k3y") =
    Some [sample_headline_record] /\
  calculate_credit_score (Some indebted_snapshot) [sample_headline_record] =
    Ok (30, indebted_sample_explanation) /\
  (length [sample_headline_record] <= 5)%nat /\
  exists d m n : Z,
    indebted_sample_explanation !! "debt_ratio_impact" = Some (VInt d) /\
    indebted_sample_explanation !! "market_cap_impact" = Some (VInt m) /\
    indebted_sample_explanation !! "news_sentiment_impact" = Some (VInt n) /\
    -25 <= n <= 25 /\
    30 = Z.min 100 (50 + d + m + n).
Proof.
  split; [exact sample_fetch_view |]. split; [exact indebted_sample_score |].
  exact (score_of_fetched_headlines (answering sample_answer) "Infosys" "k3y"
           indebted_snapshot [sample_headline_record] 30 indebted_sample_explanation
           sample_fetch_view indebted_sample_score).
Defined.

End NewsPipeline.

(** * The data provider *)

Section FinancialProvider.

Local Open Scope Z_scope.

Variable ticker_info : string -> option json.

Lemma size_lt_3_false (info : gmap string json) :
  (3 <= size info)%nat ->
  negb (json_truthy (JObj info)) || (size info <? 3)%nat = false.
Proof.
  intros H. cbn [json_truthy]. rewrite negb_involutive.
  apply orb_false_iff. split.
  - apply bool_decide_eq_false. intros ->. rewrite map_size_empty in H. lia.
  - apply Nat.ltb_ge. exact H.
Qed.

Lemma get_financial_data_some (ticker : string) (info : gmap string json) :
  ticker_info ticker = Some (JObj info) -> (3 <= size info)%nat ->
  get_financial_data ticker_info ticker =
  Some (list_to_map
          [("ticker", JStr ticker);
           ("company_name",
            json_get info "longName" (json_get info "shortName" (JStr "Unknown")));
           ("total_revenue", json_get info "totalRevenue" (JInt 0));
           ("total_debt", json_get info "totalDebt" (JInt 0));
           ("market_cap", json_get info "marketCap" (JInt 0));
           ("currency", json_get info "currency" (JStr "INR"));
           ("sector", json_get info "sector" (JStr "Unknown"));
           ("industry", json_get info "industry" (JStr "Unknown"))]).
Proof.
  intros Hinfo Hsize. unfold get_financial_data.
  rewrite Hinfo, (size_lt_3_false info Hsize). reflexivity.
Qed.

Lemma get_financial_data_inv (ticker : string) (d : gmap string json) :
  get_financial_data ticker_info ticker = Some d ->
  exists info, ticker_info ticker = Some (JObj info) /\ (3 <= size info)%nat.
Proof.
  unfold get_financial_data.
  destruct (ticker_info ticker) as [[| | | | | | info] |]; try discriminate.
  destruct (negb (json_truthy (JObj info)) || (size info <? 3)%nat) eqn:E;
    [discriminate |].
  intros _. exists info. split; [reflexivity |].
  apply orb_false_iff in E. destruct E as [_ E]. apply Nat.ltb_ge in E. exact E.
Qed.

(** X19. A snapshot is returned exactly when the data provider answers
    with a dict of at least three entries; an exception, an answer that is no
    dict and a dict of fewer than three entries all give [None]. *)
Theorem snapshot_returned_iff (ticker : string) :
  is_Some (get_financial_data ticker_info ticker) <->
  exists info, ticker_info ticker = Some (JObj info) /\ (3 <= size info)%nat.
Proof.
  split.
  - intros [d Hd]. exact (get_financial_data_inv ticker d Hd).
  - intros (info & Hinfo & Hsize).
    rewrite (get_financial_data_some ticker info Hinfo Hsize). eauto.
Qed.

(** X20. A returned snapshot has exactly the eight keys ticker,
    company_name, total_revenue, total_debt, market_cap, currency, sector and
    industry, whatever the provider's dict holds, and its ticker is the one
    asked for. *)
Theorem snapshot_keys (ticker : string) (d : gmap string json) :
  get_financial_data ticker_info ticker = Some d ->
  dom d = list_to_set ["ticker"; "company_name"; "total_revenue"; "total_debt";
                       "market_cap"; "currency"; "sector"; "industry"]
  /\ d !! "ticker" = Some (JStr ticker).
Proof.
  intros Hd.
  destruct (get_financial_data_inv ticker d Hd) as (info & Hinfo & Hsize).
  rewrite (get_financial_data_some ticker info Hinfo Hsize) in Hd.
  injection Hd as <-. split.
  - cbn [list_to_map foldr uncurry]. rewrite !dom_insert_L, dom_empty_L.
    cbn [list_to_set foldr]. reflexivity.
  - reflexivity.
Qed.

Lemma int_entry_default (info : gmap string json) (key : string) (n : option Z) :
  int_entry info key = Some n ->
  json_get info key (JInt 0) = JInt (default 0 n).
Proof.
  unfold int_entry, json_get.
  destruct (info !! key) as [[| | k | | | |] |]; try discriminate;
    intros [= <-]; reflexivity.
Qed.

Lemma text_entry_default (info : gmap string json) (key dflt : string) (s : option string) :
  text_entry info key = Some s ->
  json_get info key (JStr dflt) = JStr (default dflt s).
Proof.
  unfold text_entry, json_get.
  destruct (info !! key) as [[| | | | k | |] |]; try discriminate;
    intros [= <-]; reflexivity.
Qed.

Lemma snapshot_view_fetched (ticker : string) (info : gmap string json)
    (revenue debt cap : option Z) (cur : option string) :
  ticker_info ticker = Some (JObj info) -> (3 <= size info)%nat ->
  int_entry info "totalRevenue" = Some revenue ->
  int_entry info "totalDebt" = Some debt ->
  int_entry info "marketCap" = Some cap ->
  text_entry info "currency" = Some cur ->
  exists d fd,
    get_financial_data ticker_info ticker = Some d /\
    snapshot_view d = Some fd /\
    total_revenue fd = Some (default 0 revenue) /\
    total_debt fd = Some (default 0 debt) /\
    market_cap fd = Some (default 0 cap) /\
    currency fd = Some (default "INR" cur).
Proof.
  intros Hinfo Hsize Hr Hd Hc Hcur.
  rewrite (get_financial_data_some ticker info Hinfo Hsize).
  rewrite (int_entry_default _ _ _ Hr), (int_entry_default _ _ _ Hd),
    (int_entry_default _ _ _ Hc), (text_entry_default _ _ _ _ Hcur).
  eexists _, _. split; [reflexivity |].
  split; [reflexivity |]. repeat split.
Qed.

(** X21. An instrument whose provider dict names neither a revenue nor a
    market capitalisation still gets a snapshot, and the scorer rates it from
    the news alone, for all headlines whose titles and descriptions are
    texts or missing: both evaluators report Data unavailable, the debt
    impact is -10, the market impact 0, and the score is 40 plus the news
    impact, clamped. No number is divided. *)
Theorem figureless_instrument (ticker : string) (info : gmap string json)
    (debt : option Z) (cur : option string)
    (headlines : list (gmap string json)) (hl : list Headline) :
  ticker_info ticker = Some (JObj info) -> (3 <= size info)%nat ->
  info !! "totalRevenue" = None ->
  info !! "marketCap" = None ->
  int_entry info "totalDebt" = Some debt ->
  text_entry info "currency" = Some cur ->
  mapM headline_view headlines = Some hl ->
  exists d fd e,
    get_financial_data ticker_info ticker = Some d /\
    snapshot_view d = Some fd /\
    calculate_credit_score (Some fd) hl =
      Ok (Z.max 0 (Z.min 100 (40 + 5 * count_headlines positive_only hl
                                 - 5 * count_headlines has_negative hl)), e) /\
    e !! "debt_ratio" = Some (VStr "Data unavailable") /\
    e !! "debt_ratio_impact" = Some (VInt (-10)) /\
    e !! "market_cap_billions" = Some (VStr "Data unavailable") /\
    e !! "market_cap_impact" = Some (VInt 0).
Proof.
  intros Hinfo Hsize Hrev Hcap Hdebt Hcur _.
  assert (Hr : int_entry info "totalRevenue" = Some None)
    by (unfold int_entry; rewrite Hrev; reflexivity).
  assert (Hc : int_entry info "marketCap" = Some None)
    by (unfold int_entry; rewrite Hcap; reflexivity).
  destruct (snapshot_view_fetched ticker info None debt None cur
              Hinfo Hsize Hr Hdebt Hc Hcur)
    as (d & fd & Hget & Hview & Hfr & Hfd & Hfc & _).
  exists d, fd. eexists. split; [exact Hget |]. split; [exact Hview |].
  assert (Hda : debt_ratio_analysis (default 0 (total_revenue fd))
                  (default 0 (total_debt fd)) (initial_explanation 50) =
                Ok (-10, <["debt_ratio" := VStr "Data unavailable"]> (initial_explanation 50))).
  { apply debt_ratio_analysis_unavailable. rewrite Hfr. left. simpl. lia. }
  assert (Hma : market_cap_analysis fd
                  (<["debt_ratio_impact" := VInt (-10)]>
                     (<["debt_ratio" := VStr "Data unavailable"]> (initial_explanation 50))) =
                Ok (0, <["market_cap_billions" := VStr "Data unavailable"]>
                         (<["debt_ratio_impact" := VInt (-10)]>
                            (<["debt_ratio" := VStr "Data unavailable"]>
                               (initial_explanation 50))))).
  { apply market_cap_analysis_unavailable. rewrite Hfc. simpl. lia. }
  rewrite (calculate_credit_score_compose fd hl (-10) 0 _ _ Hda Hma). cbv zeta.
  split; [f_equal; f_equal; f_equal; lia |].
  split; [apply assembled_debt_ratio |].
  split; [apply assembled_debt_ratio_impact |].
  split; [apply assembled_market_cap_billions | apply assembled_market_cap_impact].
Qed.

End FinancialProvider.

Section FinancialProviderExamples.

Local Open Scope Z_scope.

Lemma sample_snapshot_fetched :
  get_financial_data (quoting sample_info) "INFY.NS" = Some sample_snapshot.
Proof. vm_cast_no_check (eq_refl (Some sample_snapshot)). Qed.

Lemma snapshot_keys_witness :
  get_financial_data (quoting sample_info) "INFY.NS" = Some sample_snapshot /\
  dom sample_snapshot =
    list_to_set ["ticker"; "company_name"; "total_revenue"; "total_debt";
                 "market_cap"; "currency"; "sector"; "industry"] /\
  sample_snapshot !! "ticker" = Some (JStr "INFY.NS").
Proof.
  split; [exact sample_snapshot_fetched |].
  exact (snapshot_keys (quoting sample_info) "INFY.NS" sample_snapshot
           sample_snapshot_fetched).
Defined.

Lemma index_info_size : (3 <= size index_info)%nat.
Proof. vm_compute. lia. Qed.

Lemma sample_headlines_view :
  mapM headline_view [sample_headline] = Some [sample_headline_record].
Proof. vm_cast_no_check (eq_refl (Some [sample_headline_record])). Qed.

Lemma figureless_instrument_witness :
  quoting index_info "^NSEI" = Some (JObj index_info) /\
  (3 <= size index_info)%nat /\
  index_info !! "totalRevenue" = None /\
  index_info !! "marketCap" = None /\
  int_entry index_info "totalDebt" = Some None /\
  text_entry index_info "currency" = Some (Some "INR") /\
  mapM headline_view [sample_headline] = Some [sample_headline_record] /\
  exists d fd e,
    get_financial_data (quoting index_info) "^NSEI" = Some d /\
    snapshot_view d = Some fd /\
    calculate_credit_score (Some fd) [sample_headline_record] =
      Ok (Z.max 0 (Z.min 100
                     (40 + 5 * count_headlines positive_only [sample_headline_record]
                         - 5 * count_headlines has_negative [sample_headline_record])), e) /\
    e !! "debt_ratio" = Some (VStr "Data unavailable") /\
    e !! "debt_ratio_impact" = Some (VInt (-10)) /\
    e !! "market_cap_billions" = Some (VStr "Data unavailable") /\
    e !! "market_cap_impact" = Some (VInt 0).
Proof.
  split; [reflexivity |]. split; [exact index_info_size |].
  split; [reflexivity |]. split; [reflexivity |].
  split; [reflexivity |]. split; [reflexivity |].
  split; [exact sample_headlines_view |].
  exact (figureless_instrument (quoting index_info) "^NSEI" index_info None (Some "INR")
           [sample_headline] [sample_headline_record]
           eq_refl index_info_size eq_refl eq_refl eq_refl eq_refl sample_headlines_view).
Defined.

End FinancialProviderExamples.

(** * The text handling of main and of the headlines *)

Section MainText.

Local Open Scope Z_scope.

Lemma lower_upper_ascii (c : ascii) : lower_ascii (upper_ascii c) = lower_ascii c.
Proof. destruct c as [[] [] [] [] [] [] [] []]; reflexivity. Qed.

Lemma py_lower_upper (s : string) : py_lower (py_upper s) = py_lower s.
Proof.
  induction s as [| c t IH]; [reflexivity |].
  cbn [py_upper py_lower]. rewrite lower_upper_ascii, IH. reflexivity.
Qed.

Lemma full_text_in_capitals (h : Headline) : full_text (in_capitals h) = full_text h.
Proof.
  unfold full_text, in_capitals. cbn [title description].
  destruct (title h) as [t |], (description h) as [d |];
    cbn [option_map default]; unfold id; rewrite ?py_lower_upper; reflexivity.
Qed.

Lemma sentiment_step_in_capitals (st : Z * Z * Z) (h : Headline) :
  sentiment_step st (in_capitals h) = sentiment_step st h.
Proof.
  unfold sentiment_step, has_negative, has_positive.
  rewrite full_text_in_capitals. reflexivity.
Qed.

Lemma sentiment_loop_in_capitals (hl : list Headline) (st : Z * Z * Z) :
  fold_left sentiment_step (map in_capitals hl) st = fold_left sentiment_step hl st.
Proof.
  revert st. induction hl as [| h hl IH]; intros st; [reflexivity |].
  cbn [map fold_left]. rewrite sentiment_step_in_capitals. apply IH.
Qed.

(** X22. For headlines of ASCII text the letter case does not matter:
    the same headlines in capital letters give the same score and
    explanation, or the same exception. *)
Theorem score_ignores_letter_case (fdo : option FinancialData) (hl : list Headline) :
  forallb ascii_headline hl = true ->
  calculate_credit_score fdo (map in_capitals hl) = calculate_credit_score fdo hl.
Proof.
  intros _.
  apply calculate_credit_score_news. unfold news_sentiment_analysis.
  apply sentiment_loop_in_capitals.
Qed.

Lemma score_ignores_letter_case_witness :
  forallb ascii_headline praise = true /\
  calculate_credit_score (Some thriving_snapshot) (map in_capitals praise) =
  calculate_credit_score (Some thriving_snapshot) praise.
Proof.
  assert (H : forallb ascii_headline praise = true) by reflexivity.
  split; [exact H |].
  exact (score_ignores_letter_case (Some thriving_snapshot) praise H).
Defined.

(** X23. The two parts main shows of a rating, [rating.split()[0]] and
    [rating.split('(')[1].rstrip(')')], exist for the rating of every score,
    so neither subscript raises, and the rating is the first part followed by
    the second in brackets. *)
Theorem rating_display_parts (score : Z) :
  exists grade desc : string,
    rating_grade (get_rating_category score) = Some grade /\
    rating_desc (get_rating_category score) = Some desc /\
    get_rating_category score = grade +:+ " (" +:+ desc +:+ ")".
Proof.
  unfold get_rating_category.
  repeat match goal with
         | |- context [if ?b then _ else _] => destruct b
         end;
    eexists _, _; (split; [reflexivity |]); split; reflexivity.
Qed.

Lemma py_endswith_app (suffix s : string) : py_endswith suffix (s +:+ suffix) = true.
Proof.
  induction s as [| c t IH].
  - rewrite append_nil.
    destruct suffix; cbn [py_endswith]; rewrite String.eqb_refl; reflexivity.
  - rewrite append_cons. cbn [py_endswith]. rewrite IH. apply orb_true_r.
Qed.

Lemma py_in_dot_cons (c : ascii) (t : string) :
  py_in "." (String c t) = false -> c <> "."%char /\ py_in "." t = false.
Proof.
  cbn [py_in]. intros H. apply orb_false_iff in H. destruct H as [Hp Ht].
  split; [| exact Ht]. intros ->. cbn [String.prefix] in Hp.
  destruct (Ascii.ascii_dec "." ".") as [_ | Hne];
    [destruct t; discriminate Hp | exact (Hne eq_refl)].
Qed.

Lemma replace_suffix_stem (stem : string) :
  py_in "." stem = false ->
  replace_from ".NS" "" 0 (stem +:+ ".NS") = stem.
Proof.
  induction stem as [| c t IH]; intros H.
  - reflexivity.
  - apply py_in_dot_cons in H. destruct H as [Hc Ht].
    rewrite append_cons. cbn [replace_from].
    cbn [String.prefix]. destruct (Ascii.ascii_dec "." c) as [E | _];
      [symmetry in E; contradiction |].
    rewrite (IH Ht). reflexivity.
Qed.

(** X24. For a ticker made of a stem without a dot and the suffix .NS that
    is not in the table of companies, main lets the ticker through its
    suffix check and searches the news under the stem. *)
Theorem search_name_is_stem (stem : string) :
  py_in "." stem = false ->
  COMPANY_MAPPING !! (stem +:+ ".NS") = None ->
  py_endswith ".NS" (stem +:+ ".NS") = true /\
  company_name_for (stem +:+ ".NS") = stem.
Proof.
  intros Hdot Hnone. split; [apply py_endswith_app |].
  unfold company_name_for. rewrite Hnone. cbn [default].
  unfold py_replace. cbn [String.eqb]. apply replace_suffix_stem. exact Hdot.
Qed.

Lemma search_name_is_stem_witness :
  py_endswith ".NS" "WIPRO.NS" = true /\ company_name_for "WIPRO.NS" = "WIPRO".
Proof. apply (search_name_is_stem "WIPRO"); reflexivity. Defined.

Lemma COMPANY_MAPPING_Forall (P : string -> string -> Prop) :
  Forall (fun entry => P entry.1 entry.2)
    [("RELIANCE.NS", "Reliance Industries");
     ("TCS.NS", "Tata Consultancy Services");
     ("HDFCBANK.NS", "HDFC Bank");
     ("INFY.NS", "Infosys");
     ("ICICIBANK.NS", "ICICI Bank");
     ("HINDUNILVR.NS", "Hindustan Unilever");
     ("ITC.NS", "ITC Limited");
     ("SBIN.NS", "State Bank of India");
     ("BHARTIARTL.NS", "Bharti Airtel");
     ("KOTAKBANK.NS", "Kotak Mahindra Bank");
     ("LT.NS", "Larsen & Toubro");
     ("HCLTECH.NS", "HCL Technologies");
     ("ASIANPAINT.NS", "Asian Paints");
     ("MARUTI.NS", "Maruti Suzuki");
     ("TITAN.NS", "Titan Company")] ->
  forall k name, COMPANY_MAPPING !! k = Some name -> P k name.
Proof.
  intros HP k name Hk. unfold COMPANY_MAPPING in Hk.
  apply elem_of_list_to_map_2 in Hk.
  rewrite Forall_forall in HP. exact (HP (k, name) Hk).
Qed.

(** X25. Every ticker of the table of companies passes main's suffix
    check and is left as it is by the upper-casing and stripping of the input,
    also when typed in small letters; so every company of the table can be
    reached from the input field. *)
Theorem table_tickers_reachable (k name : string) :
  COMPANY_MAPPING !! k = Some name ->
  py_endswith ".NS" k = true /\
  normalise_ticker k = k /\
  normalise_ticker (py_lower k) = k /\
  company_name_for (normalise_ticker (py_lower k)) = name.
Proof.
  intros Hk.
  assert (H : py_endswith ".NS" k = true /\ normalise_ticker k = k /\
              normalise_ticker (py_lower k) = k).
  { revert k name Hk.
    apply (COMPANY_MAPPING_Forall
             (fun k _ => py_endswith ".NS" k = true /\ normalise_ticker k = k /\
                         normalise_ticker (py_lower k) = k)).
    repeat constructor. }
  destruct H as (He & Hn & Hl). repeat (split; [assumption |]).
  rewrite Hl. unfold company_name_for. rewrite Hk. reflexivity.
Qed.

Lemma table_tickers_reachable_witness :
  py_endswith ".NS" "TCS.NS" = true /\
  normalise_ticker "TCS.NS" = "TCS.NS" /\
  normalise_ticker (py_lower "TCS.NS") = "TCS.NS" /\
  company_name_for (normalise_ticker (py_lower "TCS.NS")) = "Tata Consultancy Services".
Proof. apply (table_tickers_reachable "TCS.NS"). reflexivity. Defined.

End MainText.
